(** * x402solana: a shallow embedding of the payment flow and the
      pagination hook, with the properties stated about them.

    The repository is a collection of GitBook pages carrying TypeScript and
    JavaScript fragments.  Each definition below names the file and the lines
    it is translated from.  Services the fragments call and do not define
    (the ledger, the wallet, the clock, [verifySolanaPayment]) are
    parameters.  The validation of a decoded payload, which the pages do not
    have, is marked [Modelled from the spec:]. *)

From Stdlib Require Import ZArith QArith Qround Lia Bool List Ascii String.
From stdpp Require Import base option list gmap strings pretty.

Local Open Scope Z_scope.

(** ** JavaScript numbers

    The hook and the client compute with JavaScript numbers: IEEE 754
    doubles.  A finite double is kept as the rational it denotes; negative
    zero, the infinities and NaN are separate values.  Sums and quotients are
    rounded to the nearest double, ties to even. *)

Module JsNumber.

Inductive number : Type :=
  | Num (q : Q)
  | NegZero
  | PosInf
  | NegInf
  | NaN.

Definition of_Z (z : Z) : number := Num (inject_Z z).

(** The integer nearest to n / d for d > 0, the even one at a tie. *)
Definition nearest_even (n d : Z) : Z :=
  let q := n / d in
  let r := n mod d in
  if 2 * r <? d then q
  else if d <? 2 * r then q + 1
  else if Z.even q then q else q + 1.

(** The k with 2^k <= n / d < 2^(k+1). *)
Definition binade (n d : positive) : Z :=
  let l := Z.log2 (Zpos n) - Z.log2 (Zpos d) in
  if (if 0 <=? l then 2 ^ l * Zpos d <=? Zpos n else Zpos d <=? 2 ^ (- l) * Zpos n)
  then l else l - 1.

(** The double nearest to n / d, with the given sign.  A double is m * 2^e
    with m below 2^53 and e from -1074 to 971; what rounds to 2^1024 or
    more is an infinity, what rounds to nothing is a zero. *)
Definition round_pos (negative : bool) (n d : positive) : number :=
  let e := Z.max (binade n d - 52) (-1074) in
  let m := if 0 <=? e then nearest_even (Zpos n) (Zpos d * 2 ^ e)
           else nearest_even (Zpos n * 2 ^ (- e)) (Zpos d) in
  if (971 <? e) || ((e =? 971) && (2 ^ 53 <=? m)) then (if negative then NegInf else PosInf)
  else if m =? 0 then (if negative then NegZero else Num 0)
  else
    let v := if 0 <=? e then inject_Z (m * 2 ^ e)
             else Qred (Qmake m (Z.to_pos (2 ^ (- e)))) in
    Num (if negative then Qopp v else v).

Definition round (q : Q) : number :=
  match Qnum q with
  | Z0 => Num 0
  | Zpos n => round_pos false n (Qden q)
  | Zneg n => round_pos true n (Qden q)
  end.

Definition negative (x : number) : bool :=
  match x with
  | Num q => Qnum q <? 0
  | NegZero | NegInf => true
  | PosInf | NaN => false
  end.

Definition is_zero (x : number) : bool :=
  match x with
  | Num q => Qnum q =? 0
  | NegZero => true
  | _ => false
  end.

(** The rational a finite number denotes. *)
Definition value (x : number) : Q :=
  match x with Num q => q | _ => 0%Q end.

Definition neg (x : number) : number :=
  match x with
  | Num q => if Qnum q =? 0 then NegZero else Num (- q)
  | NegZero => Num 0
  | PosInf => NegInf
  | NegInf => PosInf
  | NaN => NaN
  end.

(** [x + y]. *)
Definition add (x y : number) : number :=
  match x, y with
  | NaN, _ | _, NaN => NaN
  | PosInf, NegInf | NegInf, PosInf => NaN
  | PosInf, _ | _, PosInf => PosInf
  | NegInf, _ | _, NegInf => NegInf
  | NegZero, NegZero => NegZero
  | _, _ => round (value x + value y)
  end.

(** [x - y]. *)
Definition sub (x y : number) : number := add x (neg y).

Definition signed (negative : bool) (positive_result negative_result : number) : number :=
  if negative then negative_result else positive_result.

(** [x / y]. *)
Definition div (x y : number) : number :=
  let s := xorb (negative x) (negative y) in
  match x, y with
  | NaN, _ | _, NaN => NaN
  | (PosInf | NegInf), (PosInf | NegInf) => NaN
  | (PosInf | NegInf), _ => signed s PosInf NegInf
  | _, (PosInf | NegInf) => signed s (Num 0) NegZero
  | _, _ =>
      if is_zero y then (if is_zero x then NaN else signed s PosInf NegInf)
      else if is_zero x then signed s (Num 0) NegZero
      else round (value x / value y)
  end.

(** [Math.ceil(x)]. *)
Definition ceil (x : number) : number :=
  match x with
  | Num q => if (Qceiling q =? 0) && (Qnum q <? 0) then NegZero else of_Z (Qceiling q)
  | _ => x
  end.

(** [x < y] and [x <= y]: false when either side is NaN; the two zeros are
    equal. *)
Definition ltb (x y : number) : bool :=
  match x, y with
  | NaN, _ | _, NaN => false
  | PosInf, _ | _, NegInf => false
  | NegInf, _ | _, PosInf => true
  | _, _ => negb (Qle_bool (value y) (value x))
  end.

Definition leb (x y : number) : bool :=
  match x, y with
  | NaN, _ | _, NaN => false
  | NegInf, _ | _, PosInf => true
  | PosInf, _ | _, NegInf => false
  | _, _ => Qle_bool (value x) (value y)
  end.

(** [x > y] and [x >= y]. *)
Definition gtb (x y : number) : bool := ltb y x.
Definition geb (x y : number) : bool := leb y x.

(** The numbers that count as false: the zeros and NaN. *)
Definition falsy (x : number) : bool :=
  match x with NaN => true | _ => is_zero x end.

(** [a || d] where [a] may be undefined. *)
Definition or (a : option number) (d : number) : number :=
  match a with
  | Some x => if falsy x then d else x
  | None => d
  end.

(** The operand of a comparison: undefined converts to NaN. *)
Definition to_number (a : option number) : number :=
  match a with Some x => x | None => NaN end.

(** A number without a fractional part, or not finite. *)
Definition integral (x : number) : Prop :=
  match x with
  | Num q => exists z, q = inject_Z z
  | _ => True
  end.

End JsNumber.

(** ** Pagination hook  (src/unnamed/part_003, lines 22-86) *)

Module Pagination.

Import JsNumber.

(** The three [useState] cells, lines 27-29. *)
Record hook : Type := Hook {
  page : number;
  pageSize : number;
  total : number
}.

(** Defaults of the options object, lines 22-26; a default applies to an
    absent or undefined property. *)
Definition usePagination (initialPage initialPageSize totalItems : option number) : hook :=
  {| page := default (of_Z 1) initialPage;
     pageSize := default (of_Z 10) initialPageSize;
     total := default (of_Z 0) totalItems |}.

(** Lines 31-37, computed at each render. *)
Definition totalPages (s : hook) : number := ceil (div (total s) (pageSize s)).
Definition hasNextPage (s : hook) : bool := ltb (page s) (totalPages s).
Definition hasPreviousPage (s : hook) : bool := gtb (page s) (of_Z 1).

(** The state setters; [setPage] takes an updater as in
    [setPage((prev) => prev + 1)]. *)
Definition setPage (f : number -> number) (s : hook) : hook :=
  {| page := f (page s); pageSize := pageSize s; total := total s |}.
Definition setPageSize (n : number) (s : hook) : hook :=
  {| page := page s; pageSize := n; total := total s |}.
Definition setTotal (n : number) (s : hook) : hook :=
  {| page := page s; pageSize := pageSize s; total := n |}.

(** A callback of a render: its guard reads the state that was rendered, and
    the update it queues is applied to the pending state. *)
Definition callback : Type := hook -> hook -> hook.

(** Lines 39-43. *)
Definition nextPage : callback := fun rendered pending =>
  if hasNextPage rendered then setPage (fun prev => add prev (of_Z 1)) pending else pending.

(** Lines 45-49. *)
Definition previousPage : callback := fun rendered pending =>
  if hasPreviousPage rendered then setPage (fun prev => sub prev (of_Z 1)) pending else pending.

(** Lines 51-58. *)
Definition goToPage (newPage : number) : callback := fun rendered pending =>
  if geb newPage (of_Z 1) && leb newPage (totalPages rendered)
  then setPage (fun _ => newPage) pending
  else pending.

(** Lines 60-63. *)
Definition changePageSize (newPageSize : number) : callback := fun rendered pending =>
  setPage (fun _ => of_Z 1) (setPageSize newPageSize pending).

(** Lines 65-67. *)
Definition updateTotal (newTotal : number) : callback := fun rendered pending =>
  setTotal newTotal pending.

(** An event handler that calls callbacks of one render, in order; the next
    render shows the pending state. *)
Definition handle (calls : list callback) (rendered : hook) : hook :=
  fold_left (fun pending call => call rendered pending) calls rendered.

(** One call, then the render. *)
Definition once (call : callback) (rendered : hook) : hook := call rendered rendered.

(** The page lies in [1, totalPages], and totalPages >= 1. *)
Definition in_rangeb (s : hook) : bool :=
  geb (page s) (of_Z 1) && leb (page s) (totalPages s) && geb (totalPages s) (of_Z 1).

Definition in_range (s : hook) : Prop :=
  geb (page s) (of_Z 1) = true
  /\ leb (page s) (totalPages s) = true
  /\ geb (totalPages s) (of_Z 1) = true.

End Pagination.

(** ** Effects

    The asynchronous functions of the pages call services that are not part of
    the repository ([fetch], the wallet, the Solana connection, the clock).
    A computation threads a world [W] those services read and change, appends
    to a chronological trace of events [Ev], and either returns a value or
    throws an [Error] carrying its message. *)

Module Effects.

Inductive Exc (A : Type) : Type :=
  | Throw (message : string)
  | Ok (a : A).
Arguments Throw {A} message.
Arguments Ok {A} a.

Definition M (W Ev A : Type) : Type := W * list Ev -> (W * list Ev) * Exc A.

Definition ret {W Ev A} (a : A) : M W Ev A := fun s => (s, Ok a).

Definition bind {W Ev A B} (c : M W Ev A) (k : A -> M W Ev B) : M W Ev B :=
  fun s =>
    match c s with
    | (s', Ok a) => k a s'
    | (s', Throw e) => (s', Throw e)
    end.

(** [throw new Error(message)]. *)
Definition throw {W Ev A} (message : string) : M W Ev A := fun s => (s, Throw message).

(** [try { c } catch (error) { handler(error.message) }]. *)
Definition try_catch {W Ev A} (c : M W Ev A) (handler : string -> M W Ev A) : M W Ev A :=
  fun s =>
    match c s with
    | (s', Ok a) => (s', Ok a)
    | (s', Throw e) => handler e s'
    end.

(** Record an event. *)
Definition emit {W Ev} (e : Ev) : M W Ev unit :=
  fun s => ((fst s, snd s ++ [e]), Ok tt).

(** Call an outside service: it changes the world and returns or throws. *)
Definition call {W Ev A} (service : W -> W * Exc A) : M W Ev A :=
  fun s => let (w', r) := service (fst s) in ((w', snd s), r).

(** Run from a world with an empty trace. *)
Definition run {W Ev A} (c : M W Ev A) (w : W) : (W * list Ev) * Exc A := c (w, []).

Definition is_throw {A} (r : Exc A) : bool :=
  match r with Throw _ => true | Ok _ => false end.

End Effects.

Import Effects.

Declare Scope eff_scope.
Delimit Scope eff_scope with eff.
Notation "x <- y ;; z" := (bind y (fun x => z))
  (at level 20, y at level 99, z at level 200, only parsing) : eff_scope.
Notation "y ;;; z" := (bind y (fun _ => z))
  (at level 20, z at level 200, only parsing) : eff_scope.

(** Numbers that carry amounts are kept as rationals: the finite values of a
    JavaScript number are ordered as the rationals they denote, and the
    amounts in the pages are decimal fractions such as 0.01 and 0.25. *)
Definition Qltb (a b : Q) : bool := negb (Qle_bool b a).

(** [a || d] for the three property types: [false], [0] and the empty string
    are falsy, as is an absent property. *)
Definition or_bool (a : option bool) (d : bool) : bool :=
  match a with Some true => true | _ => d end.
Definition or_number (a : option Q) (d : Q) : Q :=
  match a with
  | Some q => if Qeq_bool q 0 then d else q
  | None => d
  end.
Definition or_string (a : option string) (d : string) : string :=
  match a with
  | Some EmptyString => d
  | Some s => s
  | None => d
  end.

(** ** Client SDK  (src/solana-pay-402/solpay402-sdk.md) *)

Module Sdk.

(** [src/client/types.ts], lines 203-253. *)
Module PaymentRequest.
Record t : Type := Make {
  amount : JsNumber.number;
  token : string;
  recipient : string;
  paymentId : string;
  expiresAt : Z;
  description : option string
}.
End PaymentRequest.

Module X402PaymentHeader.
Record t : Type := Make {
  version : string;
  paymentId : string;
  amount : JsNumber.number;
  token : string;
  recipient : string;
  transaction : string;
  signature : string
}.
End X402PaymentHeader.

Module PaymentResponse.
Record t : Type := Make {
  success : bool;
  error : option string;
  paymentId : string
}.
End PaymentResponse.

(** An optional property of an object: absent, present with the value
    [undefined], or present with a value.  Reading an absent property gives
    [undefined]; a spread copies a property that is present, whatever its
    value. *)
Inductive property (A : Type) : Type :=
  | Absent
  | Undefined
  | Value (a : A).
Arguments Absent {A}.
Arguments Undefined {A}.
Arguments Value {A} a.

(** [object.name]; [None] is [undefined]. *)
Definition read {A : Type} (p : property A) : option A :=
  match p with
  | Value a => Some a
  | Absent | Undefined => None
  end.

(** The option object.  The three callback properties are stored by the
    constructor and never called by the class, so they are left out. *)
Module SolPay402ClientOptions.
Record t : Type := Make {
  autoApprove : property bool;
  maxPaymentAmount : property JsNumber.number;
  preferredToken : property string
}.
End SolPay402ClientOptions.

(** The placeholder transaction of [createPaymentTransaction]: it gets a
    blockhash and a fee payer, and no instruction. *)
Record Transaction : Type := {
  recentBlockhash : string;
  feePayer : string
}.

Record RequestInit : Type := { init_headers : list (string * string) }.

Record Response : Type := {
  status : Z;
  headers : list (string * string)
}.

(** A header name in lower case: the [Headers] object matches names without
    regard to the case of ASCII letters. *)
Definition lower_ascii (c : ascii) : ascii :=
  let n := N_of_ascii c in
  if ((65 <=? n) && (n <=? 90))%N then ascii_of_N (n + 32) else c.

Fixpoint lower (s : string) : string :=
  match s with
  | EmptyString => EmptyString
  | String c rest => String (lower_ascii c) (lower rest)
  end.

(** [response.headers.get(name)]: the values of the headers of that name, in
    order, joined by a comma and a space; [None] is [null]. *)
Definition headers_get (hs : list (string * string)) (name : string) : option string :=
  match List.filter (fun kv => String.eqb (lower (fst kv)) (lower name)) hs with
  | [] => None
  | (_, v) :: rest => Some (fold_left (fun joined kv => joined +:+ ", " +:+ snd kv) rest v)
  end.

(** What the client does that the outside can see. *)
Inductive Event : Type :=
  | Fetch (input : string) (init : option RequestInit)
  | ConsoleLog (label : string)
  | ConsoleError (label : string) (message : string)
  | GetRecentBlockhash
  | SignTransaction (tx : Transaction)
  | SignMessage (message : string).

(** The services the client is constructed over and the platform functions
    it calls. *)
Record Env (W : Type) : Type := {
  originalFetch : string -> option RequestInit -> W -> W * Exc Response;
  connection_getRecentBlockhash : W -> W * Exc string;
  (** [wallet.signTransaction(tx)] followed by
      [serialize().toString('base64')] *)
  wallet_signTransaction : Transaction -> W -> W * Exc string;
  (** [wallet.signMessage(bytes)] followed by
      [Buffer.from(signature).toString('base64')] *)
  wallet_signMessage : string -> W -> W * Exc string;
  wallet_publicKey : string;
  (** [JSON.parse(s)] read at the declared type, for the request and for
      the response *)
  JSON_parse_PaymentRequest : string -> Exc PaymentRequest.t;
  JSON_parse_PaymentResponse : string -> Exc PaymentResponse.t;
  JSON_stringify_header : X402PaymentHeader.t -> string;
  number_toString : JsNumber.number -> string
}.
Arguments originalFetch {W} _ _ _ _.
Arguments connection_getRecentBlockhash {W} _ _.
Arguments wallet_signTransaction {W} _ _ _.
Arguments wallet_signMessage {W} _ _ _.
Arguments wallet_publicKey {W} _.
Arguments JSON_parse_PaymentRequest {W} _ _.
Arguments JSON_parse_PaymentResponse {W} _ _.
Arguments JSON_stringify_header {W} _ _.
Arguments number_toString {W} _ _.

(** [{ ...defaults, ...options }]: a property present in [options] wins,
    also when its value is [undefined]. *)
Definition spread (defaults options : SolPay402ClientOptions.t) : SolPay402ClientOptions.t :=
  let pick {A} (o d : property A) : property A := match o with Absent => d | _ => o end in
  {| SolPay402ClientOptions.autoApprove :=
       pick (SolPay402ClientOptions.autoApprove options)
            (SolPay402ClientOptions.autoApprove defaults);
     SolPay402ClientOptions.maxPaymentAmount :=
       pick (SolPay402ClientOptions.maxPaymentAmount options)
            (SolPay402ClientOptions.maxPaymentAmount defaults);
     SolPay402ClientOptions.preferredToken :=
       pick (SolPay402ClientOptions.preferredToken options)
            (SolPay402ClientOptions.preferredToken defaults) |}.

(** The constructor's [this.options], lines 28-37. *)
Definition constructor (options : SolPay402ClientOptions.t) : SolPay402ClientOptions.t :=
  spread
    {| SolPay402ClientOptions.autoApprove :=
         Value (or_bool (read (SolPay402ClientOptions.autoApprove options)) false);
       SolPay402ClientOptions.maxPaymentAmount :=
         Value (JsNumber.or (read (SolPay402ClientOptions.maxPaymentAmount options))
                            (JsNumber.of_Z 1));
       SolPay402ClientOptions.preferredToken :=
         Value (or_string (read (SolPay402ClientOptions.preferredToken options)) "USDC") |}
    options.

(** [amount > self.options.maxPaymentAmount!]: the non-null assertion is
    erased by the compiler, and in a comparison [undefined] converts to
    NaN. *)
Definition exceeds (amount : JsNumber.number) (maxPaymentAmount : option JsNumber.number) : bool :=
  JsNumber.gtb amount (JsNumber.to_number maxPaymentAmount).

Section Client.
(** [options] is the object the constructor stored, [self.options]. *)
Context {W : Type} (env : Env W) (options : SolPay402ClientOptions.t).

Local Open Scope eff_scope.
Local Abbreviation Eff := (M W Event).

Definition lift {A} (r : Exc A) : Eff A :=
  match r with Ok a => ret a | Throw e => throw e end.

(** Lines 175-183: logs and approves. *)
Definition requestUserApproval (paymentRequest : PaymentRequest.t) : Eff bool :=
  emit (ConsoleLog "Payment approval requested:") ;;; ret true.

(** Lines 146-168. *)
Definition createPaymentTransaction (paymentRequest : PaymentRequest.t) : Eff Transaction :=
  (if String.eqb (PaymentRequest.token paymentRequest) "SOL" then ret tt
   else if String.eqb (PaymentRequest.token paymentRequest) "USDC" then ret tt
   else throw ("Unsupported token: " +:+ PaymentRequest.token paymentRequest)) ;;;
  blockhash <- (emit GetRecentBlockhash ;;; call (connection_getRecentBlockhash env)) ;;
  ret {| recentBlockhash := blockhash; feePayer := wallet_publicKey env |}.

(** [createPaymentHeader], lines 265-283. *)
Definition createPaymentHeader (paymentId : string) (amount : JsNumber.number)
    (token recipient transaction : string)
  : Eff X402PaymentHeader.t :=
  let message :=
    paymentId +:+ ":" +:+ number_toString env amount +:+ ":" +:+ token +:+ ":"
      +:+ recipient +:+ ":" +:+ transaction in
  signature <- (emit (SignMessage message) ;;; call (wallet_signMessage env message)) ;;
  ret {| X402PaymentHeader.version := "1.0";
         X402PaymentHeader.paymentId := paymentId;
         X402PaymentHeader.amount := amount;
         X402PaymentHeader.token := token;
         X402PaymentHeader.recipient := recipient;
         X402PaymentHeader.transaction := transaction;
         X402PaymentHeader.signature := signature |}.

(** Lines 115-139. *)
Definition createPayment (paymentRequest : PaymentRequest.t) : Eff X402PaymentHeader.t :=
  try_catch
    (transaction <- createPaymentTransaction paymentRequest ;;
     serializedTransaction <-
       (emit (SignTransaction transaction) ;;; call (wallet_signTransaction env transaction)) ;;
     createPaymentHeader
       (PaymentRequest.paymentId paymentRequest)
       (PaymentRequest.amount paymentRequest)
       (PaymentRequest.token paymentRequest)
       (PaymentRequest.recipient paymentRequest)
       serializedTransaction)
    (fun message =>
       emit (ConsoleError "Error creating payment:" message) ;;;
       throw ("Failed to create payment: " +:+ message)).

(** Lines 189-197. *)
Definition processPaymentResponse (paymentResponse : PaymentResponse.t) : Eff unit :=
  if PaymentResponse.success paymentResponse
  then emit (ConsoleLog "Payment successful:")
  else emit (ConsoleError "Payment failed:" (default "undefined" (PaymentResponse.error paymentResponse))).

(** Lines 95-106: the tail of the wrapper, reached when no payment is made. *)
Definition finish (response : Response) : Eff Response :=
  match headers_get (headers response) "X-PAYMENT-RESPONSE" with
  | Some (String c s as paymentResponseHeader) =>
      try_catch
        (paymentResponse <- lift (JSON_parse_PaymentResponse env paymentResponseHeader) ;;
         processPaymentResponse paymentResponse)
        (fun message => emit (ConsoleError "Error processing payment response:" message)) ;;;
      ret response
  | _ => ret response
  end.

(** [{ ...init, headers: { ...(init?.headers || {}), 'X-PAYMENT': value } }]:
    the new property replaces one of the same name and otherwise comes last. *)
Definition with_payment (init : option RequestInit) (value : string) : RequestInit :=
  let old := match init with Some i => init_headers i | None => [] end in
  {| init_headers :=
       if existsb (fun kv => String.eqb (fst kv) "X-PAYMENT") old
       then map (fun kv => if String.eqb (fst kv) "X-PAYMENT" then (fst kv, value) else kv) old
       else old ++ [("X-PAYMENT", value)] |}.

(** The function returned by [createFetchWithPayment], lines 47-107.  The
    retry is [return originalFetch(input, newInit)] without [await], so it
    runs after the [try] block has been left. *)
Definition fetchWithPayment (input : string) (init : option RequestInit) : Eff Response :=
  response <- (emit (Fetch input init) ;;; call (originalFetch env input init)) ;;
  if status response =? 402 then
    match headers_get (headers response) "X-PAYMENT-REQUEST" with
    | Some (String c s as paymentRequestHeader) =>
        newInit <-
          try_catch
            (paymentRequest <- lift (JSON_parse_PaymentRequest env paymentRequestHeader) ;;
             (if exceeds (PaymentRequest.amount paymentRequest)
                         (read (SolPay402ClientOptions.maxPaymentAmount options))
              then throw ("Payment amount "
                            +:+ number_toString env (PaymentRequest.amount paymentRequest)
                            +:+ " exceeds maximum allowed "
                            +:+ match read (SolPay402ClientOptions.maxPaymentAmount options) with
                                | Some m => number_toString env m
                                | None => "undefined"
                                end)
              else ret tt) ;;;
             (if negb (or_bool (read (SolPay402ClientOptions.autoApprove options)) false) then
                approved <- requestUserApproval paymentRequest ;;
                if negb approved then throw "Payment not approved by user" else ret tt
              else ret tt) ;;;
             paymentHeader <- createPayment paymentRequest ;;
             ret (with_payment init (JSON_stringify_header env paymentHeader)))
            (fun message =>
               emit (ConsoleError "Payment processing error:" message) ;;;
               throw ("Payment failed: " +:+ message)) ;;
        emit (Fetch input (Some newInit)) ;;; call (originalFetch env input (Some newInit))
    | _ => finish response
    end
  else finish response.

End Client.

(** Events that create, sign or submit a payment, or that fetch with an
    [X-PAYMENT] header. *)
Definition pays (e : Event) : bool :=
  match e with
  | GetRecentBlockhash | SignTransaction _ | SignMessage _ => true
  | Fetch _ (Some init) => existsb (fun kv => String.eqb (fst kv) "X-PAYMENT") (init_headers init)
  | _ => false
  end.

Definition is_fetch (e : Event) : bool :=
  match e with Fetch _ _ => true | _ => false end.

End Sdk.

(** ** Backend: middleware and facilitator  (src/README.md, lines 105-400) *)

Module Backend.

(** [src/types.ts], lines 285-324. *)
Module PaymentRequest.
Record t : Type := Make {
  amount : Q;
  token : string;
  recipient : string;
  paymentId : string;
  expiresAt : Z;
  description : option string
}.
End PaymentRequest.

Module X402PaymentHeader.
Record t : Type := Make {
  version : string;
  paymentId : string;
  amount : Q;
  token : string;
  recipient : string;
  transaction : string;
  signature : string
}.
End X402PaymentHeader.

Module PaymentTransaction.
Record t : Type := Make {
  signature : string;
  amount : Q;
  token : string;
  recipient : string;
  blockTime : Z
}.
End PaymentTransaction.

(** [PaymentStatus] and [PaymentResponse] have the same shape. *)
Module PaymentStatus.
Record t : Type := Make {
  success : bool;
  transaction : option PaymentTransaction.t;
  error : option string;
  paymentId : string
}.
End PaymentStatus.

(** What the code reads of a web3.js [Transaction]: the program and the
    account keys of each instruction. *)
Record TransactionInstruction : Type := {
  programId : string;
  keys : list string
}.

Record Transaction : Type := { instructions : list TransactionInstruction }.

(** [src/config.ts]: the fields the middleware reads. *)
Record Config : Type := {
  defaultPaymentAmount : Q;
  defaultToken : string;
  merchantAccount : string;
  paymentExpiryMs : Z
}.

(** What the middleware reads of the Express request. *)
Record Request : Type := {
  url : string;
  x_payment : option string;
  paymentAmount : option Q;
  paymentToken : option string;
  paymentDescription : option string
}.

(** How the middleware answers. *)
Inductive Reply : Type :=
  (** 402 with the [X-PAYMENT-REQUEST] header *)
  | PaymentRequired (paymentRequest : PaymentRequest.t)
  (** 402 with a failed [X-PAYMENT-RESPONSE] *)
  | VerificationFailed (error : option string) (paymentId : string)
  (** [next()]: the protected handler runs *)
  | Next (paymentTransaction : option PaymentTransaction.t)
  (** 400 *)
  | InvalidPaymentHeader
  (** 500 *)
  | InternalServerError.

(** What [connection.confirmTransaction] resolves with: the error of the
    transaction, if it failed. *)
Record SignatureResult : Type := { err : option string }.

Inductive Event : Type :=
  | VerifyTransaction (transaction : Transaction) (header : X402PaymentHeader.t) (isValid : bool)
  | SendTransaction (transaction : Transaction)
  | ConfirmTransaction (signature : string)
  | ConsoleError (label : string) (message : string).

Record Env (W : Type) : Type := {
  config : Config;
  Date_now : W -> W * Z;
  (** [Transaction.from(Buffer.from(s, 'base64'))]; [None] when it throws *)
  Transaction_from : string -> option Transaction;
  connection_sendRawTransaction : Transaction -> W -> W * Exc string;
  connection_confirmTransaction : string -> W -> W * Exc SignatureResult;
  (** [JSON.parse(s) as X402PaymentHeader]; [None] when it throws *)
  JSON_parse : string -> option X402PaymentHeader.t;
  TOKEN_PROGRAM_ID : string
}.
Arguments config {W} _.
Arguments Date_now {W} _ _.
Arguments Transaction_from {W} _ _.
Arguments connection_sendRawTransaction {W} _ _ _.
Arguments connection_confirmTransaction {W} _ _ _.
Arguments JSON_parse {W} _ _.
Arguments TOKEN_PROGRAM_ID {W} _.

Section Server.
Context {W : Type} (env : Env W).

Local Open Scope eff_scope.
Local Abbreviation Eff := (M W Event).

(** The clock never throws. *)
Definition now : Eff Z :=
  call (fun w => let (w', t) := Date_now env w in (w', Ok t)).

(** [parsePaymentHeader], lines 333-339. *)
Definition parsePaymentHeader (headerString : string) : Eff X402PaymentHeader.t :=
  match JSON_parse env headerString with
  | Some h => ret h
  | None => throw "Invalid payment header format"
  end.

(** [decodeTransaction], lines 349-356. *)
Definition decodeTransaction (transactionString : string) : Eff Transaction :=
  match Transaction_from env transactionString with
  | Some t => ret t
  | None => throw "Invalid transaction encoding"
  end.

(** [sendTransaction], lines 358-364; the template string renders the
    caught error as [Error: message]. *)
Definition sendTransaction (transaction : Transaction) : Eff string :=
  try_catch
    (emit (SendTransaction transaction) ;;; call (connection_sendRawTransaction env transaction))
    (fun error => throw ("Transaction sending failed: Error: " +:+ error)).

(** The test of [verifyTransaction], lines 261-264: some instruction of the
    token program names the recipient among its keys. *)
Definition names_recipient (transaction : Transaction) (header : X402PaymentHeader.t) : bool :=
  existsb
    (fun ix =>
       String.eqb (programId ix) (TOKEN_PROGRAM_ID env)
       && existsb (fun key => String.eqb key (X402PaymentHeader.recipient header)) (keys ix))
    (instructions transaction).

(** [verifyTransaction], lines 257-279.  The amount and replay checks are
    comments in the source. *)
Definition verifyTransaction (transaction : Transaction) (header : X402PaymentHeader.t) : Eff bool :=
  let isValid := names_recipient transaction header in
  emit (VerifyTransaction transaction header isValid) ;;; ret isValid.

Definition failure (message : string) (paymentHeader : X402PaymentHeader.t) : PaymentStatus.t :=
  {| PaymentStatus.success := false;
     PaymentStatus.transaction := None;
     PaymentStatus.error := Some message;
     PaymentStatus.paymentId := X402PaymentHeader.paymentId paymentHeader |}.

(** [verifyAndSettlePayment], lines 214-255.  What the confirmation resolves
    with is not read. *)
Definition verifyAndSettlePayment (paymentHeader : X402PaymentHeader.t) : Eff PaymentStatus.t :=
  try_catch
    (transaction <- decodeTransaction (X402PaymentHeader.transaction paymentHeader) ;;
     isValid <- verifyTransaction transaction paymentHeader ;;
     if negb isValid then ret (failure "Invalid transaction" paymentHeader)
     else
       signature <- sendTransaction transaction ;;
       (emit (ConfirmTransaction signature) ;;;
        call (connection_confirmTransaction env signature)) ;;;
       blockTime <- now ;;
       ret {| PaymentStatus.success := true;
              PaymentStatus.transaction :=
                Some {| PaymentTransaction.signature := signature;
                        PaymentTransaction.amount := X402PaymentHeader.amount paymentHeader;
                        PaymentTransaction.token := X402PaymentHeader.token paymentHeader;
                        PaymentTransaction.recipient := X402PaymentHeader.recipient paymentHeader;
                        PaymentTransaction.blockTime := blockTime |};
              PaymentStatus.error := None;
              PaymentStatus.paymentId := X402PaymentHeader.paymentId paymentHeader |})
    (fun message =>
       emit (ConsoleError "Payment settlement error:" message) ;;;
       ret (failure message paymentHeader)).

(** The challenge of lines 131-138.  The clock is read twice, first for
    the [paymentId], then for [expiresAt]. *)
Definition challenge (req : Request) : Eff PaymentRequest.t :=
  t1 <- now ;;
  t2 <- now ;;
  ret {| PaymentRequest.amount :=
           or_number (paymentAmount req) (defaultPaymentAmount (config env));
         PaymentRequest.token :=
           or_string (paymentToken req) (defaultToken (config env));
         PaymentRequest.recipient := merchantAccount (config env);
         PaymentRequest.paymentId := pretty t1;
         PaymentRequest.expiresAt := t2 + paymentExpiryMs (config env);
         PaymentRequest.description :=
           Some (or_string (paymentDescription req) "Payment for service") |}.

(** [paymentRequiredMiddleware], lines 128-176.  An absent or empty
    [x-payment] header is falsy. *)
Definition paymentRequiredMiddleware (req : Request) : Eff Reply :=
  match x_payment req with
  | Some (String c s as paymentHeader) =>
      try_catch
        (parsedPaymentHeader <- parsePaymentHeader paymentHeader ;;
         try_catch
           (paymentStatus <- verifyAndSettlePayment parsedPaymentHeader ;;
            if PaymentStatus.success paymentStatus
            then ret (Next (PaymentStatus.transaction paymentStatus))
            else ret (VerificationFailed (PaymentStatus.error paymentStatus)
                                         (X402PaymentHeader.paymentId parsedPaymentHeader)))
           (fun message =>
              emit (ConsoleError "Payment verification error:" message) ;;;
              ret InternalServerError))
        (fun message =>
           emit (ConsoleError "Payment header parsing error:" message) ;;;
           ret InvalidPaymentHeader)
  | _ =>
      paymentRequest <- challenge req ;;
      ret (PaymentRequired paymentRequest)
  end.

(** The server handling requests one after the other. *)
Fixpoint serve (reqs : list Request) : Eff (list Reply) :=
  match reqs with
  | [] => ret []
  | req :: rest =>
      reply <- paymentRequiredMiddleware req ;;
      replies <- serve rest ;;
      ret (reply :: replies)
  end.

End Server.

(** The paymentIds of the challenges among the replies, oldest first. *)
Definition issued (replies : list Reply) : list string :=
  omap (fun r => match r with
                 | PaymentRequired pr => Some (PaymentRequest.paymentId pr)
                 | _ => None
                 end) replies.

Definition is_rejection (r : Reply) : bool :=
  match r with VerificationFailed _ _ => true | _ => false end.

Definition is_send (e : Event) : bool :=
  match e with SendTransaction _ => true | _ => false end.

(** In the trace of a request cycle, whatever is sent is the transaction
    decoded from the cycle's own [x-payment] header, and the send directly
    follows the verification of that transaction against that header, which
    said yes; nothing precedes the verification. *)
Definition settles_verified_payload {W : Type} (env : Env W) (req : Request)
    (trace : list Event) : Prop :=
  forall pre transaction post,
    trace = pre ++ SendTransaction transaction :: post ->
    exists paymentHeader header,
      x_payment req = Some paymentHeader
      /\ JSON_parse env paymentHeader = Some header
      /\ Transaction_from env (X402PaymentHeader.transaction header) = Some transaction
      /\ names_recipient env transaction header = true
      /\ pre = [VerifyTransaction transaction header true].

(** A clock that does not run backwards: [latest w] is a bound on the
    readings taken before the world [w]; a reading is not below it and is
    within the bound afterwards, and the ledger calls do not lower it. *)
Record monotone {W : Type} (env : Env W) (latest : W -> Z) : Prop := {
  mono_now : forall w,
    latest w <= snd (Date_now env w) /\ snd (Date_now env w) <= latest (fst (Date_now env w));
  mono_send : forall tx w, latest w <= latest (fst (connection_sendRawTransaction env tx w));
  mono_confirm : forall sig w, latest w <= latest (fst (connection_confirmTransaction env sig w))
}.

(** The same services under another clock. *)
Definition with_clock {W : Type} (env : Env W) (clock : W -> W * Z) : Env W :=
  {| config := config env;
     Date_now := clock;
     Transaction_from := Transaction_from env;
     connection_sendRawTransaction := connection_sendRawTransaction env;
     connection_confirmTransaction := connection_confirmTransaction env;
     JSON_parse := JSON_parse env;
     TOKEN_PROGRAM_ID := TOKEN_PROGRAM_ID env |}.

(** A reply without the time of settlement. *)
Definition without_blockTime (reply : Reply) : Reply :=
  match reply with
  | Next (Some transaction) =>
      Next (Some {| PaymentTransaction.signature := PaymentTransaction.signature transaction;
                    PaymentTransaction.amount := PaymentTransaction.amount transaction;
                    PaymentTransaction.token := PaymentTransaction.token transaction;
                    PaymentTransaction.recipient := PaymentTransaction.recipient transaction;
                    PaymentTransaction.blockTime := 0 |})
  | _ => reply
  end.

End Backend.

(** ** Payment verification middleware
    (src/solana-pay-402/solpayx402.md, lines 284-319 and 977-984) *)

Module SolanaPayment.

(** What [verifyPayment] reads of the [getTransaction] response. *)
Record UiTokenAmount : Type := { uiAmount : Q }.

Record TokenBalance : Type := {
  mint : string;
  owner : string;
  uiTokenAmount : UiTokenAmount
}.

Record Meta : Type := {
  err : option string;
  postTokenBalances : list TokenBalance
}.

Record TransactionResponse : Type := { meta : Meta }.

Section Verify.
(** [connection.getTransaction] ([None] for [null]) and the mint constant,
    neither of which the page defines. *)
Context (getTransaction : string -> option TransactionResponse) (USDC_MINT_ADDRESS : string).

(** Lines 299-318.  The parameter [receiver] is not read. *)
Definition verifyPayment (signature : string) (expectedAmount : Q) (receiver : string) : Exc bool :=
  match getTransaction signature with
  | None => Throw "transaction failed or not found"
  | Some transaction =>
      match err (meta transaction) with
      | Some _ => Throw "transaction failed or not found"
      | None =>
          match find (fun balance => String.eqb (mint balance) USDC_MINT_ADDRESS)
                     (postTokenBalances (meta transaction)) with
          | None => Throw "insufficient payment amount"
          | Some tokenTransfer =>
              if Qltb (uiAmount (uiTokenAmount tokenTransfer)) expectedAmount
              then Throw "insufficient payment amount"
              else Ok true
          end
      end
  end.

End Verify.

(** The transaction credits [amount] of [asset] to [payTo]: one of its token
    balances is held by [payTo] in that mint with that amount. *)
Definition credits (transaction : TransactionResponse) (asset payTo : string) (amount : Q) : Prop :=
  exists balance,
    In balance (postTokenBalances (meta transaction))
    /\ mint balance = asset /\ owner balance = payTo
    /\ Qeq (uiAmount (uiTokenAmount balance)) amount.

(** Lines 979-983: the cache of verified payments, keyed by signature. *)
Definition isPaymentVerified (verifiedPayments : gmap string unit) (signature : string) : bool :=
  bool_decide (is_Some (verifiedPayments !! signature)).

End SolanaPayment.

(** ** Data model of the specification

    The payload of the [X-PAYMENT] header and the error kinds, as the
    specification names them (sections 3 and 7); the decoder below returns
    them. *)

Module Facilitator.

Inductive ErrorKind : Type :=
  | MalformedPayloadError
  | MismatchedPaymentId
  | Expired
  | UnsupportedScheme
  | InsufficientOrMisdirectedPayment
  | InvalidSignature
  | ReplayDetected
  | SettlementTimeout
  | LedgerUnavailable
  | SettlementRejected
  | PolicyError.

Record PaymentPayload : Type := {
  version : string;
  paymentId : string;
  scheme : string;
  network : string;
  transaction : string;
  signature : string
}.

End Facilitator.

(** ** Transport encoding of the payment header
    (src/unnamed/part_000, lines 122-124 and 199-203)

    JavaScript strings and buffers are kept as byte strings: a string stands
    for its UTF-8 bytes, on which [Buffer.from(text)] and [toString('utf8')]
    are the identity. *)

Module Base64.

Local Open Scope string_scope.
Local Open Scope char_scope.

(** Six bits, most significant first. *)
Definition sextet : Type := (bool * bool * bool * bool * bool * bool)%type.

Definition index (x : sextet) : nat :=
  let '(x5, x4, x3, x2, x1, x0) := x in
  (Nat.b2n x5 * 32 + Nat.b2n x4 * 16 + Nat.b2n x3 * 8 + Nat.b2n x2 * 4 + Nat.b2n x1 * 2 + Nat.b2n x0)%nat.

Definition of_index (n : N) : sextet :=
  (N.testbit n 5, N.testbit n 4, N.testbit n 3, N.testbit n 2, N.testbit n 1, N.testbit n 0).

Definition alphabet : string :=
  "ABCDEFGHIJKLMNOPQRSTUVWXYZabcdefghijklmnopqrstuvwxyz0123456789+/"%string.

Definition digit (x : sextet) : ascii :=
  match String.get (index x) alphabet with
  | Some c => c
  | None => "="
  end.

(** The decoding table of Node.js: both the standard and the URL-safe
    characters are digits. *)
Definition unbase64 (c : ascii) : option sextet :=
  let n := N_of_ascii c in
  if (65 <=? n)%N && (n <=? 90)%N then Some (of_index (n - 65))
  else if (97 <=? n)%N && (n <=? 122)%N then Some (of_index (n - 71))
  else if (48 <=? n)%N && (n <=? 57)%N then Some (of_index (n + 4))
  else if (n =? 43)%N || (n =? 45)%N then Some (of_index 62)
  else if (n =? 47)%N || (n =? 95)%N then Some (of_index 63)
  else None.

(** The four sextets of three bytes; [Ascii] lists the least significant
    bit first. *)
Definition first (a : ascii) : sextet :=
  let '(Ascii _ _ a2 a3 a4 a5 a6 a7) := a in (a7, a6, a5, a4, a3, a2).
Definition second (a b : ascii) : sextet :=
  let '(Ascii a0 a1 _ _ _ _ _ _) := a in
  let '(Ascii _ _ _ _ b4 b5 b6 b7) := b in (a1, a0, b7, b6, b5, b4).
Definition third (b c : ascii) : sextet :=
  let '(Ascii b0 b1 b2 b3 _ _ _ _) := b in
  let '(Ascii _ _ _ _ _ _ c6 c7) := c in (b3, b2, b1, b0, c7, c6).
Definition fourth (c : ascii) : sextet :=
  let '(Ascii c0 c1 c2 c3 c4 c5 _ _) := c in (c5, c4, c3, c2, c1, c0).

(** [buffer.toString('base64')]. *)
Fixpoint encode (buffer : string) : string :=
  match buffer with
  | EmptyString => EmptyString
  | String a EmptyString =>
      String (digit (first a)) (String (digit (second a zero)) "=="%string)
  | String a (String b EmptyString) =>
      String (digit (first a)) (String (digit (second a b))
        (String (digit (third b zero)) "="%string))
  | String a (String b (String c rest)) =>
      String (digit (first a)) (String (digit (second a b))
        (String (digit (third b c)) (String (digit (fourth c)) (encode rest))))
  end.

(** The digits of a header value, as the decoder of Node.js reads them: a
    character outside the table is skipped and [=] ends the input. *)
Fixpoint sextets (text : string) : list sextet :=
  match text with
  | EmptyString => []
  | String c rest =>
      if Ascii.eqb c "=" then []
      else match unbase64 c with
           | Some x => x :: sextets rest
           | None => sextets rest
           end
  end.

Definition byte1 (x y : sextet) : ascii :=
  let '(x5, x4, x3, x2, x1, x0) := x in
  let '(y5, y4, _, _, _, _) := y in Ascii y4 y5 x0 x1 x2 x3 x4 x5.
Definition byte2 (y z : sextet) : ascii :=
  let '(_, _, y3, y2, y1, y0) := y in
  let '(z5, z4, z3, z2, _, _) := z in Ascii z2 z3 z4 z5 y0 y1 y2 y3.
Definition byte3 (z w : sextet) : ascii :=
  let '(_, _, _, _, z1, z0) := z in
  let '(w5, w4, w3, w2, w1, w0) := w in Ascii w0 w1 w2 w3 w4 w5 z0 z1.

(** Four digits give three bytes; three give two, two give one. *)
Fixpoint bytes (digits : list sextet) : string :=
  match digits with
  | x :: y :: z :: w :: rest =>
      String (byte1 x y) (String (byte2 y z) (String (byte3 z w) (bytes rest)))
  | [x; y; z] => String (byte1 x y) (String (byte2 y z) EmptyString)
  | [x; y] => String (byte1 x y) EmptyString
  | _ => EmptyString
  end.

(** [Buffer.from(text, 'base64')]; it never throws. *)
Definition decode (text : string) : string := bytes (sextets text).

End Base64.

Module Json.

Local Open Scope string_scope.
Local Open Scope char_scope.

#[local] Set Warnings "-register-all".

(** A JSON text as a tree.  A number keeps its spelling; an object keeps
    its members in the order of the text. *)
Inductive json : Type :=
  | JNull
  | JBool (b : bool)
  | JNumber (lexeme : string)
  | JString (s : string)
  | JArray (elements : list json)
  | JObject (members : list (string * json)).

(** The character U+0022. *)
Definition quotation_mark : ascii := Ascii false true false false false true false false.

(** *** [JSON.stringify] *)

Definition hex (n : N) : ascii :=
  if (n <? 10)%N then ascii_of_N (48 + n) else ascii_of_N (87 + n).

(** The escape of one character: the quote, the backslash and the control
    characters below 0x20 are escaped, every other byte is copied. *)
Definition escape (c : ascii) : string :=
  let n := N_of_ascii c in
  if Ascii.eqb c quotation_mark then String "\" (String quotation_mark EmptyString)
  else if Ascii.eqb c "\" then "\\"%string
  else if (n =? 8)%N then "\b"%string
  else if (n =? 12)%N then "\f"%string
  else if (n =? 10)%N then "\n"%string
  else if (n =? 13)%N then "\r"%string
  else if (n =? 9)%N then "\t"%string
  else if (n <? 32)%N then
    ("\u00" +:+ String (hex (n / 16)) (String (hex (n mod 16)) EmptyString))%string
  else String c EmptyString.

Fixpoint escape_all (s : string) : string :=
  match s with
  | EmptyString => EmptyString
  | String c rest => (escape c +:+ escape_all rest)%string
  end.

Definition quote (s : string) : string :=
  String quotation_mark (escape_all s +:+ String quotation_mark EmptyString).

Fixpoint join (pieces : list string) : string :=
  match pieces with
  | [] => EmptyString
  | [p] => p
  | p :: rest => (p +:+ String "," (join rest))%string
  end.

Fixpoint stringify (v : json) : string :=
  match v with
  | JNull => "null"%string
  | JBool true => "true"%string
  | JBool false => "false"%string
  | JNumber lexeme => lexeme
  | JString s => quote s
  | JArray elements =>
      String "[" (join (map stringify elements) +:+ String "]" EmptyString)
  | JObject members =>
      String "{"
        (join (map (fun member =>
                      match member with
                      | (key, value) => (quote key +:+ String ":" (stringify value))%string
                      end) members)
         +:+ String "}" EmptyString)
  end.

(** *** [JSON.parse] *)

Definition is_ws (c : ascii) : bool :=
  let n := N_of_ascii c in
  (n =? 32)%N || (n =? 9)%N || (n =? 10)%N || (n =? 13)%N.

Fixpoint skip_ws (s : string) : string :=
  match s with
  | String c rest => if is_ws c then skip_ws rest else s
  | EmptyString => EmptyString
  end.

(** [strip p s]: what follows the prefix [p] of [s]. *)
Fixpoint strip (p s : string) : option string :=
  match p with
  | EmptyString => Some s
  | String a p' =>
      match s with
      | String b s' => if Ascii.eqb a b then strip p' s' else None
      | EmptyString => None
      end
  end.

Definition unhex (c : ascii) : option N :=
  let n := N_of_ascii c in
  if (48 <=? n)%N && (n <=? 57)%N then Some (n - 48)%N
  else if (97 <=? n)%N && (n <=? 102)%N then Some (n - 87)%N
  else if (65 <=? n)%N && (n <=? 70)%N then Some (n - 55)%N
  else None.

Definition unhex4 (a b c d : ascii) : option N :=
  match unhex a, unhex b, unhex c, unhex d with
  | Some x, Some y, Some z, Some w => Some (x * 4096 + y * 256 + z * 16 + w)%N
  | _, _, _, _ => None
  end.

(** The UTF-8 bytes of a code point. *)
Definition utf8 (n : N) : string :=
  if (n <? 128)%N then String (ascii_of_N n) EmptyString
  else if (n <? 2048)%N then
    String (ascii_of_N (192 + n / 64)) (String (ascii_of_N (128 + n mod 64)) EmptyString)
  else if (n <? 65536)%N then
    String (ascii_of_N (224 + n / 4096))
      (String (ascii_of_N (128 + (n / 64) mod 64))
        (String (ascii_of_N (128 + n mod 64)) EmptyString))
  else
    String (ascii_of_N (240 + n / 262144))
      (String (ascii_of_N (128 + (n / 4096) mod 64))
        (String (ascii_of_N (128 + (n / 64) mod 64))
          (String (ascii_of_N (128 + n mod 64)) EmptyString))).

Definition is_high (n : N) : bool := (55296 <=? n)%N && (n <=? 56319)%N.
Definition is_low (n : N) : bool := (56320 <=? n)%N && (n <=? 57343)%N.

(** The character a one-letter escape stands for. *)
Definition unescape (e : ascii) : option ascii :=
  if Ascii.eqb e quotation_mark then Some quotation_mark
  else if Ascii.eqb e "\" then Some "\"
  else if Ascii.eqb e "/" then Some "/"
  else if Ascii.eqb e "b" then Some (ascii_of_N 8)
  else if Ascii.eqb e "f" then Some (ascii_of_N 12)
  else if Ascii.eqb e "n" then Some (ascii_of_N 10)
  else if Ascii.eqb e "r" then Some (ascii_of_N 13)
  else if Ascii.eqb e "t" then Some (ascii_of_N 9)
  else None.

Definition prepend (p : string) (r : option (string * string)) : option (string * string) :=
  match r with
  | Some (s, rest) => Some ((p +:+ s)%string, rest)
  | None => None
  end.

(** The characters of a string literal after its opening quote, up to the
    closing quote, and the text that follows.  A surrogate pair of [\u]
    escapes is one code point; a lone surrogate reads as U+FFFD. *)
Fixpoint parse_chars (s : string) : option (string * string) :=
  match s with
  | EmptyString => None
  | String c rest =>
      if Ascii.eqb c quotation_mark then Some (EmptyString, rest)
      else if Ascii.eqb c "\" then
        match rest with
        | EmptyString => None
        | String e rest1 =>
            if Ascii.eqb e "u" then
              match rest1 with
              | String h1 (String h2 (String h3 (String h4 rest2))) =>
                  match unhex4 h1 h2 h3 h4 with
                  | None => None
                  | Some n =>
                      if is_high n then
                        match rest2 with
                        | String b (String u (String l1 (String l2 (String l3 (String l4 rest3))))) =>
                            match (if Ascii.eqb b "\" && Ascii.eqb u "u"
                                   then unhex4 l1 l2 l3 l4 else None) with
                            | Some m =>
                                if is_low m
                                then prepend (utf8 (65536 + (n - 55296) * 1024 + (m - 56320)))
                                             (parse_chars rest3)
                                else prepend (utf8 65533) (parse_chars rest2)
                            | None => prepend (utf8 65533) (parse_chars rest2)
                            end
                        | _ => prepend (utf8 65533) (parse_chars rest2)
                        end
                      else if is_low n then prepend (utf8 65533) (parse_chars rest2)
                      else prepend (utf8 n) (parse_chars rest2)
                  end
              | _ => None
              end
            else
              match unescape e with
              | Some ch => prepend (String ch EmptyString) (parse_chars rest1)
              | None => None
              end
        end
      else if (N_of_ascii c <? 32)%N then None
      else prepend (String c EmptyString) (parse_chars rest)
  end.

Definition is_digit (c : ascii) : bool :=
  (48 <=? N_of_ascii c)%N && (N_of_ascii c <=? 57)%N.

(** The longest run of digits at the head of [s], and the rest. *)
Fixpoint digits (s : string) : string * string :=
  match s with
  | String c rest =>
      if is_digit c then let (ds, r) := digits rest in (String c ds, r)
      else (EmptyString, s)
  | EmptyString => (EmptyString, EmptyString)
  end.

(** A number: an optional minus, an integer part without a leading zero, an
    optional fraction, an optional exponent. *)
Definition parse_number (s : string) : option (string * string) :=
  let (sign, s1) :=
    match s with
    | String c r => if Ascii.eqb c "-" then ("-"%string, r) else (EmptyString, s)
    | EmptyString => (EmptyString, s)
    end in
  let int :=
    match s1 with
    | String c r =>
        if Ascii.eqb c "0" then Some ("0"%string, r)
        else if is_digit c then Some (digits s1)
        else None
    | EmptyString => None
    end in
  match int with
  | None => None
  | Some (i, s2) =>
      let frac :=
        match s2 with
        | String c r =>
            if Ascii.eqb c "." then
              match digits r with
              | (EmptyString, _) => None
              | (f, s3) => Some (String "." f, s3)
              end
            else Some (EmptyString, s2)
        | EmptyString => Some (EmptyString, s2)
        end in
      match frac with
      | None => None
      | Some (f, s3) =>
          let exp :=
            match s3 with
            | String c r =>
                if Ascii.eqb c "e" || Ascii.eqb c "E" then
                  let (esign, r1) :=
                    match r with
                    | String d r' =>
                        if Ascii.eqb d "+" || Ascii.eqb d "-"
                        then (String d EmptyString, r') else (EmptyString, r)
                    | EmptyString => (EmptyString, r)
                    end in
                  match digits r1 with
                  | (EmptyString, _) => None
                  | (ds, s4) => Some (String c (esign +:+ ds)%string, s4)
                  end
                else Some (EmptyString, s3)
            | EmptyString => Some (EmptyString, s3)
            end in
          match exp with
          | None => None
          | Some (e, s4) => Some ((sign +:+ i +:+ f +:+ e)%string, s4)
          end
      end
  end.

(** A value at the head of [s], after white space, and the text that
    follows it.  The fuel bounds the depth of the calls; the length of the
    text is enough. *)
Fixpoint parse_value (fuel : nat) (s : string) : option (json * string) :=
  match fuel with
  | O => None
  | S fuel =>
      match skip_ws s with
      | EmptyString => None
      | String c rest as s' =>
          if Ascii.eqb c quotation_mark then
            match parse_chars rest with
            | Some (str, r) => Some (JString str, r)
            | None => None
            end
          else if Ascii.eqb c "[" then
            match skip_ws rest with
            | String d r =>
                if Ascii.eqb d "]" then Some (JArray [], r)
                else match parse_elements fuel rest with
                     | Some (vs, r') => Some (JArray vs, r')
                     | None => None
                     end
            | EmptyString => None
            end
          else if Ascii.eqb c "{" then
            match skip_ws rest with
            | String d r =>
                if Ascii.eqb d "}" then Some (JObject [], r)
                else match parse_members fuel rest with
                     | Some (ms, r') => Some (JObject ms, r')
                     | None => None
                     end
            | EmptyString => None
            end
          else
            match strip "null" s', strip "true" s', strip "false" s' with
            | Some r, _, _ => Some (JNull, r)
            | _, Some r, _ => Some (JBool true, r)
            | _, _, Some r => Some (JBool false, r)
            | None, None, None =>
                match parse_number s' with
                | Some (lexeme, r) => Some (JNumber lexeme, r)
                | None => None
                end
            end
      end
  end
with parse_elements (fuel : nat) (s : string) : option (list json * string) :=
  match fuel with
  | O => None
  | S fuel =>
      match parse_value fuel s with
      | None => None
      | Some (v, rest) =>
          match skip_ws rest with
          | String c r =>
              if Ascii.eqb c "," then
                match parse_elements fuel r with
                | Some (vs, r') => Some (v :: vs, r')
                | None => None
                end
              else if Ascii.eqb c "]" then Some ([v], r)
              else None
          | EmptyString => None
          end
      end
  end
with parse_members (fuel : nat) (s : string) : option (list (string * json) * string) :=
  match fuel with
  | O => None
  | S fuel =>
      match skip_ws s with
      | String q rest =>
          if Ascii.eqb q quotation_mark then
            match parse_chars rest with
            | None => None
            | Some (key, rest1) =>
                match skip_ws rest1 with
                | String c rest2 =>
                    if Ascii.eqb c ":" then
                      match parse_value fuel rest2 with
                      | None => None
                      | Some (v, rest3) =>
                          match skip_ws rest3 with
                          | String d r =>
                              if Ascii.eqb d "," then
                                match parse_members fuel r with
                                | Some (ms, r') => Some ((key, v) :: ms, r')
                                | None => None
                                end
                              else if Ascii.eqb d "}" then Some ([(key, v)], r)
                              else None
                          | EmptyString => None
                          end
                      end
                    else None
                | EmptyString => None
                end
            end
          else None
      | EmptyString => None
      end
  end.

(** [JSON.parse(text)]; [None] when it throws a [SyntaxError]. *)
Definition parse (text : string) : option json :=
  match parse_value (S (String.length text)) text with
  | Some (v, rest) =>
      match skip_ws rest with
      | EmptyString => Some v
      | String _ _ => None
      end
  | None => None
  end.

(** [object[key]]: of two members with the same key the later one counts. *)
Fixpoint property (key : string) (members : list (string * json)) : option json :=
  match members with
  | [] => None
  | (k, v) :: rest =>
      match property key rest with
      | Some v' => Some v'
      | None => if String.eqb k key then Some v else None
      end
  end.

(** The members of an object all of whose values are strings. *)
Definition string_members (fields : list (string * string)) : list (string * json) :=
  map (fun kv => (fst kv, JString (snd kv))) fields.

(** The text of one such member. *)
Definition member_text (kv : string * string) : string :=
  (quote (fst kv) +:+ String ":" (quote (snd kv)))%string.

End Json.

Module Codec.

Import Json.
Local Open Scope string_scope.

(** [Buffer.from(JSON.stringify(paymentPayload)).toString('base64')],
    src/unnamed/part_000, line 123. *)
Definition encodeHeader (paymentPayload : json) : string :=
  Base64.encode (stringify paymentPayload).

(** [JSON.parse(Buffer.from(paymentHeader, 'base64').toString('utf8'))],
    src/unnamed/part_000, line 202. *)
Definition decodeHeader (paymentHeader : string) : option json :=
  parse (Base64.decode paymentHeader).

(** The object a payload is serialised as: its six fields in the order of
    the specification, section 6. *)
Definition toJSON (p : Facilitator.PaymentPayload) : json :=
  JObject
    [("version", JString (Facilitator.version p));
     ("paymentId", JString (Facilitator.paymentId p));
     ("scheme", JString (Facilitator.scheme p));
     ("network", JString (Facilitator.network p));
     ("transaction", JString (Facilitator.transaction p));
     ("signature", JString (Facilitator.signature p))].

(** A required field: present and a string. *)
Definition field (key : string) (members : list (string * json)) : option string :=
  match property key members with
  | Some (JString s) => Some s
  | _ => None
  end.

(** Modelled from the spec: the validation of [decodePayload], section 4.1,
    which the pages do not have (the endpoint uses the parsed object as it
    is).  The six fields are required and must be strings; other members are
    ignored. *)
Definition asPaymentPayload (v : json) : option Facilitator.PaymentPayload :=
  match v with
  | JObject members =>
      match field "version" members, field "paymentId" members, field "scheme" members,
            field "network" members, field "transaction" members, field "signature" members with
      | Some version, Some paymentId, Some scheme, Some network, Some transaction, Some signature =>
          Some {| Facilitator.version := version;
                  Facilitator.paymentId := paymentId;
                  Facilitator.scheme := scheme;
                  Facilitator.network := network;
                  Facilitator.transaction := transaction;
                  Facilitator.signature := signature |}
      | _, _, _, _, _, _ => None
      end
  | _ => None
  end.

(** [decodePayload]: the decoding of the endpoint followed by the
    validation; any failure is a [MalformedPayloadError]. *)
Definition decodePayload (headerValue : string)
    : Facilitator.ErrorKind + Facilitator.PaymentPayload :=
  match decodeHeader headerValue with
  | Some v =>
      match asPaymentPayload v with
      | Some p => inr p
      | None => inl Facilitator.MalformedPayloadError
      end
  | None => inl Facilitator.MalformedPayloadError
  end.

End Codec.

(** ** The verification endpoint  (src/unnamed/part_000, lines 199-207) *)

Module VerifyEndpoint.

(** The body of the response. *)
Record Response : Type := {
  isValid : bool;
  invalidReason : option string
}.

Section Handler.
(** [verifySolanaPayment], which the page calls and does not define: it
    answers yes or no, or throws. *)
Context (verifySolanaPayment : Json.json -> Json.json -> Exc bool).


End Handler.

End VerifyEndpoint.

(** ** Backend: the response to a paid request  (src/README.md, lines 341-347) *)

Module BackendUtils.

(** [createPaymentResponse]; [PaymentResponse] has the shape of
    [PaymentStatus].  The [paymentId] it reports is the transaction
    signature. *)
Definition createPaymentResponse (transaction : Backend.PaymentTransaction.t)
    : Backend.PaymentStatus.t :=
  {| Backend.PaymentStatus.success := true;
     Backend.PaymentStatus.transaction := Some transaction;
     Backend.PaymentStatus.error := None;
     Backend.PaymentStatus.paymentId := Backend.PaymentTransaction.signature transaction |}.

(** The record [verifyAndSettlePayment] returns on success. *)
Definition settled (header : Backend.X402PaymentHeader.t) (signature : string) (blockTime : Z)
    : Backend.PaymentTransaction.t :=
  {| Backend.PaymentTransaction.signature := signature;
     Backend.PaymentTransaction.amount := Backend.X402PaymentHeader.amount header;
     Backend.PaymentTransaction.token := Backend.X402PaymentHeader.token header;
     Backend.PaymentTransaction.recipient := Backend.X402PaymentHeader.recipient header;
     Backend.PaymentTransaction.blockTime := blockTime |}.

(** The status [verifyAndSettlePayment] returns on success. *)
Definition settled_status (header : Backend.X402PaymentHeader.t) (signature : string)
    (blockTime : Z) : Backend.PaymentStatus.t :=
  {| Backend.PaymentStatus.success := true;
     Backend.PaymentStatus.transaction := Some (settled header signature blockTime);
     Backend.PaymentStatus.error := None;
     Backend.PaymentStatus.paymentId := Backend.X402PaymentHeader.paymentId header |}.

(** The answer the middleware derives from a status, lines 154-166. *)
Definition answer (header : Backend.X402PaymentHeader.t) (status : Backend.PaymentStatus.t)
    : Backend.Reply :=
  if Backend.PaymentStatus.success status
  then Backend.Next (Backend.PaymentStatus.transaction status)
  else Backend.VerificationFailed (Backend.PaymentStatus.error status)
                                  (Backend.X402PaymentHeader.paymentId header).

(** The challenge issued from the world [w], lines 131-138: the first
    reading of the clock gives the paymentId, the second the expiry. *)
Definition challenge_at {W : Type} (env : Backend.Env W) (req : Backend.Request) (w : W)
    : Backend.PaymentRequest.t :=
  {| Backend.PaymentRequest.amount :=
       or_number (Backend.paymentAmount req)
                 (Backend.defaultPaymentAmount (Backend.config env));
     Backend.PaymentRequest.token :=
       or_string (Backend.paymentToken req) (Backend.defaultToken (Backend.config env));
     Backend.PaymentRequest.recipient := Backend.merchantAccount (Backend.config env);
     Backend.PaymentRequest.paymentId := pretty (snd (Backend.Date_now env w));
     Backend.PaymentRequest.expiresAt :=
       snd (Backend.Date_now env (fst (Backend.Date_now env w)))
       + Backend.paymentExpiryMs (Backend.config env);
     Backend.PaymentRequest.description :=
       Some (or_string (Backend.paymentDescription req) "Payment for service") |}.

(** The ledger takes the transaction of the header: it decodes, names the
    recipient, is sent, the confirmation resolves, and the clock is read. *)
Definition confirms {W : Type} (env : Backend.Env W) (header : Backend.X402PaymentHeader.t)
    (w : W) (signature : string) (blockTime : Z) : Prop :=
  exists transaction w1 w2 w3 result,
    Backend.Transaction_from env (Backend.X402PaymentHeader.transaction header) = Some transaction
    /\ Backend.names_recipient env transaction header = true
    /\ Backend.connection_sendRawTransaction env transaction w = (w1, Ok signature)
    /\ Backend.connection_confirmTransaction env signature w1 = (w2, Ok result)
    /\ Backend.Date_now env w2 = (w3, blockTime).

End BackendUtils.

(** ** Client SDK: what a run of the wrapped fetch may contain *)

Module SdkTrace.

Definition is_console (e : Sdk.Event) : bool :=
  match e with Sdk.ConsoleLog _ | Sdk.ConsoleError _ _ => true | _ => false end.

Definition is_signTransaction (e : Sdk.Event) : bool :=
  match e with Sdk.SignTransaction _ => true | _ => false end.

Definition is_signMessage (e : Sdk.Event) : bool :=
  match e with Sdk.SignMessage _ => true | _ => false end.

(** Every fetch in the trace carries an [X-PAYMENT] header and comes after
    a transaction and a message were signed; the flags say what was signed
    before the trace starts. *)
Fixpoint signed_before_fetch (signedTransaction signedMessage : bool) (trace : list Sdk.Event)
    : bool :=
  match trace with
  | [] => true
  | e :: rest =>
      (if Sdk.is_fetch e then signedTransaction && signedMessage && Sdk.pays e else true)
      && signed_before_fetch (signedTransaction || is_signTransaction e)
                             (signedMessage || is_signMessage e) rest
  end.

(** The header the client builds for a payment request. *)
Definition header_for (paymentRequest : Sdk.PaymentRequest.t) (transaction signature : string)
    : Sdk.X402PaymentHeader.t :=
  {| Sdk.X402PaymentHeader.version := "1.0";
     Sdk.X402PaymentHeader.paymentId := Sdk.PaymentRequest.paymentId paymentRequest;
     Sdk.X402PaymentHeader.amount := Sdk.PaymentRequest.amount paymentRequest;
     Sdk.X402PaymentHeader.token := Sdk.PaymentRequest.token paymentRequest;
     Sdk.X402PaymentHeader.recipient := Sdk.PaymentRequest.recipient paymentRequest;
     Sdk.X402PaymentHeader.transaction := transaction;
     Sdk.X402PaymentHeader.signature := signature |}.

(** The message the wallet is asked to sign. *)
Definition message_for {W : Type} (env : Sdk.Env W) (paymentRequest : Sdk.PaymentRequest.t)
    (transaction : string) : string :=
  Sdk.PaymentRequest.paymentId paymentRequest +:+ ":"
    +:+ Sdk.number_toString env (Sdk.PaymentRequest.amount paymentRequest) +:+ ":"
    +:+ Sdk.PaymentRequest.token paymentRequest +:+ ":"
    +:+ Sdk.PaymentRequest.recipient paymentRequest +:+ ":" +:+ transaction.

(** The console line of [requestUserApproval], when approval is asked. *)
Definition approval (self : Sdk.SolPay402ClientOptions.t) : list Sdk.Event :=
  if or_bool (Sdk.read (Sdk.SolPay402ClientOptions.autoApprove self)) false
  then [] else [Sdk.ConsoleLog "Payment approval requested:"].

End SdkTrace.

(** ** Policy agent  (src/solpay402-agentic-swarm/README.md, lines 733-808) *)

Module PolicyAgent.

(** What the checks read of the payment intent of a [policy.check]
    message. *)
Record Intent : Type := {
  token : string;
  amount : JsNumber.number
}.

(** What the checks read of the configuration, lines 179-185;
    [spendingLimits] is an object indexed by token. *)
Record PolicyAgentConfig : Type := {
  spendingLimits : gmap string JsNumber.number;
  dailyLimit : JsNumber.number
}.

(** The fields of the agent, lines 735-736. *)
Record agent : Type := {
  dailySpending : gmap string JsNumber.number;
  lastResetDay : Z
}.

(** The [policy.decision] the agent sends. *)
Inductive Decision : Type :=
  | Approved
  | ExceedsTokenLimit (tokenLimit : JsNumber.number)
  | ExceedsDailyLimit.

(** [checkDailyReset], lines 759-766; [currentDay] is [new Date().getDate()]. *)
Definition checkDailyReset (currentDay : Z) (self : agent) : agent :=
  if currentDay =? lastResetDay self then self
  else {| dailySpending := ∅; lastResetDay := currentDay |}.

(** [this.dailySpending.get(token) || 0], line 789. *)
Definition currentSpending (self : agent) (token : string) : JsNumber.number :=
  JsNumber.or (dailySpending self !! token) (JsNumber.of_Z 0).

(** [handlePolicyCheck], lines 772-807.  Nothing is awaited between the two
    checks and the update, so a check runs to its decision before the next
    message is handled. *)
Definition handlePolicyCheck (config : PolicyAgentConfig) (intent : Intent) (self : agent)
    : agent * Decision :=
  let tokenLimit := JsNumber.or (spendingLimits config !! token intent) (JsNumber.of_Z 0) in
  if JsNumber.gtb tokenLimit (JsNumber.of_Z 0) && JsNumber.gtb (amount intent) tokenLimit
  then (self, ExceedsTokenLimit tokenLimit)
  else
    let spending := JsNumber.add (currentSpending self (token intent)) (amount intent) in
    if JsNumber.gtb spending (dailyLimit config)
    then (self, ExceedsDailyLimit)
    else ({| dailySpending := <[token intent := spending]> (dailySpending self);
             lastResetDay := lastResetDay self |},
          Approved).

(** What happens to the agent: a message to check, or the hourly timer. *)
Inductive Event : Type :=
  | Check (intent : Intent)
  | Timer (currentDay : Z).

Definition step (config : PolicyAgentConfig) (self : agent) (e : Event) : agent :=
  match e with
  | Check intent => fst (handlePolicyCheck config intent self)
  | Timer currentDay => checkDailyReset currentDay self
  end.

Definition run (config : PolicyAgentConfig) (events : list Event) (self : agent) : agent :=
  fold_left (step config) events self.

(** No recorded spending is greater than the daily limit. *)
Definition within_limit (config : PolicyAgentConfig) (self : agent) : Prop :=
  forall token spending,
    dailySpending self !! token = Some spending ->
    JsNumber.gtb spending (dailyLimit config) = false.

(** The checks one after the other, with their decisions. *)
Fixpoint decide_all (config : PolicyAgentConfig) (intents : list Intent) (self : agent)
    : agent * list Decision :=
  match intents with
  | [] => (self, [])
  | intent :: rest =>
      let (self', d) := handlePolicyCheck config intent self in
      let (self'', ds) := decide_all config rest self' in
      (self'', d :: ds)
  end.

(** The whole amounts approved for a token. *)
Fixpoint approved_total (token : string) (intents : list (string * Z)) (decisions : list Decision)
    : Z :=
  match intents, decisions with
  | (t, a) :: intents', d :: decisions' =>
      (if String.eqb t token then match d with Approved => a | _ => 0 end else 0)
      + approved_total token intents' decisions'
  | _, _ => 0
  end.

(** An intent with a whole amount. *)
Definition whole (ta : string * Z) : Intent :=
  {| token := fst ta; amount := JsNumber.of_Z (snd ta) |}.

(** Every token's record is the whole amount [spent] says, from 0 to the
    limit. *)
Definition whole_record (limit : Z) (self : agent) (spent : string -> Z) : Prop :=
  forall t,
    0 <= spent t <= limit
    /\ currentSpending self t = JsNumber.of_Z (spent t).

End PolicyAgent.

(** ** Concrete inputs used by the examples below *)

Module Examples.

Local Open Scope string_scope.

(** Pagination states: page 1 of 2 (10 items, 5 per page), page 2 of 3
    (25 items, 10 per page), and page 2.5 of the same 3 pages. *)
Definition ten_items : Pagination.hook :=
  Pagination.Hook (JsNumber.of_Z 1) (JsNumber.of_Z 5) (JsNumber.of_Z 10).

Definition second_page : Pagination.hook :=
  Pagination.Hook (JsNumber.of_Z 2) (JsNumber.of_Z 10) (JsNumber.of_Z 25).

Definition fractional_page : Pagination.hook :=
  Pagination.Hook (JsNumber.Num (Qmake 5 2)) (JsNumber.of_Z 10) (JsNumber.of_Z 25).

(** A server that answers 402 and asks for 5 USDC; a client built with no
    options, so with the default cap of 1. *)
Definition asked : Sdk.PaymentRequest.t :=
  {| Sdk.PaymentRequest.amount := JsNumber.of_Z 5;
     Sdk.PaymentRequest.token := "USDC";
     Sdk.PaymentRequest.recipient := "MERCHANT";
     Sdk.PaymentRequest.paymentId := "1700000000000";
     Sdk.PaymentRequest.expiresAt := 1700000300000;
     Sdk.PaymentRequest.description := None |}.

Definition sdk_env : Sdk.Env unit :=
  {| Sdk.originalFetch := fun _ _ w =>
       (w, Ok {| Sdk.status := 402; Sdk.headers := [("X-PAYMENT-REQUEST", "{...}")] |});
     Sdk.connection_getRecentBlockhash := fun w => (w, Ok "blockhash");
     Sdk.wallet_signTransaction := fun _ w => (w, Ok "signed");
     Sdk.wallet_signMessage := fun _ w => (w, Ok "signature");
     Sdk.wallet_publicKey := "PAYER";
     Sdk.JSON_parse_PaymentRequest := fun _ => Ok asked;
     Sdk.JSON_parse_PaymentResponse := fun _ => Throw "Unexpected token";
     Sdk.JSON_stringify_header := fun _ => "{...}";
     Sdk.number_toString := fun _ => "5" |}.

(** [new SolPay402Client(connection, wallet)] and
    [new SolPay402Client(connection, wallet, { maxPaymentAmount: undefined })]. *)
Definition no_options : Sdk.SolPay402ClientOptions.t :=
  {| Sdk.SolPay402ClientOptions.autoApprove := Sdk.Absent;
     Sdk.SolPay402ClientOptions.maxPaymentAmount := Sdk.Absent;
     Sdk.SolPay402ClientOptions.preferredToken := Sdk.Absent |}.

Definition undefined_cap : Sdk.SolPay402ClientOptions.t :=
  {| Sdk.SolPay402ClientOptions.autoApprove := Sdk.Absent;
     Sdk.SolPay402ClientOptions.maxPaymentAmount := Sdk.Undefined;
     Sdk.SolPay402ClientOptions.preferredToken := Sdk.Absent |}.

(** [{ autoApprove: true, maxPaymentAmount: 10 }]. *)
Definition generous : Sdk.SolPay402ClientOptions.t :=
  {| Sdk.SolPay402ClientOptions.autoApprove := Sdk.Value true;
     Sdk.SolPay402ClientOptions.maxPaymentAmount := Sdk.Value (JsNumber.of_Z 10);
     Sdk.SolPay402ClientOptions.preferredToken := Sdk.Absent |}.

(** The same server asking for a token the client does not know. *)
Definition asked_bonk : Sdk.PaymentRequest.t :=
  {| Sdk.PaymentRequest.amount := JsNumber.of_Z 5;
     Sdk.PaymentRequest.token := "BONK";
     Sdk.PaymentRequest.recipient := "MERCHANT";
     Sdk.PaymentRequest.paymentId := "1700000000000";
     Sdk.PaymentRequest.expiresAt := 1700000300000;
     Sdk.PaymentRequest.description := None |}.

Definition asks_bonk : Sdk.Env unit :=
  {| Sdk.originalFetch := Sdk.originalFetch sdk_env;
     Sdk.connection_getRecentBlockhash := Sdk.connection_getRecentBlockhash sdk_env;
     Sdk.wallet_signTransaction := Sdk.wallet_signTransaction sdk_env;
     Sdk.wallet_signMessage := Sdk.wallet_signMessage sdk_env;
     Sdk.wallet_publicKey := "PAYER";
     Sdk.JSON_parse_PaymentRequest := fun _ => Ok asked_bonk;
     Sdk.JSON_parse_PaymentResponse := Sdk.JSON_parse_PaymentResponse sdk_env;
     Sdk.JSON_stringify_header := Sdk.JSON_stringify_header sdk_env;
     Sdk.number_toString := Sdk.number_toString sdk_env |}.

(** A backend whose ledger accepts everything.  The world is the clock:
    [ticking] advances it by one millisecond at every reading, [frozen]
    reads 1000 every time. *)
Definition merchant_config : Backend.Config :=
  {| Backend.defaultPaymentAmount := 0.01%Q;
     Backend.defaultToken := "USDC";
     Backend.merchantAccount := "MERCHANT";
     Backend.paymentExpiryMs := 300000 |}.

Definition pays_merchant : Backend.Transaction :=
  {| Backend.instructions :=
       [{| Backend.programId := "TOKEN_PROGRAM"; Backend.keys := ["PAYER"; "MERCHANT"] |}] |}.

Definition pays_nobody : Backend.Transaction := {| Backend.instructions := [] |}.

Definition header_with (transaction : string) : Backend.X402PaymentHeader.t :=
  {| Backend.X402PaymentHeader.version := "1.0";
     Backend.X402PaymentHeader.paymentId := "1000";
     Backend.X402PaymentHeader.amount := 0.01%Q;
     Backend.X402PaymentHeader.token := "USDC";
     Backend.X402PaymentHeader.recipient := "MERCHANT";
     Backend.X402PaymentHeader.transaction := transaction;
     Backend.X402PaymentHeader.signature := "sig" |}.

Definition backend (clock : Z -> Z * Z) : Backend.Env Z :=
  {| Backend.config := merchant_config;
     Backend.Date_now := clock;
     Backend.Transaction_from := fun s =>
       if String.eqb s "good" then Some pays_merchant
       else if String.eqb s "empty" then Some pays_nobody
       else None;
     Backend.connection_sendRawTransaction := fun _ w => (w, Ok "5Xj8");
     Backend.connection_confirmTransaction := fun _ w => (w, Ok {| Backend.err := None |});
     Backend.JSON_parse := fun s =>
       if String.eqb s "good" then Some (header_with "good")
       else if String.eqb s "empty" then Some (header_with "empty")
       else None;
     Backend.TOKEN_PROGRAM_ID := "TOKEN_PROGRAM" |}.

Definition ticking : Backend.Env Z := backend (fun w => (w + 1, w + 1)).
Definition frozen : Backend.Env Z := backend (fun w => (w, 1000)).

(** A ledger whose first confirmation times out and whose later ones
    resolve; the world counts the confirmations asked for.  And a ledger
    that rejects every transaction when it is sent. *)
Definition times_out_once : Backend.Env Z :=
  {| Backend.config := merchant_config;
     Backend.Date_now := fun w => (w, 1000);
     Backend.Transaction_from := Backend.Transaction_from frozen;
     Backend.connection_sendRawTransaction := fun _ w => (w, Ok "5Xj8");
     Backend.connection_confirmTransaction := fun _ w =>
       (w + 1,
        if (w =? 0)%Z then Throw "Transaction was not confirmed in 30.00 seconds"
        else Ok {| Backend.err := None |});
     Backend.JSON_parse := Backend.JSON_parse frozen;
     Backend.TOKEN_PROGRAM_ID := "TOKEN_PROGRAM" |}.

Definition rejecting : Backend.Env Z :=
  {| Backend.config := merchant_config;
     Backend.Date_now := fun w => (w, 1000);
     Backend.Transaction_from := Backend.Transaction_from frozen;
     Backend.connection_sendRawTransaction := fun _ w =>
       (w, Throw "Transaction simulation failed: insufficient funds");
     Backend.connection_confirmTransaction := fun _ w => (w, Ok {| Backend.err := None |});
     Backend.JSON_parse := Backend.JSON_parse frozen;
     Backend.TOKEN_PROGRAM_ID := "TOKEN_PROGRAM" |}.

(** A clock read faster than it moves: every millisecond is read twice
    (0, 0, 1, 1, ...); the world counts the readings.  And a clock long
    after every challenge of the examples has expired. *)
Definition stalling : Backend.Env Z := backend (fun w => (w + 1, w / 2)).
Definition late : Backend.Env Z := backend (fun w => (w, 1000000000000)).

Definition request (x_payment : option string) : Backend.Request :=
  {| Backend.url := "/api/protected-resource";
     Backend.x_payment := x_payment;
     Backend.paymentAmount := Some 0.01%Q;
     Backend.paymentToken := Some "USDC";
     Backend.paymentDescription := Some "Access to protected resource" |}.

(** A challenge, a payment that pays nobody, a new challenge. *)
Definition retry : list Backend.Request :=
  [request None; request (Some "empty"); request None].

(** A confirmed transaction whose only token balance is 1 USDC held by an
    account that is not the merchant. *)
Definition misdirected : SolanaPayment.TransactionResponse :=
  {| SolanaPayment.meta :=
       {| SolanaPayment.err := None;
          SolanaPayment.postTokenBalances :=
            [{| SolanaPayment.mint := "USDC_MINT";
                SolanaPayment.owner := "SOMEONE_ELSE";
                SolanaPayment.uiTokenAmount := {| SolanaPayment.uiAmount := 1%Q |} |}] |} |}.

Definition chain (signature : string) : option SolanaPayment.TransactionResponse :=
  if String.eqb signature "5Xj8" then Some misdirected else None.

(** A policy of at most 100 USDC per payment and 1000 of a token per day,
    and a day's payment intents. *)
Definition policy : PolicyAgent.PolicyAgentConfig :=
  {| PolicyAgent.spendingLimits := {[ "USDC" := JsNumber.of_Z 100 ]};
     PolicyAgent.dailyLimit := JsNumber.of_Z 1000 |}.

Definition intents : list (string * Z) :=
  [("USDC", 60%Z); ("USDC", 500%Z); ("SOL", 700%Z); ("SOL", 400%Z); ("SOL", 300%Z)].

(** A payload answering a challenge. *)
Definition payload (paymentId scheme : string) : Facilitator.PaymentPayload :=
  {| Facilitator.version := "1";
     Facilitator.paymentId := paymentId;
     Facilitator.scheme := scheme;
     Facilitator.network := "solana-mainnet";
     Facilitator.transaction := "tx";
     Facilitator.signature := "sig" |}.

End Examples.

(** * Properties *)

(** ** JavaScript numbers *)

Section NumberFacts.
Import JsNumber.

Lemma nearest_even_1 (n : Z) : nearest_even n 1 = n.
Proof. unfold nearest_even. rewrite Z.div_1_r, Z.mod_1_r. reflexivity. Qed.

Lemma Qred_inject_Z (z : Z) : Qred (inject_Z z) = inject_Z z.
Proof.
  unfold Qred, inject_Z.
  pose proof (Z.ggcd_gcd z 1) as Hg.
  pose proof (Z.ggcd_correct_divisors z 1) as Hd.
  destruct (Z.ggcd z 1) as [g [aa bb]]. simpl in *.
  rewrite Z.gcd_1_r in Hg. subst g. destruct Hd as [Ha Hb].
  rewrite Z.mul_1_l in Ha, Hb. subst. reflexivity.
Qed.

(** An integer of magnitude up to 2^53 is a double: rounding leaves it. *)
Lemma round_pos_integer (s : bool) (n : positive) :
  Zpos n <= 2 ^ 53 ->
  round_pos s n 1 = Num (if s then (- inject_Z (Zpos n))%Q else inject_Z (Zpos n)).
Proof.
  intros Hn.
  assert (Hl : 0 <= Z.log2 (Zpos n)) by apply Z.log2_nonneg.
  assert (Hspec : 2 ^ Z.log2 (Zpos n) <= Zpos n < 2 ^ Z.succ (Z.log2 (Zpos n)))
    by (apply Z.log2_spec; lia).
  assert (Hb : binade n 1 = Z.log2 (Zpos n)).
  { unfold binade. change (Z.log2 1) with 0. rewrite Z.sub_0_r.
    destruct (0 <=? Z.log2 (Zpos n)) eqn:E; [| apply Z.leb_gt in E; lia].
    rewrite Z.mul_1_r.
    destruct (2 ^ Z.log2 (Zpos n) <=? Zpos n) eqn:E'; [reflexivity | apply Z.leb_gt in E'; lia]. }
  assert (Hle : Z.log2 (Zpos n) <= 53).
  { destruct (Z.le_gt_cases (Z.log2 (Zpos n)) 53) as [H | H]; [exact H |].
    assert (2 ^ 54 <= 2 ^ Z.log2 (Zpos n)) by (apply Z.pow_le_mono_r; lia).
    change (2 ^ 54) with 18014398509481984 in *.
    change (2 ^ 53) with 9007199254740992 in *. lia. }
  unfold round_pos. rewrite Hb.
  set (L := Z.log2 (Zpos n)) in *.
  rewrite Z.max_l by lia.
  assert (Hcases : L < 52 \/ L = 52 \/ L = 53) by lia.
  destruct Hcases as [Hlt | [-> | ->]].
  - assert ((0 <=? L - 52) = false) as -> by (apply Z.leb_gt; lia).
    rewrite nearest_even_1.
    assert ((971 <? L - 52) = false) as -> by (apply Z.ltb_ge; lia).
    assert ((L - 52 =? 971) = false) as -> by (apply Z.eqb_neq; lia).
    simpl orb. cbv iota.
    assert (Hp : 0 < 2 ^ (- (L - 52))) by (apply Z.pow_pos_nonneg; lia).
    assert ((Zpos n * 2 ^ (- (L - 52)) =? 0) = false) as -> by (apply Z.eqb_neq; lia).
    assert (Hred : Qred (Qmake (Zpos n * 2 ^ (- (L - 52))) (Z.to_pos (2 ^ (- (L - 52)))))
                   = inject_Z (Zpos n)).
    { rewrite <- (Qred_inject_Z (Zpos n)).
      apply Qred_complete. unfold Qeq. cbn [Qnum Qden inject_Z].
      rewrite Z2Pos.id by lia. lia. }
    rewrite Hred. reflexivity.
  - simpl. rewrite nearest_even_1. rewrite Z.mul_1_r. reflexivity.
  - assert (Zpos n = 2 ^ 53) by (change (Z.succ 53) with 54 in Hspec; lia).
    assert (n = Z.to_pos (2 ^ 53)) as -> by (rewrite <- H; reflexivity).
    destruct s; vm_compute; reflexivity.
Qed.

Lemma round_of_Z (z : Z) : - 2 ^ 53 <= z <= 2 ^ 53 -> round (inject_Z z) = of_Z z.
Proof.
  intros Hz. unfold round, of_Z. destruct z as [| n | n]; cbn [Qnum Qden inject_Z].
  - reflexivity.
  - rewrite round_pos_integer by lia. reflexivity.
  - rewrite round_pos_integer by lia. reflexivity.
Qed.

Lemma add_of_Z (a b : Z) :
  - 2 ^ 53 <= a + b <= 2 ^ 53 -> add (of_Z a) (of_Z b) = of_Z (a + b).
Proof.
  intros H. unfold add, of_Z, value. rewrite <- inject_Z_plus. now apply round_of_Z.
Qed.

Lemma sub_of_Z (a b : Z) :
  - 2 ^ 53 <= a - b <= 2 ^ 53 -> sub (of_Z a) (of_Z b) = of_Z (a - b).
Proof.
  intros H. unfold sub, neg, of_Z. cbn [Qnum inject_Z].
  destruct (b =? 0) eqn:E.
  - apply Z.eqb_eq in E. subst b. unfold add, value.
    rewrite Z.sub_0_r in *.
    replace (inject_Z a + 0)%Q with (inject_Z (a + 0)) by (rewrite inject_Z_plus; reflexivity).
    rewrite Z.add_0_r. now apply round_of_Z.
  - unfold add, value. rewrite <- inject_Z_opp, <- inject_Z_plus. now apply round_of_Z.
Qed.

Lemma Qle_bool_inject_Z (a b : Z) : Qle_bool (inject_Z a) (inject_Z b) = (a <=? b).
Proof. unfold Qle_bool. cbn [Qnum Qden inject_Z]. rewrite !Z.mul_1_r. reflexivity. Qed.

Lemma leb_of_Z (a b : Z) : leb (of_Z a) (of_Z b) = (a <=? b).
Proof. apply Qle_bool_inject_Z. Qed.

Lemma ltb_of_Z (a b : Z) : ltb (of_Z a) (of_Z b) = (a <? b).
Proof.
  unfold ltb, of_Z, value. rewrite Qle_bool_inject_Z. symmetry. apply Z.ltb_antisym.
Qed.

Lemma ceil_integral (x : number) : integral (ceil x).
Proof.
  destruct x as [q | | | |]; simpl; auto.
  destruct (_ && _); simpl; eauto.
Qed.

(** Below an integral bound, the next integer is still within it. *)
Lemma ltb_succ (p : Z) (bound : number) :
  integral bound -> ltb (of_Z p) bound = true -> leb (of_Z (p + 1)) bound = true.
Proof.
  destruct bound as [q | | | |]; try (simpl; congruence).
  - intros [z ->]. change (Num (inject_Z z)) with (of_Z z).
    rewrite ltb_of_Z, leb_of_Z, Z.ltb_lt, Z.leb_le. lia.
  - intros _. change (ltb (of_Z p) (of_Z 0) = true -> leb (of_Z (p + 1)) (of_Z 0) = true).
    rewrite ltb_of_Z, leb_of_Z, Z.ltb_lt, Z.leb_le. lia.
Qed.

Lemma leb_pred (p : Z) (bound : number) :
  leb (of_Z p) bound = true -> leb (of_Z (p - 1)) bound = true.
Proof.
  assert (Hstep : forall q, Qle_bool (inject_Z p) q = true -> Qle_bool (inject_Z (p - 1)) q = true).
  { intros q H. apply Qle_bool_iff in H. apply Qle_bool_iff.
    eapply Qle_trans; [| exact H]. rewrite <- Zle_Qle. lia. }
  destruct bound as [q | | | |]; simpl; try congruence; apply Hstep.
Qed.

End NumberFacts.

(** ** Pagination *)

Section PaginationFacts.
Import JsNumber Pagination.

Lemma in_rangeb_spec (s : hook) : in_rangeb s = true <-> in_range s.
Proof. unfold in_rangeb, in_range. rewrite !andb_true_iff. tauto. Qed.

(** A whole page within range, as the facts below need it: the page is the
    integer [p], at least 1 and at most the page count. *)
Lemma in_range_integer (s : hook) (p : Z) :
  page s = of_Z p -> in_range s ->
  1 <= p /\ leb (of_Z p) (totalPages s) = true /\ geb (totalPages s) (of_Z 1) = true.
Proof.
  intros Hp (H1 & H2 & H3). rewrite Hp in H1, H2.
  unfold geb in H1. rewrite leb_of_Z in H1. apply Z.leb_le in H1. auto.
Qed.

Lemma nextPage_in_range (s : hook) (p : Z) :
  page s = of_Z p -> p < 2 ^ 53 -> in_range s ->
  in_range (once nextPage s)
  /\ page (once nextPage s) = of_Z (if hasNextPage s then p + 1 else p).
Proof.
  intros Hp Hsafe Hin.
  destruct (in_range_integer s p Hp Hin) as (H1 & H2 & H3).
  unfold once, nextPage. destruct (hasNextPage s) eqn:E; [| auto].
  unfold hasNextPage in E. rewrite Hp in E.
  assert (Hadd : add (page s) (of_Z 1) = of_Z (p + 1)).
  { rewrite Hp. apply add_of_Z. lia. }
  unfold in_range, totalPages, setPage; cbn [page pageSize total].
  rewrite Hadd. split; [| reflexivity].
  split; [| split].
  - unfold geb. rewrite leb_of_Z. apply Z.leb_le. lia.
  - apply ltb_succ; [apply ceil_integral | exact E].
  - exact H3.
Qed.

Lemma previousPage_in_range (s : hook) (p : Z) :
  page s = of_Z p -> p < 2 ^ 53 -> in_range s ->
  in_range (once previousPage s)
  /\ page (once previousPage s) = of_Z (if hasPreviousPage s then p - 1 else p).
Proof.
  intros Hp Hsafe Hin.
  destruct (in_range_integer s p Hp Hin) as (H1 & H2 & H3).
  unfold once, previousPage. destruct (hasPreviousPage s) eqn:E; [| auto].
  unfold hasPreviousPage, gtb in E. rewrite Hp, ltb_of_Z in E. apply Z.ltb_lt in E.
  assert (Hsub : sub (page s) (of_Z 1) = of_Z (p - 1)).
  { rewrite Hp. apply sub_of_Z. lia. }
  unfold in_range, totalPages, setPage; cbn [page pageSize total].
  rewrite Hsub. split; [| reflexivity].
  split; [| split].
  - unfold geb. rewrite leb_of_Z. apply Z.leb_le. lia.
  - apply leb_pred. exact H2.
  - exact H3.
Qed.

Lemma goToPage_in_range (n : number) (s : hook) :
  in_range s ->
  in_range (once (goToPage n) s)
  /\ page (once (goToPage n) s)
     = if geb n (of_Z 1) && leb n (totalPages s) then n else page s.
Proof.
  intros (H1 & H2 & H3). unfold once, goToPage.
  destruct (geb n (of_Z 1) && leb n (totalPages s)) eqn:E.
  - apply andb_true_iff in E as [E1 E2].
    unfold in_range, totalPages, setPage; cbn [page pageSize total]. auto.
  - unfold in_range. auto.
Qed.

Lemma changePageSize_in_range (n : number) (s : hook) :
  in_range (once (changePageSize n) s)
  <-> geb (ceil (div (total s) n)) (of_Z 1) = true.
Proof.
  unfold once, changePageSize, in_range, totalPages, setPage, setPageSize;
    cbn [page pageSize total].
  split; [intros (_ & _ & H); exact H |].
  intros H. split; [reflexivity |]. split; [exact H | exact H].
Qed.

End PaginationFacts.

(** C10, as the hook behaves.  From a rendered state whose page is a whole
    number below 2^53 lying in [1, totalPages], one call of a callback
    followed by the render gives: [nextPage] adds one exactly when
    page < totalPages, [previousPage] subtracts one exactly when page > 1,
    [goToPage n] moves to [n] exactly when 1 <= n <= totalPages, and after
    each of the three the page is still in [1, totalPages], which has not
    changed.  [changePageSize n] always sets the page to 1 and the page size
    to [n]; the page is then in range exactly when the new totalPages,
    ceil (total / n), is at least 1. *)
Theorem pagination_keeps_page_in_range (s : Pagination.hook) (p : Z) :
  Pagination.in_range s ->
  Pagination.page s = JsNumber.of_Z p ->
  p < 2 ^ 53 ->
  (Pagination.in_range (Pagination.once Pagination.nextPage s)
   /\ Pagination.page (Pagination.once Pagination.nextPage s)
      = JsNumber.of_Z (if Pagination.hasNextPage s then p + 1 else p))
  /\ (Pagination.in_range (Pagination.once Pagination.previousPage s)
      /\ Pagination.page (Pagination.once Pagination.previousPage s)
         = JsNumber.of_Z (if Pagination.hasPreviousPage s then p - 1 else p))
  /\ (forall n,
        Pagination.in_range (Pagination.once (Pagination.goToPage n) s)
        /\ Pagination.page (Pagination.once (Pagination.goToPage n) s)
           = if JsNumber.geb n (JsNumber.of_Z 1)
                && JsNumber.leb n (Pagination.totalPages s)
             then n else Pagination.page s)
  /\ (forall n,
        Pagination.page (Pagination.once (Pagination.changePageSize n) s) = JsNumber.of_Z 1
        /\ Pagination.pageSize (Pagination.once (Pagination.changePageSize n) s) = n
        /\ (Pagination.in_range (Pagination.once (Pagination.changePageSize n) s)
            <-> JsNumber.geb (JsNumber.ceil (JsNumber.div (Pagination.total s) n))
                             (JsNumber.of_Z 1) = true)).
Proof.
  intros Hin Hp Hsafe.
  split; [now apply nextPage_in_range |].
  split; [now apply previousPage_in_range |].
  split; [intros n; now apply goToPage_in_range |].
  intros n. split; [reflexivity |]. split; [reflexivity |].
  apply changePageSize_in_range.
Qed.

(** The theorem at page 2 of 3 (25 items, 10 per page). *)
Lemma pagination_keeps_page_in_range_witness :
  Pagination.in_range Examples.second_page
  /\ Pagination.page
       (Pagination.once Pagination.nextPage
          Examples.second_page)
     = JsNumber.of_Z 3
  /\ Pagination.in_range
       (Pagination.once Pagination.previousPage
          Examples.second_page).
Proof.
  assert (H : Pagination.in_range
                Examples.second_page)
    by (apply in_rangeb_spec; vm_compute; reflexivity).
  split; [exact H |].
  destruct (pagination_keeps_page_in_range
              Examples.second_page 2
              H eq_refl ltac:(reflexivity))
    as ((_ & Hn) & (Hp & _) & _).
  split; [exact Hn | exact Hp].
Defined.

(** C10 as stated fails in three ways.  With 10 items, 5 per page, on page 1
    of 2, [changePageSize(-1)] gives totalPages = -10, and page 1 is outside
    [1, -10].  With 25 items, 10 per page, on page 2.5 (where [goToPage(2.5)]
    leads from page 2), [nextPage] gives 3.5, beyond the 3 pages.  And from
    page 2 of 3, a handler that calls [nextPage] twice before the next render
    passes the guard twice and ends on page 4. *)
Lemma page_leaves_range :
  (Pagination.in_range Examples.ten_items
   /\ Pagination.totalPages
        (Pagination.once (Pagination.changePageSize (JsNumber.of_Z (-1))) Examples.ten_items)
      = JsNumber.of_Z (-10)
   /\ ~ Pagination.in_range
          (Pagination.once (Pagination.changePageSize (JsNumber.of_Z (-1))) Examples.ten_items))
  /\ (Pagination.in_range Examples.second_page
      /\ Pagination.once (Pagination.goToPage (JsNumber.Num (Qmake 5 2))) Examples.second_page
         = Examples.fractional_page
      /\ Pagination.in_range Examples.fractional_page
      /\ Pagination.totalPages Examples.fractional_page = JsNumber.of_Z 3
      /\ Pagination.page (Pagination.once Pagination.nextPage Examples.fractional_page)
         = JsNumber.Num (Qmake 7 2)
      /\ ~ Pagination.in_range (Pagination.once Pagination.nextPage Examples.fractional_page))
  /\ (Pagination.page
        (Pagination.handle [Pagination.nextPage; Pagination.nextPage] Examples.second_page)
      = JsNumber.of_Z 4
      /\ ~ Pagination.in_range
             (Pagination.handle [Pagination.nextPage; Pagination.nextPage]
                Examples.second_page)).
Proof.
  assert (Hno : forall s, Pagination.in_rangeb s = false -> ~ Pagination.in_range s).
  { intros s E H. apply in_rangeb_spec in H. congruence. }
  split; [| split].
  - split; [apply in_rangeb_spec; vm_compute; reflexivity |].
    split; [vm_compute; reflexivity |].
    apply Hno. vm_compute. reflexivity.
  - split; [apply in_rangeb_spec; vm_compute; reflexivity |].
    split; [vm_compute; reflexivity |].
    split; [apply in_rangeb_spec; vm_compute; reflexivity |].
    split; [vm_compute; reflexivity |].
    split; [vm_compute; reflexivity |].
    apply Hno. vm_compute. reflexivity.
  - split; [vm_compute; reflexivity |].
    apply Hno. vm_compute. reflexivity.
Qed.

(** ** Client SDK *)

Lemma Qltb_lt (a b : Q) : Qltb a b = true <-> (a < b)%Q.
Proof.
  unfold Qltb. rewrite negb_true_iff. split.
  - intros H. apply Qnot_le_lt. intros Hle. apply Qle_bool_iff in Hle. congruence.
  - intros H. destruct (Qle_bool b a) eqn:E; [| reflexivity].
    apply Qle_bool_iff in E. exfalso. exact (Qlt_not_le _ _ H E).
Qed.

(** The cap the constructor stores: 1 when the property is absent, and what
    the property holds when it is present, [undefined] included. *)
Lemma constructor_maxPaymentAmount (options : Sdk.SolPay402ClientOptions.t) :
  Sdk.read (Sdk.SolPay402ClientOptions.maxPaymentAmount (Sdk.constructor options))
  = match Sdk.SolPay402ClientOptions.maxPaymentAmount options with
    | Sdk.Absent => Some (JsNumber.of_Z 1)
    | Sdk.Undefined => None
    | Sdk.Value m => Some m
    end.
Proof.
  unfold Sdk.constructor, Sdk.spread; simpl.
  destruct (Sdk.SolPay402ClientOptions.maxPaymentAmount options); reflexivity.
Qed.

(** The wrapped fetch of any client whose stored cap the amount exceeds. *)
Lemma fetch_throws_when_exceeds {W : Type} (env : Sdk.Env W)
    (self : Sdk.SolPay402ClientOptions.t)
    (input : string) (init : option Sdk.RequestInit) (w w1 : W)
    (response : Sdk.Response) (paymentRequestHeader : string)
    (paymentRequest : Sdk.PaymentRequest.t) :
  Sdk.originalFetch env input init w = (w1, Ok response) ->
  Sdk.status response = 402 ->
  Sdk.headers_get (Sdk.headers response) "X-PAYMENT-REQUEST" = Some paymentRequestHeader ->
  paymentRequestHeader <> EmptyString ->
  Sdk.JSON_parse_PaymentRequest env paymentRequestHeader = Ok paymentRequest ->
  Sdk.exceeds (Sdk.PaymentRequest.amount paymentRequest)
              (Sdk.read (Sdk.SolPay402ClientOptions.maxPaymentAmount self)) = true ->
  exists message,
    run (Sdk.fetchWithPayment env self input init) w
    = ((w1, [Sdk.Fetch input init; Sdk.ConsoleError "Payment processing error:" message]),
       Throw ("Payment failed: " +:+ message)).
Proof.
  intros Hfetch Hstatus Hheader Hne Hparse Hover.
  eexists.
  unfold run, Sdk.fetchWithPayment, bind, emit, call; simpl.
  rewrite Hfetch, Hstatus; simpl.
  rewrite Hheader.
  destruct paymentRequestHeader as [| c s]; [congruence |].
  unfold try_catch, bind, Sdk.lift, emit, call, throw; simpl.
  rewrite Hparse; simpl.
  rewrite Hover; simpl.
  reflexivity.
Qed.

(** The retry carries the [X-PAYMENT] header. *)
Lemma with_payment_pays (input : string) (init : option Sdk.RequestInit) (value : string) :
  Sdk.pays (Sdk.Fetch input (Some (Sdk.with_payment init value))) = true.
Proof.
  unfold Sdk.pays, Sdk.with_payment; cbn [Sdk.init_headers].
  set (old := match init with Some i => Sdk.init_headers i | None => [] end).
  destruct (existsb (fun kv => String.eqb (fst kv) "X-PAYMENT") old) eqn:E.
  - clear - E. induction old as [| [k v] rest IH]; [discriminate E |].
    cbn [existsb map fst] in *.
    destruct (String.eqb k "X-PAYMENT") eqn:Ek; cbn [fst].
    + rewrite Ek. reflexivity.
    + rewrite Ek. cbn [orb] in *. apply IH. exact E.
  - rewrite existsb_app. cbn [existsb fst]. rewrite String.eqb_refl. apply orb_true_r.
Qed.

(** The wrapped fetch when the amount is within the stored cap, the token is
    one the client knows, and the connection and the wallet answer: the
    trace up to the retry, whose outcome is the outcome of the call. *)
Lemma fetch_pays_when_within {W : Type} (env : Sdk.Env W)
    (self : Sdk.SolPay402ClientOptions.t)
    (input : string) (init : option Sdk.RequestInit) (w w1 w2 w3 w4 : W)
    (response : Sdk.Response) (paymentRequestHeader : string)
    (paymentRequest : Sdk.PaymentRequest.t) (blockhash transaction signature : string) :
  Sdk.originalFetch env input init w = (w1, Ok response) ->
  Sdk.status response = 402 ->
  Sdk.headers_get (Sdk.headers response) "X-PAYMENT-REQUEST" = Some paymentRequestHeader ->
  paymentRequestHeader <> EmptyString ->
  Sdk.JSON_parse_PaymentRequest env paymentRequestHeader = Ok paymentRequest ->
  Sdk.exceeds (Sdk.PaymentRequest.amount paymentRequest)
              (Sdk.read (Sdk.SolPay402ClientOptions.maxPaymentAmount self)) = false ->
  Sdk.PaymentRequest.token paymentRequest = "SOL"
  \/ Sdk.PaymentRequest.token paymentRequest = "USDC" ->
  Sdk.connection_getRecentBlockhash env w1 = (w2, Ok blockhash) ->
  Sdk.wallet_signTransaction env
    {| Sdk.recentBlockhash := blockhash; Sdk.feePayer := Sdk.wallet_publicKey env |} w2
  = (w3, Ok transaction) ->
  Sdk.wallet_signMessage env (SdkTrace.message_for env paymentRequest transaction) w3
  = (w4, Ok signature) ->
  let newInit :=
    Sdk.with_payment init
      (Sdk.JSON_stringify_header env
         (SdkTrace.header_for paymentRequest transaction signature)) in
  run (Sdk.fetchWithPayment env self input init) w
  = ((fst (Sdk.originalFetch env input (Some newInit) w4),
      Sdk.Fetch input init :: SdkTrace.approval self
        ++ [Sdk.GetRecentBlockhash;
            Sdk.SignTransaction
              {| Sdk.recentBlockhash := blockhash; Sdk.feePayer := Sdk.wallet_publicKey env |};
            Sdk.SignMessage (SdkTrace.message_for env paymentRequest transaction);
            Sdk.Fetch input (Some newInit)]),
     snd (Sdk.originalFetch env input (Some newInit) w4)).
Proof.
  intros Hfetch Hstatus Hheader Hne Hparse Hwithin Htoken Hhash Htx Hsig newInit.
  unfold run, Sdk.fetchWithPayment, bind, emit, call; simpl.
  rewrite Hfetch, Hstatus; simpl.
  rewrite Hheader.
  destruct paymentRequestHeader as [| c s]; [congruence |].
  unfold try_catch, bind, Sdk.lift, emit, call, throw; simpl.
  rewrite Hparse; simpl.
  rewrite Hwithin; simpl.
  unfold SdkTrace.approval, Sdk.requestUserApproval, Sdk.createPayment,
    Sdk.createPaymentTransaction, Sdk.createPaymentHeader, try_catch, bind, emit, call, ret.
  assert (Htok :
    (if String.eqb (Sdk.PaymentRequest.token paymentRequest) "SOL"
     then @ret W Sdk.Event unit tt
     else if String.eqb (Sdk.PaymentRequest.token paymentRequest) "USDC"
          then ret tt
          else throw ("Unsupported token: " +:+ Sdk.PaymentRequest.token paymentRequest))
    = ret tt).
  { destruct Htoken as [-> | ->]; reflexivity. }
  unfold ret in *.
  destruct (or_bool (Sdk.read (Sdk.SolPay402ClientOptions.autoApprove self)) false);
    simpl; rewrite Htok; simpl; rewrite Hhash; simpl; rewrite Htx; simpl;
    unfold SdkTrace.message_for in Hsig; rewrite Hsig; simpl;
    fold (SdkTrace.header_for paymentRequest transaction signature);
    fold (SdkTrace.message_for env paymentRequest transaction);
    fold newInit;
    destruct (Sdk.originalFetch env input (Some newInit) w4) as [w5 r]; reflexivity.
Qed.

(** C9 at its failing input.  A client built with
    [{ maxPaymentAmount: undefined }] stores [undefined] as its cap, because
    the spread copies the property over the default 1, and no amount exceeds
    [undefined].  Asked for 5 USDC, it asks for approval, fetches a
    blockhash, signs the transaction and the message, and retries with the
    [X-PAYMENT] header. *)
Theorem undefined_cap_lets_every_amount_through :
  (forall options amount,
     Sdk.SolPay402ClientOptions.maxPaymentAmount options = Sdk.Undefined ->
     Sdk.exceeds amount
       (Sdk.read (Sdk.SolPay402ClientOptions.maxPaymentAmount (Sdk.constructor options)))
     = false)
  /\ run (Sdk.fetchWithPayment Examples.sdk_env (Sdk.constructor Examples.undefined_cap)
            "https://api.example.com/protected-data" None) tt
     = ((tt, [Sdk.Fetch "https://api.example.com/protected-data" None;
              Sdk.ConsoleLog "Payment approval requested:";
              Sdk.GetRecentBlockhash;
              Sdk.SignTransaction
                {| Sdk.recentBlockhash := "blockhash"; Sdk.feePayer := "PAYER" |};
              Sdk.SignMessage "1700000000000:5:USDC:MERCHANT:signed";
              Sdk.Fetch "https://api.example.com/protected-data"
                (Some {| Sdk.init_headers := [("X-PAYMENT", "{...}")] |})]),
        Ok {| Sdk.status := 402; Sdk.headers := [("X-PAYMENT-REQUEST", "{...}")] |})
  /\ JsNumber.gtb (Sdk.PaymentRequest.amount Examples.asked) (JsNumber.of_Z 1) = true.
Proof.
  split; [| split].
  - intros options amount Hundefined.
    rewrite constructor_maxPaymentAmount, Hundefined.
    unfold Sdk.exceeds, JsNumber.gtb, JsNumber.to_number.
    destruct amount; reflexivity.
  - vm_compute. reflexivity.
  - vm_compute. reflexivity.
Qed.

(** ** Backend *)

Section BackendFacts.
Context {W : Type} (env : Backend.Env W).

(** One call of [verifyAndSettlePayment], path by path. *)
Lemma settle_undecodable (header : Backend.X402PaymentHeader.t) (w : W) :
  Backend.Transaction_from env (Backend.X402PaymentHeader.transaction header) = None ->
  run (Backend.verifyAndSettlePayment env header) w
  = ((w, [Backend.ConsoleError "Payment settlement error:" "Invalid transaction encoding"]),
     Ok (Backend.failure "Invalid transaction encoding" header)).
Proof.
  intros Hdecode.
  unfold run, Backend.verifyAndSettlePayment, try_catch, bind, Backend.decodeTransaction.
  rewrite Hdecode. reflexivity.
Qed.

Lemma settle_refused (header : Backend.X402PaymentHeader.t)
    (transaction : Backend.Transaction) (w : W) :
  Backend.Transaction_from env (Backend.X402PaymentHeader.transaction header) = Some transaction ->
  Backend.names_recipient env transaction header = false ->
  run (Backend.verifyAndSettlePayment env header) w
  = ((w, [Backend.VerifyTransaction transaction header false]),
     Ok (Backend.failure "Invalid transaction" header)).
Proof.
  intros Hdecode Hvalid.
  unfold run, Backend.verifyAndSettlePayment, try_catch, bind, Backend.decodeTransaction,
    Backend.verifyTransaction, bind, emit.
  rewrite Hdecode. simpl. rewrite Hvalid. reflexivity.
Qed.

Lemma settle_send_fails (header : Backend.X402PaymentHeader.t)
    (transaction : Backend.Transaction) (w w1 : W) (e : string) :
  Backend.Transaction_from env (Backend.X402PaymentHeader.transaction header) = Some transaction ->
  Backend.names_recipient env transaction header = true ->
  Backend.connection_sendRawTransaction env transaction w = (w1, Throw e) ->
  run (Backend.verifyAndSettlePayment env header) w
  = ((w1, [Backend.VerifyTransaction transaction header true;
           Backend.SendTransaction transaction;
           Backend.ConsoleError "Payment settlement error:"
             ("Transaction sending failed: Error: " +:+ e)]),
     Ok (Backend.failure ("Transaction sending failed: Error: " +:+ e) header)).
Proof.
  intros Hdecode Hvalid Hsend.
  unfold run, Backend.verifyAndSettlePayment, try_catch, bind, Backend.decodeTransaction,
    Backend.verifyTransaction, Backend.sendTransaction, try_catch, bind, emit, call.
  rewrite Hdecode. simpl. rewrite Hvalid. simpl. rewrite Hsend. reflexivity.
Qed.

Lemma settle_confirm_fails (header : Backend.X402PaymentHeader.t)
    (transaction : Backend.Transaction) (w w1 w2 : W) (signature e : string) :
  Backend.Transaction_from env (Backend.X402PaymentHeader.transaction header) = Some transaction ->
  Backend.names_recipient env transaction header = true ->
  Backend.connection_sendRawTransaction env transaction w = (w1, Ok signature) ->
  Backend.connection_confirmTransaction env signature w1 = (w2, Throw e) ->
  run (Backend.verifyAndSettlePayment env header) w
  = ((w2, [Backend.VerifyTransaction transaction header true;
           Backend.SendTransaction transaction;
           Backend.ConfirmTransaction signature;
           Backend.ConsoleError "Payment settlement error:" e]),
     Ok (Backend.failure e header)).
Proof.
  intros Hdecode Hvalid Hsend Hconfirm.
  unfold run, Backend.verifyAndSettlePayment, try_catch, bind, Backend.decodeTransaction,
    Backend.verifyTransaction, Backend.sendTransaction, try_catch, bind, emit, call.
  rewrite Hdecode. simpl. rewrite Hvalid. simpl. rewrite Hsend. simpl.
  rewrite Hconfirm. reflexivity.
Qed.

Lemma settle_succeeds (header : Backend.X402PaymentHeader.t)
    (transaction : Backend.Transaction) (w w1 w2 w3 : W) (signature : string)
    (result : Backend.SignatureResult) (blockTime : Z) :
  Backend.Transaction_from env (Backend.X402PaymentHeader.transaction header) = Some transaction ->
  Backend.names_recipient env transaction header = true ->
  Backend.connection_sendRawTransaction env transaction w = (w1, Ok signature) ->
  Backend.connection_confirmTransaction env signature w1 = (w2, Ok result) ->
  Backend.Date_now env w2 = (w3, blockTime) ->
  run (Backend.verifyAndSettlePayment env header) w
  = ((w3, [Backend.VerifyTransaction transaction header true;
           Backend.SendTransaction transaction;
           Backend.ConfirmTransaction signature]),
     Ok (BackendUtils.settled_status header signature blockTime)).
Proof.
  intros Hdecode Hvalid Hsend Hconfirm Hnow.
  unfold run, Backend.verifyAndSettlePayment, try_catch, bind, Backend.decodeTransaction,
    Backend.verifyTransaction, Backend.sendTransaction, Backend.now, try_catch, bind, emit, call.
  rewrite Hdecode. simpl. rewrite Hvalid. simpl. rewrite Hsend. simpl.
  rewrite Hconfirm. simpl. rewrite Hnow. reflexivity.
Qed.

(** The facilitator returns a status on every path. *)
Lemma verifyAndSettlePayment_returns (header : Backend.X402PaymentHeader.t) (w : W) :
  exists state status,
    run (Backend.verifyAndSettlePayment env header) w = (state, Ok status).
Proof.
  destruct (Backend.Transaction_from env (Backend.X402PaymentHeader.transaction header))
    as [transaction |] eqn:Hdecode;
    [| rewrite (settle_undecodable header w Hdecode); eauto].
  destruct (Backend.names_recipient env transaction header) eqn:Hvalid;
    [| rewrite (settle_refused header transaction w Hdecode Hvalid); eauto].
  destruct (Backend.connection_sendRawTransaction env transaction w)
    as [w1 [e | signature]] eqn:Hsend;
    [rewrite (settle_send_fails header transaction w w1 e Hdecode Hvalid Hsend); eauto |].
  destruct (Backend.connection_confirmTransaction env signature w1)
    as [w2 [e | result]] eqn:Hconfirm;
    [rewrite (settle_confirm_fails header transaction w w1 w2 signature e
                Hdecode Hvalid Hsend Hconfirm); eauto |].
  destruct (Backend.Date_now env w2) as [w3 blockTime] eqn:Hnow.
  rewrite (settle_succeeds header transaction w w1 w2 w3 signature result blockTime
             Hdecode Hvalid Hsend Hconfirm Hnow). eauto.
Qed.

(** A request cycle with a payment header that parses. *)
Lemma middleware_paid (req : Backend.Request) (paymentHeader : string)
    (header : Backend.X402PaymentHeader.t) (w : W)
    (state : W * list Backend.Event) (status : Backend.PaymentStatus.t) :
  Backend.x_payment req = Some paymentHeader ->
  paymentHeader <> EmptyString ->
  Backend.JSON_parse env paymentHeader = Some header ->
  run (Backend.verifyAndSettlePayment env header) w = (state, Ok status) ->
  run (Backend.paymentRequiredMiddleware env req) w = (state, Ok (BackendUtils.answer header status)).
Proof.
  intros Hheader Hne Hparse Hrun.
  unfold run, Backend.paymentRequiredMiddleware in *. rewrite Hheader.
  destruct paymentHeader as [| c s]; [congruence |].
  unfold try_catch at 1. unfold bind at 1. unfold Backend.parsePaymentHeader.
  rewrite Hparse. unfold ret at 1.
  unfold try_catch at 1. unfold bind at 1. rewrite Hrun.
  unfold BackendUtils.answer. destruct (Backend.PaymentStatus.success status); reflexivity.
Qed.

(** A request cycle with a payment header that does not parse. *)
Lemma middleware_unparsed (req : Backend.Request) (paymentHeader : string) (w : W) :
  Backend.x_payment req = Some paymentHeader ->
  paymentHeader <> EmptyString ->
  Backend.JSON_parse env paymentHeader = None ->
  run (Backend.paymentRequiredMiddleware env req) w
  = ((w, [Backend.ConsoleError "Payment header parsing error:" "Invalid payment header format"]),
     Ok Backend.InvalidPaymentHeader).
Proof.
  intros Hheader Hne Hparse.
  unfold run, Backend.paymentRequiredMiddleware. rewrite Hheader.
  destruct paymentHeader as [| c s]; [congruence |].
  unfold try_catch at 1. unfold bind at 1. unfold Backend.parsePaymentHeader.
  rewrite Hparse. reflexivity.
Qed.

(** A request cycle without a payment header: two readings of the clock,
    no event. *)
Lemma middleware_unpaid (req : Backend.Request) (w : W) (trace : list Backend.Event) :
  Backend.x_payment req = None \/ Backend.x_payment req = Some EmptyString ->
  Backend.paymentRequiredMiddleware env req (w, trace)
  = ((fst (Backend.Date_now env (fst (Backend.Date_now env w))), trace),
     Ok (Backend.PaymentRequired (BackendUtils.challenge_at env req w))).
Proof.
  intros Hnone.
  assert (H : bind (Backend.challenge env req)
                (fun pr => ret (Backend.PaymentRequired pr)) (w, trace)
              = ((fst (Backend.Date_now env (fst (Backend.Date_now env w))), trace),
                 Ok (Backend.PaymentRequired (BackendUtils.challenge_at env req w)))).
  { unfold Backend.challenge, BackendUtils.challenge_at, bind, Backend.now, call; simpl.
    destruct (Backend.Date_now env w) as [w1 t1]; simpl.
    destruct (Backend.Date_now env w1) as [w2 t2]; reflexivity. }
  unfold Backend.paymentRequiredMiddleware.
  destruct Hnone as [-> | ->]; exact H.
Qed.

End BackendFacts.

(** *** Settlement follows verification *)

Section Settlement.
Context {W : Type} (env : Backend.Env W) (req : Backend.Request).

Lemma settles_no_send (trace : list Backend.Event) :
  existsb Backend.is_send trace = false ->
  Backend.settles_verified_payload env req trace.
Proof.
  intros Hnone pre transaction post Heq. exfalso.
  assert (H : existsb Backend.is_send trace = true).
  { rewrite Heq, existsb_app. simpl. apply orb_true_r. }
  congruence.
Qed.

Lemma settles_after_verification (paymentHeader : string)
    (header : Backend.X402PaymentHeader.t) (transaction : Backend.Transaction)
    (rest : list Backend.Event) :
  Backend.x_payment req = Some paymentHeader ->
  Backend.JSON_parse env paymentHeader = Some header ->
  Backend.Transaction_from env (Backend.X402PaymentHeader.transaction header) = Some transaction ->
  Backend.names_recipient env transaction header = true ->
  existsb Backend.is_send rest = false ->
  Backend.settles_verified_payload env req
    (Backend.VerifyTransaction transaction header true
       :: Backend.SendTransaction transaction :: rest).
Proof.
  intros Hheader Hparse Hdecode Hvalid Hrest pre t post H.
  destruct pre as [| e pre]; [discriminate H |].
  injection H as <- H.
  destruct pre as [| e' pre].
  - injection H as <- _. exists paymentHeader, header. auto.
  - injection H as <- H. exfalso.
    assert (Hin : existsb Backend.is_send rest = true).
    { rewrite H, existsb_app. simpl. apply orb_true_r. }
    congruence.
Qed.

End Settlement.

(** C4.  In every request cycle of the middleware, from any world and for
    any request, whatever is sent to the ledger is the transaction decoded
    from the [x-payment] header of that request, and the send comes directly
    after [verifyTransaction] returned true for that transaction and that
    header, at the start of the cycle.  A cycle sends at most once, and a
    cycle whose verification said no, threw, or did not run sends
    nothing. *)
Theorem no_settlement_without_verification {W : Type} (env : Backend.Env W)
    (req : Backend.Request) (w : W) :
  Backend.settles_verified_payload env req
    (snd (fst (run (Backend.paymentRequiredMiddleware env req) w)))
  /\ (length (List.filter Backend.is_send
                (snd (fst (run (Backend.paymentRequiredMiddleware env req) w)))) <= 1)%nat
  /\ ((forall transaction header,
         ~ In (Backend.VerifyTransaction transaction header true)
              (snd (fst (run (Backend.paymentRequiredMiddleware env req) w)))) ->
      existsb Backend.is_send
        (snd (fst (run (Backend.paymentRequiredMiddleware env req) w))) = false).
Proof.
  assert (Hquiet : forall trace,
            existsb Backend.is_send trace = false ->
            Backend.settles_verified_payload env req trace
            /\ (length (List.filter Backend.is_send trace) <= 1)%nat
            /\ ((forall transaction header,
                   ~ In (Backend.VerifyTransaction transaction header true) trace) ->
                existsb Backend.is_send trace = false)).
  { intros trace Hnone. split; [now apply settles_no_send |]. split; [| auto].
    clear - Hnone. induction trace as [| e trace IH]; [simpl; lia |].
    simpl in *. destruct (Backend.is_send e); [discriminate |]. apply IH. exact Hnone. }
  destruct (Backend.x_payment req) as [paymentHeader |] eqn:Hheader.
  2: { unfold run. rewrite middleware_unpaid by auto. apply Hquiet. reflexivity. }
  destruct (String.eqb_spec paymentHeader EmptyString) as [-> | Hne].
  { unfold run. rewrite middleware_unpaid by auto. apply Hquiet. reflexivity. }
  destruct (Backend.JSON_parse env paymentHeader) as [header |] eqn:Hparse.
  2: { rewrite (middleware_unparsed env req paymentHeader w) by auto.
       apply Hquiet. reflexivity. }
  destruct (Backend.Transaction_from env (Backend.X402PaymentHeader.transaction header))
    as [transaction |] eqn:Hdecode.
  2: { rewrite (middleware_paid env req paymentHeader header w _ _ Hheader Hne Hparse
                  (settle_undecodable env header w Hdecode)).
       apply Hquiet. reflexivity. }
  destruct (Backend.names_recipient env transaction header) eqn:Hvalid.
  2: { rewrite (middleware_paid env req paymentHeader header w _ _ Hheader Hne Hparse
                  (settle_refused env header transaction w Hdecode Hvalid)).
       apply Hquiet. reflexivity. }
  assert (Hsent : forall rest,
            existsb Backend.is_send rest = false ->
            Backend.settles_verified_payload env req
              (Backend.VerifyTransaction transaction header true
                 :: Backend.SendTransaction transaction :: rest)
            /\ (length (List.filter Backend.is_send
                          (Backend.VerifyTransaction transaction header true
                             :: Backend.SendTransaction transaction :: rest)) <= 1)%nat
            /\ ((forall t h,
                   ~ In (Backend.VerifyTransaction t h true)
                        (Backend.VerifyTransaction transaction header true
                           :: Backend.SendTransaction transaction :: rest)) ->
                existsb Backend.is_send
                  (Backend.VerifyTransaction transaction header true
                     :: Backend.SendTransaction transaction :: rest) = false)).
  { intros rest Hrest. split; [eapply settles_after_verification; eassumption |]. split.
    - cbn [List.filter Backend.is_send length].
      assert (List.filter Backend.is_send rest = []) as ->; [| simpl; lia].
      clear - Hrest. induction rest as [| e rest IH]; [reflexivity |].
      simpl in *. destruct (Backend.is_send e); [discriminate |]. apply IH. exact Hrest.
    - intros Hnever. exfalso. apply (Hnever transaction header). left. reflexivity. }
  destruct (Backend.connection_sendRawTransaction env transaction w)
    as [w1 [e | signature]] eqn:Hsend.
  { rewrite (middleware_paid env req paymentHeader header w _ _ Hheader Hne Hparse
               (settle_send_fails env header transaction w w1 e Hdecode Hvalid Hsend)).
    apply Hsent. reflexivity. }
  destruct (Backend.connection_confirmTransaction env signature w1)
    as [w2 [e | result]] eqn:Hconfirm.
  { rewrite (middleware_paid env req paymentHeader header w _ _ Hheader Hne Hparse
               (settle_confirm_fails env header transaction w w1 w2 signature e
                  Hdecode Hvalid Hsend Hconfirm)).
    apply Hsent. reflexivity. }
  destruct (Backend.Date_now env w2) as [w3 blockTime] eqn:Hnow.
  rewrite (middleware_paid env req paymentHeader header w _ _ Hheader Hne Hparse
             (settle_succeeds env header transaction w w1 w2 w3 signature result blockTime
                Hdecode Hvalid Hsend Hconfirm Hnow)).
  apply Hsent. reflexivity.
Qed.

(** *** Challenge identifiers *)

Section Clock.
Context {W : Type} (env : Backend.Env W) (latest : W -> Z).
Hypothesis Hmono : Backend.monotone env latest.

Lemma now_monotone (w : W) (trace : list Backend.Event) :
  Backend.now env (w, trace)
  = ((fst (Backend.Date_now env w), trace), Ok (snd (Backend.Date_now env w)))
  /\ latest w <= snd (Backend.Date_now env w) <= latest (fst (Backend.Date_now env w)).
Proof.
  unfold Backend.now, call; simpl.
  pose proof (Backend.mono_now env latest Hmono w) as H.
  destruct (Backend.Date_now env w) as [w' t]; simpl in *. auto.
Qed.

(** The facilitator returns a status and does not turn the clock back. *)
Lemma verifyAndSettlePayment_clock (header : Backend.X402PaymentHeader.t)
    (w : W) (trace : list Backend.Event) :
  exists w' trace' status,
    Backend.verifyAndSettlePayment env header (w, trace) = ((w', trace'), Ok status)
    /\ latest w <= latest w'.
Proof.
  unfold Backend.verifyAndSettlePayment, try_catch, bind, Backend.decodeTransaction.
  destruct (Backend.Transaction_from env _) as [transaction |]; simpl;
    [| do 3 eexists; split; [reflexivity | simpl; lia]].
  destruct (Backend.names_recipient env transaction header) eqn:Evalid; simpl;
    [| do 3 eexists; split; [reflexivity | simpl; lia]].
  unfold Backend.sendTransaction, try_catch, bind, emit, call; simpl.
  pose proof (Backend.mono_send env latest Hmono transaction w) as Hsend.
  destruct (Backend.connection_sendRawTransaction env transaction w) as [w1 [e | signature]];
    simpl in *; [do 3 eexists; split; [reflexivity | simpl; lia] |].
  pose proof (Backend.mono_confirm env latest Hmono signature w1) as Hconfirm.
  destruct (Backend.connection_confirmTransaction env signature w1) as [w2 [e | result]];
    simpl in *; [do 3 eexists; split; [reflexivity | simpl; lia] |].
  match goal with
  | |- context [Backend.now env (w2, ?tr)] =>
      destruct (now_monotone w2 tr) as (Hnow & Hlt & Hle)
  end.
  rewrite Hnow; simpl.
  do 3 eexists; split; [reflexivity | simpl; lia].
Qed.

(** One request cycle: it answers, the clock has not gone back, and a
    challenge carries the rendering of a reading taken in the cycle. *)
Lemma middleware_clock (req : Backend.Request) (w : W) (trace : list Backend.Event) :
  exists w' trace' reply,
    Backend.paymentRequiredMiddleware env req (w, trace) = ((w', trace'), Ok reply)
    /\ latest w <= latest w'
    /\ forall pr, reply = Backend.PaymentRequired pr ->
         exists t, Backend.PaymentRequest.paymentId pr = pretty t /\ t <= latest w'.
Proof.
  assert (Hchallenge :
    Backend.x_payment req = None \/ Backend.x_payment req = Some EmptyString ->
    exists w' trace' reply,
      Backend.paymentRequiredMiddleware env req (w, trace) = ((w', trace'), Ok reply)
      /\ latest w <= latest w'
      /\ forall pr, reply = Backend.PaymentRequired pr ->
           exists t, Backend.PaymentRequest.paymentId pr = pretty t /\ t <= latest w').
  { intros Hnone. rewrite middleware_unpaid by exact Hnone.
    destruct (now_monotone w trace) as (_ & H1 & H2).
    destruct (now_monotone (fst (Backend.Date_now env w)) trace) as (_ & H3 & H4).
    do 3 eexists. split; [reflexivity |]. split; [lia |].
    intros pr [= <-]. eexists. split; [reflexivity | lia]. }
  destruct (Backend.x_payment req) as [[| c s] |] eqn:Hheader;
    try (apply Hchallenge; solve [auto]).
  unfold Backend.paymentRequiredMiddleware. rewrite Hheader.
  unfold try_catch at 1. unfold bind at 1. unfold Backend.parsePaymentHeader.
  destruct (Backend.JSON_parse env (String c s)) as [header |]; simpl.
  - unfold try_catch at 1. unfold bind at 1.
    destruct (verifyAndSettlePayment_clock header w trace) as (w' & trace' & status & -> & Hle).
    destruct (Backend.PaymentStatus.success status); simpl;
      do 3 eexists; (split; [reflexivity |]); (split; [exact Hle |]); intros pr; discriminate.
  - do 3 eexists. split; [reflexivity |]. split; [simpl; lia |]. intros pr; discriminate.
Qed.

(** The server over any list of requests: it answers each, and every
    challenge it issues renders a reading within the bound it ends with. *)
Lemma serve_clock (reqs : list Backend.Request) :
  forall (w : W) (trace : list Backend.Event),
  exists w' trace' replies,
    Backend.serve env reqs (w, trace) = ((w', trace'), Ok replies)
    /\ latest w <= latest w'
    /\ Forall (fun id => exists t, id = pretty t /\ t <= latest w') (Backend.issued replies).
Proof.
  induction reqs as [| req rest IH]; intros w trace.
  - do 3 eexists. split; [reflexivity |]. split; [simpl; lia | constructor].
  - simpl. unfold bind at 1.
    destruct (middleware_clock req w trace) as (w1 & trace1 & reply & -> & Hle & Hid).
    unfold bind at 1.
    destruct (IH w1 trace1) as (w2 & trace2 & replies & -> & Hle2 & Hall).
    simpl. do 3 eexists. split; [reflexivity |]. split; [lia |].
    destruct reply as [pr | | | |]; simpl; try exact Hall.
    constructor; [| exact Hall].
    destruct (Hid pr eq_refl) as (t & Ht & Hlt).
    exists t. split; [exact Ht | lia].
Qed.

(** Serving one more request. *)
Lemma serve_snoc (reqs : list Backend.Request) (req : Backend.Request) :
  forall (w : W) (trace : list Backend.Event) state replies state' reply,
    Backend.serve env reqs (w, trace) = (state, Ok replies) ->
    Backend.paymentRequiredMiddleware env req state = (state', Ok reply) ->
    Backend.serve env (reqs ++ [req]) (w, trace) = (state', Ok (replies ++ [reply])).
Proof.
  induction reqs as [| r rest IH]; intros w trace state replies state' reply Hserve Hreply.
  - simpl in Hserve. injection Hserve as <- <-.
    simpl. unfold bind at 1. rewrite Hreply. reflexivity.
  - simpl in *. unfold bind at 1 in Hserve. unfold bind at 1.
    destruct (Backend.paymentRequiredMiddleware env r (w, trace)) as [[w1 trace1] [e | first]];
      [discriminate Hserve |].
    unfold bind at 1 in Hserve. unfold bind at 1.
    destruct (Backend.serve env rest (w1, trace1)) as [state1 [e | others]] eqn:Hrest;
      [discriminate Hserve |].
    injection Hserve as <- <-.
    rewrite (IH w1 trace1 state1 others state' reply Hrest Hreply). reflexivity.
Qed.

End Clock.

(** C7, as the middleware behaves.  The paymentId of a challenge is the
    decimal rendering of the clock reading taken when it is issued.  Under
    a clock that does not run backwards, after any requests served so far,
    rejections among them, a request without a payment header is answered
    with a challenge, and when the reading taken for it is later than the
    readings taken before, its paymentId differs from every paymentId
    issued before. *)
Theorem challenge_ids_fresh_when_clock_advances {W : Type} (env : Backend.Env W)
    (latest : W -> Z) (before : list Backend.Request) (req : Backend.Request) (w : W) :
  Backend.monotone env latest ->
  Backend.x_payment req = None \/ Backend.x_payment req = Some EmptyString ->
  exists w1 trace1 replies,
    run (Backend.serve env before) w = ((w1, trace1), Ok replies)
    /\ snd (run (Backend.serve env (before ++ [req])) w)
       = Ok (replies ++ [Backend.PaymentRequired (BackendUtils.challenge_at env req w1)])
    /\ Backend.PaymentRequest.paymentId (BackendUtils.challenge_at env req w1)
       = pretty (snd (Backend.Date_now env w1))
    /\ (latest w1 < snd (Backend.Date_now env w1) ->
        ~ In (Backend.PaymentRequest.paymentId (BackendUtils.challenge_at env req w1))
             (Backend.issued replies)).
Proof.
  intros Hmono Hnone.
  destruct (serve_clock env latest Hmono before w []) as (w1 & trace1 & replies & Hrun & _ & Hall).
  exists w1, trace1, replies. unfold run. split; [exact Hrun |]. split.
  - rewrite (serve_snoc env before req w [] _ _ _ _ Hrun (middleware_unpaid env req w1 trace1 Hnone)).
    reflexivity.
  - split; [reflexivity |].
    intros Hlater Hin. rewrite List.Forall_forall in Hall.
    destruct (Hall _ Hin) as (t & Heq & Hle).
    simpl in Heq. apply (inj pretty) in Heq. lia.
Qed.

Lemma stalling_monotone : Backend.monotone Examples.stalling (fun w => (w - 1) / 2).
Proof.
  split; simpl; intros; try lia.
  replace (w + 1 - 1) with w by lia. split; [| lia].
  apply Z.div_le_mono; lia.
Qed.

(** The theorem for the retry under a clock that reads every millisecond
    twice (0, 0, 1, 1, ...): the first challenge carries 0, the payment is
    rejected, and the challenge issued after it carries 1. *)
Lemma challenge_ids_fresh_when_clock_advances_witness :
  exists w1 trace1 replies,
    run (Backend.serve Examples.stalling [Examples.request None; Examples.request (Some "empty")]) 0
    = ((w1, trace1), Ok replies)
    /\ Backend.issued replies = ["0"]
    /\ Backend.PaymentRequest.paymentId
         (BackendUtils.challenge_at Examples.stalling (Examples.request None) w1) = "1"
    /\ ~ In (Backend.PaymentRequest.paymentId
               (BackendUtils.challenge_at Examples.stalling (Examples.request None) w1))
            (Backend.issued replies).
Proof.
  destruct (challenge_ids_fresh_when_clock_advances Examples.stalling (fun w => (w - 1) / 2)
              [Examples.request None; Examples.request (Some "empty")]
              (Examples.request None) 0 stalling_monotone (or_introl eq_refl))
    as (w1 & trace1 & replies & Hrun & _ & _ & Hfresh).
  exists w1, trace1, replies. split; [exact Hrun |].
  vm_compute in Hrun. injection Hrun as <- <- <-.
  split; [reflexivity |]. split; [reflexivity |].
  apply Hfresh. vm_compute. reflexivity.
Defined.

(** C7 as stated fails when the clock does not move between two challenges:
    the challenge issued after the rejection carries the paymentId of the
    one issued before it. *)
Lemma challenge_id_reused_within_a_millisecond :
  exists pr1 r pr2,
    snd (run (Backend.serve Examples.frozen Examples.retry) 0)
    = Ok [Backend.PaymentRequired pr1; r; Backend.PaymentRequired pr2]
    /\ Backend.is_rejection r = true
    /\ Backend.PaymentRequest.paymentId pr1 = "1000"
    /\ Backend.PaymentRequest.paymentId pr2 = "1000"
    /\ In (Backend.PaymentRequest.paymentId pr2) (Backend.issued [Backend.PaymentRequired pr1; r]).
Proof.
  do 3 eexists. split; [vm_compute; reflexivity |].
  split; [reflexivity |]. split; [reflexivity |]. split; [reflexivity |].
  left. reflexivity.
Qed.

(** *** Replay *)

(** C1 at its failing input.  The same request, carrying the same
    [x-payment] header, is served twice by a server whose ledger accepts the
    transaction both times: both cycles verify, send and confirm the
    transaction, and both call [next()].  Nothing records the first
    settlement.  On the page of [verifyPayment], a signature that verifies
    does so whenever it is presented: the function reads and writes no
    record, and the cache of verified payments starts empty with no code
    that adds to it, so [isPaymentVerified] answers false for every
    signature. *)
Theorem same_payment_settles_twice :
  run (Backend.serve Examples.ticking
         [Examples.request (Some "good"); Examples.request (Some "good")]) 0
  = ((2, [Backend.VerifyTransaction Examples.pays_merchant (Examples.header_with "good") true;
          Backend.SendTransaction Examples.pays_merchant;
          Backend.ConfirmTransaction "5Xj8";
          Backend.VerifyTransaction Examples.pays_merchant (Examples.header_with "good") true;
          Backend.SendTransaction Examples.pays_merchant;
          Backend.ConfirmTransaction "5Xj8"]),
     Ok [Backend.Next (Some (BackendUtils.settled (Examples.header_with "good") "5Xj8" 1));
         Backend.Next (Some (BackendUtils.settled (Examples.header_with "good") "5Xj8" 2))])
  /\ SolanaPayment.verifyPayment Examples.chain "USDC_MINT" "5Xj8" 0.25%Q "SOMEONE_ELSE" = Ok true
  /\ (forall signature, SolanaPayment.isPaymentVerified ∅ signature = false).
Proof.
  split; [vm_compute; reflexivity |].
  split; [reflexivity |].
  intros signature. unfold SolanaPayment.isPaymentVerified.
  apply bool_decide_eq_false. rewrite lookup_empty. intros [x Hx]. discriminate Hx.
Qed.

(** *** Settlement failures *)

(** C5, as the facilitator behaves.  For a header whose transaction decodes
    and names the recipient: when the send is rejected, the status is a
    failure whose error is the text of the exception behind
    [Transaction sending failed: Error: ]; when the confirmation throws, as
    it does on a timeout, the status is a failure whose error is the text of
    that exception; and whenever the send returns a signature and the
    confirmation resolves, whatever it resolves with, the status is a
    success.  The facilitator keeps no state of its own, so the last part
    holds for an attempt after a failed one as for a first attempt. *)
Theorem settlement_failure_returns_message {W : Type} (env : Backend.Env W)
    (header : Backend.X402PaymentHeader.t) (transaction : Backend.Transaction) (w : W) :
  Backend.Transaction_from env (Backend.X402PaymentHeader.transaction header) = Some transaction ->
  Backend.names_recipient env transaction header = true ->
  (forall w1 e,
     Backend.connection_sendRawTransaction env transaction w = (w1, Throw e) ->
     run (Backend.verifyAndSettlePayment env header) w
     = ((w1, [Backend.VerifyTransaction transaction header true;
              Backend.SendTransaction transaction;
              Backend.ConsoleError "Payment settlement error:"
                ("Transaction sending failed: Error: " +:+ e)]),
        Ok (Backend.failure ("Transaction sending failed: Error: " +:+ e) header)))
  /\ (forall w1 signature w2 e,
        Backend.connection_sendRawTransaction env transaction w = (w1, Ok signature) ->
        Backend.connection_confirmTransaction env signature w1 = (w2, Throw e) ->
        run (Backend.verifyAndSettlePayment env header) w
        = ((w2, [Backend.VerifyTransaction transaction header true;
                 Backend.SendTransaction transaction;
                 Backend.ConfirmTransaction signature;
                 Backend.ConsoleError "Payment settlement error:" e]),
           Ok (Backend.failure e header)))
  /\ (forall w1 signature w2 result w3 blockTime,
        Backend.connection_sendRawTransaction env transaction w = (w1, Ok signature) ->
        Backend.connection_confirmTransaction env signature w1 = (w2, Ok result) ->
        Backend.Date_now env w2 = (w3, blockTime) ->
        run (Backend.verifyAndSettlePayment env header) w
        = ((w3, [Backend.VerifyTransaction transaction header true;
                 Backend.SendTransaction transaction;
                 Backend.ConfirmTransaction signature]),
           Ok (BackendUtils.settled_status header signature blockTime))).
Proof.
  intros Hdecode Hvalid. split; [| split].
  - intros w1 e Hsend. now apply settle_send_fails.
  - intros w1 signature w2 e Hsend Hconfirm. now apply settle_confirm_fails with (w1 := w1).
  - intros w1 signature w2 result w3 blockTime Hsend Hconfirm Hnow.
    now apply settle_succeeds with (w1 := w1) (w2 := w2) (result := result).
Qed.

(** The theorem for a ledger whose first confirmation times out: the first
    attempt fails with the text of the timeout, and the same payment,
    presented again, settles. *)
Lemma settlement_failure_returns_message_witness :
  snd (run (Backend.verifyAndSettlePayment Examples.times_out_once
              (Examples.header_with "good")) 0)
  = Ok (Backend.failure "Transaction was not confirmed in 30.00 seconds"
          (Examples.header_with "good"))
  /\ snd (run (Backend.verifyAndSettlePayment Examples.times_out_once
                 (Examples.header_with "good")) 1)
     = Ok (BackendUtils.settled_status (Examples.header_with "good") "5Xj8" 1000).
Proof.
  destruct (settlement_failure_returns_message Examples.times_out_once
              (Examples.header_with "good") Examples.pays_merchant 0 eq_refl eq_refl)
    as (_ & Hconfirm & _).
  destruct (settlement_failure_returns_message Examples.times_out_once
              (Examples.header_with "good") Examples.pays_merchant 1 eq_refl eq_refl)
    as (_ & _ & Hsuccess).
  split.
  - rewrite (Hconfirm 0 "5Xj8" 1 "Transaction was not confirmed in 30.00 seconds"
               eq_refl eq_refl). reflexivity.
  - rewrite (Hsuccess 1 "5Xj8" 2 {| Backend.err := None |} 2 1000 eq_refl eq_refl eq_refl).
    reflexivity.
Defined.

(** C5 as stated fails on the error it names: after a timeout the error of
    the status is the text of the exception, not [SettlementTimeout], and
    after a rejected send it is the text of the rejection, not
    [SettlementRejected]. *)
Lemma settlement_error_is_the_exception_text :
  (Backend.PaymentStatus.error
     (Backend.failure "Transaction was not confirmed in 30.00 seconds"
        (Examples.header_with "good"))
   <> Some "SettlementTimeout"
   /\ snd (run (Backend.verifyAndSettlePayment Examples.times_out_once
                  (Examples.header_with "good")) 0)
      = Ok (Backend.failure "Transaction was not confirmed in 30.00 seconds"
              (Examples.header_with "good")))
  /\ (Backend.PaymentStatus.error
        (Backend.failure
           "Transaction sending failed: Error: Transaction simulation failed: insufficient funds"
           (Examples.header_with "good"))
      <> Some "SettlementRejected"
      /\ snd (run (Backend.verifyAndSettlePayment Examples.rejecting
                     (Examples.header_with "good")) 0)
         = Ok (Backend.failure
                 "Transaction sending failed: Error: Transaction simulation failed: insufficient funds"
                 (Examples.header_with "good"))).
Proof.
  split; (split; [discriminate | vm_compute; reflexivity]).
Qed.

(** *** Expiry *)

Section Expiry.
Context {W : Type} (env : Backend.Env W) (clock : W -> W * Z).

(** The facilitator under another clock: the same events, and the same
    status but for the time of settlement. *)
Lemma verifyAndSettlePayment_any_clock (header : Backend.X402PaymentHeader.t) (w : W) :
  exists state state' status status',
    run (Backend.verifyAndSettlePayment env header) w = (state, Ok status)
    /\ run (Backend.verifyAndSettlePayment (Backend.with_clock env clock) header) w
       = (state', Ok status')
    /\ snd state = snd state'
    /\ Backend.without_blockTime (BackendUtils.answer header status)
       = Backend.without_blockTime (BackendUtils.answer header status').
Proof.
  destruct (Backend.Transaction_from env (Backend.X402PaymentHeader.transaction header))
    as [transaction |] eqn:Hdecode.
  2: { rewrite (settle_undecodable env header w Hdecode).
       rewrite (settle_undecodable (Backend.with_clock env clock) header w Hdecode).
       do 4 eexists. repeat split; reflexivity. }
  destruct (Backend.names_recipient env transaction header) eqn:Hvalid.
  2: { rewrite (settle_refused env header transaction w Hdecode Hvalid).
       rewrite (settle_refused (Backend.with_clock env clock) header transaction w
                  Hdecode Hvalid).
       do 4 eexists. repeat split; reflexivity. }
  destruct (Backend.connection_sendRawTransaction env transaction w)
    as [w1 [e | signature]] eqn:Hsend.
  { rewrite (settle_send_fails env header transaction w w1 e Hdecode Hvalid Hsend).
    rewrite (settle_send_fails (Backend.with_clock env clock) header transaction w w1 e
               Hdecode Hvalid Hsend).
    do 4 eexists. repeat split; reflexivity. }
  destruct (Backend.connection_confirmTransaction env signature w1)
    as [w2 [e | result]] eqn:Hconfirm.
  { rewrite (settle_confirm_fails env header transaction w w1 w2 signature e
               Hdecode Hvalid Hsend Hconfirm).
    rewrite (settle_confirm_fails (Backend.with_clock env clock) header transaction
               w w1 w2 signature e Hdecode Hvalid Hsend Hconfirm).
    do 4 eexists. repeat split; reflexivity. }
  destruct (Backend.Date_now env w2) as [w3 blockTime] eqn:Hnow.
  destruct (clock w2) as [w3' blockTime'] eqn:Hclock.
  rewrite (settle_succeeds env header transaction w w1 w2 w3 signature result blockTime
             Hdecode Hvalid Hsend Hconfirm Hnow).
  rewrite (settle_succeeds (Backend.with_clock env clock) header transaction
             w w1 w2 w3' signature result blockTime' Hdecode Hvalid Hsend Hconfirm Hclock).
  do 4 eexists. repeat split; reflexivity.
Qed.

End Expiry.

(** C6, as the middleware behaves.  The answer to a request that carries a
    payment header does not depend on the time: under any other clock the
    cycle has the same events and gives the same answer, but for the time
    of settlement it reports.  No reading of the clock is compared with an
    expiry, so a payment is accepted after the challenge it answers has
    expired exactly when it would have been accepted before. *)
Theorem payment_answer_ignores_the_clock {W : Type} (env : Backend.Env W)
    (clock : W -> W * Z) (req : Backend.Request) (paymentHeader : string) (w : W) :
  Backend.x_payment req = Some paymentHeader ->
  paymentHeader <> EmptyString ->
  exists reply reply',
    snd (run (Backend.paymentRequiredMiddleware env req) w) = Ok reply
    /\ snd (run (Backend.paymentRequiredMiddleware (Backend.with_clock env clock) req) w)
       = Ok reply'
    /\ Backend.without_blockTime reply = Backend.without_blockTime reply'
    /\ snd (fst (run (Backend.paymentRequiredMiddleware env req) w))
       = snd (fst (run (Backend.paymentRequiredMiddleware (Backend.with_clock env clock) req) w)).
Proof.
  intros Hheader Hne.
  destruct (Backend.JSON_parse env paymentHeader) as [header |] eqn:Hparse.
  - destruct (verifyAndSettlePayment_any_clock env clock header w)
      as (state & state' & status & status' & Hrun & Hrun' & Htrace & Hanswer).
    rewrite (middleware_paid env req paymentHeader header w _ _ Hheader Hne Hparse Hrun).
    rewrite (middleware_paid (Backend.with_clock env clock) req paymentHeader header w _ _
               Hheader Hne Hparse Hrun').
    do 2 eexists. split; [reflexivity |]. split; [reflexivity |]. split; assumption.
  - rewrite (middleware_unparsed env req paymentHeader w Hheader Hne Hparse).
    rewrite (middleware_unparsed (Backend.with_clock env clock) req paymentHeader w
               Hheader Hne Hparse).
    do 2 eexists. repeat split; reflexivity.
Qed.

(** The theorem for the payment that pays the merchant, under the clock of
    the examples and long after. *)
Lemma payment_answer_ignores_the_clock_witness :
  exists reply reply',
    snd (run (Backend.paymentRequiredMiddleware Examples.frozen
                (Examples.request (Some "good"))) 0) = Ok reply
    /\ snd (run (Backend.paymentRequiredMiddleware
                   (Backend.with_clock Examples.frozen (fun w => (w, 1000000000000)))
                   (Examples.request (Some "good"))) 0) = Ok reply'
    /\ Backend.without_blockTime reply = Backend.without_blockTime reply'.
Proof.
  destruct (payment_answer_ignores_the_clock Examples.frozen (fun w => (w, 1000000000000))
              (Examples.request (Some "good")) "good" 0 eq_refl ltac:(discriminate))
    as (reply & reply' & H1 & H2 & H3 & _).
  exists reply, reply'. auto.
Defined.

(** C6 as stated fails: the challenge issued at clock reading 1000 expires
    at 301000, and the payment for paymentId 1000 presented when the clock
    reads 1000000000000 is verified, settled and handed on. *)
Lemma expired_payment_is_accepted :
  Backend.PaymentRequest.paymentId
    (BackendUtils.challenge_at Examples.frozen (Examples.request None) 0) = "1000"
  /\ Backend.PaymentRequest.expiresAt
       (BackendUtils.challenge_at Examples.frozen (Examples.request None) 0) = 301000
  /\ Backend.X402PaymentHeader.paymentId (Examples.header_with "good") = "1000"
  /\ run (Backend.paymentRequiredMiddleware Examples.late (Examples.request (Some "good"))) 0
     = ((0, [Backend.VerifyTransaction Examples.pays_merchant (Examples.header_with "good") true;
             Backend.SendTransaction Examples.pays_merchant;
             Backend.ConfirmTransaction "5Xj8"]),
        Ok (Backend.Next
              (Some (BackendUtils.settled (Examples.header_with "good") "5Xj8" 1000000000000)))).
Proof.
  split; [vm_compute; reflexivity |].
  split; [vm_compute; reflexivity |].
  split; [reflexivity |].
  vm_compute. reflexivity.
Qed.

(** ** Payment verification middleware *)

(** [verifyPayment] gives the same answer for every receiver. *)
Lemma verifyPayment_ignores_receiver
    (getTransaction : string -> option SolanaPayment.TransactionResponse)
    (USDC_MINT_ADDRESS signature : string) (expectedAmount : Q) (receiver1 receiver2 : string) :
  SolanaPayment.verifyPayment getTransaction USDC_MINT_ADDRESS signature expectedAmount receiver1
  = SolanaPayment.verifyPayment getTransaction USDC_MINT_ADDRESS signature expectedAmount receiver2.
Proof. reflexivity. Qed.

(** The amount floor of [verifyPayment]: when the first balance in the USDC
    mint is below the expected amount, the payment is refused. *)
Lemma verifyPayment_amount_floor
    (getTransaction : string -> option SolanaPayment.TransactionResponse)
    (USDC_MINT_ADDRESS signature : string) (expectedAmount : Q) (receiver : string)
    (transaction : SolanaPayment.TransactionResponse) (balance : SolanaPayment.TokenBalance) :
  getTransaction signature = Some transaction ->
  find (fun b => String.eqb (SolanaPayment.mint b) USDC_MINT_ADDRESS)
       (SolanaPayment.postTokenBalances (SolanaPayment.meta transaction)) = Some balance ->
  (SolanaPayment.uiAmount (SolanaPayment.uiTokenAmount balance) < expectedAmount)%Q ->
  is_throw (SolanaPayment.verifyPayment getTransaction USDC_MINT_ADDRESS signature
              expectedAmount receiver) = true.
Proof.
  intros Htx Hfind Hlt. unfold SolanaPayment.verifyPayment. rewrite Htx.
  destruct (SolanaPayment.err _); [reflexivity |].
  rewrite Hfind. apply Qltb_lt in Hlt. rewrite Hlt. reflexivity.
Qed.

(** C3 at its failing input.  The transaction credits 1 USDC to an account
    other than the merchant and nothing to the merchant; [verifyPayment]
    called for 0.25 USDC to the merchant returns true. *)
Theorem verifyPayment_accepts_misdirected_payment :
  SolanaPayment.verifyPayment Examples.chain "USDC_MINT" "5Xj8" 0.25%Q "MERCHANT" = Ok true
  /\ forall amount,
       ~ SolanaPayment.credits Examples.misdirected "USDC_MINT" "MERCHANT" amount.
Proof.
  split; [reflexivity |].
  intros amount (balance & Hin & _ & Howner & _).
  destruct Hin as [<- | []]. discriminate Howner.
Qed.

(** ** Verifiers *)



(** ** Transport encoding *)

Section Base64Facts.
Import Base64.

Lemma unbase64_digit (x : sextet) : unbase64 (digit x) = Some x.
Proof.
  destruct x as [[[[[x5 x4] x3] x2] x1] x0].
  destruct x5, x4, x3, x2, x1, x0; reflexivity.
Qed.

Lemma digit_is_not_padding (x : sextet) : Ascii.eqb (digit x) "=" = false.
Proof.
  destruct x as [[[[[x5 x4] x3] x2] x1] x0].
  destruct x5, x4, x3, x2, x1, x0; reflexivity.
Qed.

Lemma sextets_digit (x : sextet) (rest : string) :
  sextets (String (digit x) rest) = x :: sextets rest.
Proof. simpl. rewrite digit_is_not_padding, unbase64_digit. reflexivity. Qed.

Lemma sextets_padding (rest : string) : sextets (String "=" rest) = [].
Proof. reflexivity. Qed.

Lemma byte1_first_second (a b : ascii) : byte1 (first a) (second a b) = a.
Proof. destruct a, b. reflexivity. Qed.

Lemma byte2_second_third (a b c : ascii) : byte2 (second a b) (third b c) = b.
Proof. destruct a, b, c. reflexivity. Qed.

Lemma byte3_third_fourth (b c : ascii) : byte3 (third b c) (fourth c) = c.
Proof. destruct b, c. reflexivity. Qed.

(** Induction over a buffer three bytes at a time. *)
Lemma string_ind3 (P : string -> Prop) :
  P EmptyString ->
  (forall a, P (String a EmptyString)) ->
  (forall a b, P (String a (String b EmptyString))) ->
  (forall a b c rest, P rest -> P (String a (String b (String c rest)))) ->
  forall s, P s.
Proof.
  intros H0 H1 H2 H3.
  fix IH 1. intros [| a [| b [| c rest]]];
    [exact H0 | apply H1 | apply H2 | apply H3; apply IH].
Qed.

(** Decoding undoes encoding, for every buffer. *)
Lemma decode_encode (buffer : string) : decode (encode buffer) = buffer.
Proof.
  unfold decode. induction buffer as [| a | a b | a b c rest IH] using string_ind3.
  - reflexivity.
  - cbn [encode]. rewrite !sextets_digit, sextets_padding. cbn [bytes].
    rewrite byte1_first_second. reflexivity.
  - cbn [encode]. rewrite !sextets_digit, sextets_padding. cbn [bytes].
    rewrite byte1_first_second, byte2_second_third. reflexivity.
  - cbn [encode]. rewrite !sextets_digit. cbn [bytes].
    rewrite byte1_first_second, byte2_second_third, byte3_third_fourth, IH. reflexivity.
Qed.

End Base64Facts.

Section JsonFacts.
Import Json.
Local Open Scope string_scope.
#[local] Arguments String.append !s1 s2 : simpl nomatch.

Lemma append_assoc (a b c : string) : (a +:+ b) +:+ c = a +:+ (b +:+ c).
Proof. induction a as [| x a IH]; [reflexivity | simpl; f_equal; exact IH]. Qed.

Lemma length_append (a b : string) :
  String.length (a +:+ b) = (String.length a + String.length b)%nat.
Proof. induction a as [| x a IH]; [reflexivity | simpl; f_equal; exact IH]. Qed.

(** Reading back the escape of one character gives that character. *)
Lemma parse_chars_escape (c : ascii) (tail : string) :
  parse_chars (escape c +:+ tail) = prepend (String c EmptyString) (parse_chars tail).
Proof.
  destruct c as [b0 b1 b2 b3 b4 b5 b6 b7].
  destruct b0, b1, b2, b3, b4, b5, b6, b7; reflexivity.
Qed.

(** A string literal reads back as the string it was written from. *)
Lemma parse_chars_escape_all (s rest : string) :
  parse_chars (escape_all s +:+ String quotation_mark rest) = Some (s, rest).
Proof.
  induction s as [| c s IH]; [reflexivity |].
  simpl escape_all. rewrite append_assoc, parse_chars_escape, IH. reflexivity.
Qed.

Lemma quote_append (s rest : string) :
  quote s +:+ rest = String quotation_mark (escape_all s +:+ String quotation_mark rest).
Proof. unfold quote. simpl. rewrite append_assoc. reflexivity. Qed.

Lemma stringify_string_members (fields : list (string * string)) :
  stringify (JObject (string_members fields))
  = String "{" (join (map member_text fields) +:+ String "}" EmptyString).
Proof.
  unfold string_members. cbn [stringify]. rewrite map_map.
  reflexivity.
Qed.

Lemma skip_ws_other (c : ascii) (s : string) :
  is_ws c = false -> skip_ws (String c s) = String c s.
Proof. intros H. simpl. rewrite H. reflexivity. Qed.

(** A string value at the head of the text. *)
Lemma parse_value_string (fuel : nat) (v tail : string) :
  parse_value (S fuel) (quote v +:+ tail) = Some (JString v, tail).
Proof.
  rewrite quote_append. cbn [parse_value].
  rewrite skip_ws_other by reflexivity.
  change (Ascii.eqb quotation_mark quotation_mark) with true. cbn iota.
  rewrite parse_chars_escape_all. reflexivity.
Qed.

(** One member, then what its continuation decides. *)
Lemma parse_members_step (fuel : nat) (kv : string * string) (tail : string) :
  parse_members (S (S fuel)) (member_text kv +:+ tail)
  = match skip_ws tail with
    | String d r =>
        if Ascii.eqb d ","
        then match parse_members (S fuel) r with
             | Some (ms, r') => Some ((fst kv, JString (snd kv)) :: ms, r')
             | None => None
             end
        else if Ascii.eqb d "}" then Some ([(fst kv, JString (snd kv))], r)
        else None
    | EmptyString => None
    end.
Proof.
  destruct kv as [k v]. unfold member_text. cbn [fst snd].
  rewrite append_assoc, quote_append.
  change (String ":" (quote v) +:+ tail) with (String ":" (quote v +:+ tail)).
  remember (S fuel) as f eqn:Hf.
  cbn [parse_members].
  rewrite skip_ws_other by reflexivity.
  change (Ascii.eqb quotation_mark quotation_mark) with true. cbn iota.
  rewrite parse_chars_escape_all.
  rewrite skip_ws_other by reflexivity.
  change (Ascii.eqb ":" ":") with true. cbn iota.
  subst f. rewrite parse_value_string. reflexivity.
Qed.

(** The members of a non-empty object of strings, up to the closing brace. *)
Lemma parse_members_strings (fields : list (string * string)) :
  forall (fuel : nat) (rest : string),
    fields <> [] -> (length fields < fuel)%nat ->
    parse_members fuel (join (map member_text fields) +:+ String "}" rest)
    = Some (string_members fields, rest).
Proof.
  induction fields as [| kv fields IH]; intros fuel rest Hne Hfuel; [congruence |].
  destruct fuel as [| [| fuel]]; [simpl in Hfuel; lia | simpl in Hfuel; lia |].
  destruct fields as [| kv' fields].
  - cbn [map join]. rewrite parse_members_step.
    rewrite skip_ws_other by reflexivity. reflexivity.
  - change (join (map member_text (kv :: kv' :: fields)))
      with (member_text kv +:+ String "," (join (map member_text (kv' :: fields)))).
    rewrite append_assoc.
    change (String "," (join (map member_text (kv' :: fields))) +:+ String "}" rest)
      with (String "," (join (map member_text (kv' :: fields)) +:+ String "}" rest)).
    rewrite parse_members_step.
    rewrite skip_ws_other by reflexivity.
    change (Ascii.eqb "," ",") with true. cbn iota.
    rewrite IH; [reflexivity | congruence | simpl in *; lia].
Qed.

Lemma member_text_starts_with_quote (kv : string * string) :
  exists tail, member_text kv = String quotation_mark tail.
Proof. destruct kv as [k v]. unfold member_text, quote. simpl. eauto. Qed.

Lemma join_starts_with_quote (kv : string * string) (fields : list (string * string)) :
  exists tail, join (map member_text (kv :: fields)) = String quotation_mark tail.
Proof.
  destruct (member_text_starts_with_quote kv) as [tail Htail].
  destruct fields as [| kv' fields]; cbn [map join]; rewrite Htail; simpl; eauto.
Qed.

Lemma length_join_members (fields : list (string * string)) :
  (length fields <= String.length (join (map member_text fields)))%nat.
Proof.
  induction fields as [| kv fields IH]; [simpl; lia |].
  destruct (member_text_starts_with_quote kv) as [tail Htail].
  destruct fields as [| kv' fields].
  - cbn [map join]. rewrite Htail. simpl. lia.
  - change (join (map member_text (kv :: kv' :: fields)))
      with (member_text kv +:+ String "," (join (map member_text (kv' :: fields)))).
    rewrite length_append, Htail. simpl in *. lia.
Qed.

(** [JSON.parse] undoes [JSON.stringify] on every object whose values are
    strings, whatever bytes the keys and the values hold. *)
Lemma parse_stringify_strings (fields : list (string * string)) :
  parse (stringify (JObject (string_members fields))) = Some (JObject (string_members fields)).
Proof.
  rewrite stringify_string_members. unfold parse.
  destruct fields as [| kv fields]; [reflexivity |].
  pose proof (length_join_members (kv :: fields)) as Hlen.
  pose proof (parse_members_strings (kv :: fields)) as Hmembers.
  destruct (join_starts_with_quote kv fields) as [tail Htail].
  set (body := join (map member_text (kv :: fields))) in *.
  assert (Hfuel : (length (kv :: fields) < String.length (String "{" (body +:+ String "}" EmptyString)))%nat).
  { simpl String.length. rewrite length_append. simpl. simpl in Hlen. lia. }
  specialize (Hmembers _ EmptyString ltac:(congruence) Hfuel).
  set (fuel := String.length (String "{" (body +:+ String "}" EmptyString))) in *.
  cbn [parse_value].
  rewrite skip_ws_other by reflexivity.
  change (Ascii.eqb "{" quotation_mark) with false. change (Ascii.eqb "{" "[") with false.
  change (Ascii.eqb "{" "{") with true. cbn iota.
  rewrite Htail in *. simpl String.append in *.
  rewrite skip_ws_other by reflexivity.
  change (Ascii.eqb quotation_mark "}") with false. cbn iota.
  rewrite Hmembers. reflexivity.
Qed.

End JsonFacts.

(** The validation reads back the six fields of a serialised payload. *)
Lemma asPaymentPayload_toJSON (p : Facilitator.PaymentPayload) :
  Codec.asPaymentPayload (Codec.toJSON p) = Some p.
Proof. destruct p. reflexivity. Qed.

(** What the endpoint decodes is what the client encoded, for every object
    whose values are strings. *)
Lemma decodeHeader_encodeHeader (fields : list (string * string)) :
  Codec.decodeHeader (Codec.encodeHeader (Json.JObject (Json.string_members fields)))
  = Some (Json.JObject (Json.string_members fields)).
Proof.
  unfold Codec.decodeHeader, Codec.encodeHeader.
  rewrite decode_encode. apply parse_stringify_strings.
Qed.

(** C8.  For every payload, whatever bytes its six string fields hold,
    [decodePayload] applied to the base64 encoding of the JSON serialisation
    of the payload returns that payload. *)
Theorem decodePayload_inverts_encoding (p : Facilitator.PaymentPayload) :
  Codec.decodePayload (Codec.encodeHeader (Codec.toJSON p)) = inr p.
Proof.
  unfold Codec.decodePayload.
  change (Codec.toJSON p)
    with (Json.JObject
            (Json.string_members
               [("version", Facilitator.version p);
                ("paymentId", Facilitator.paymentId p);
                ("scheme", Facilitator.scheme p);
                ("network", Facilitator.network p);
                ("transaction", Facilitator.transaction p);
                ("signature", Facilitator.signature p)])).
  rewrite decodeHeader_encodeHeader.
  change (Json.JObject _) with (Codec.toJSON p).
  rewrite asPaymentPayload_toJSON. reflexivity.
Qed.

(** The header of a payload, and two decodings that the validation refuses
    or accepts: an object without the required fields, and an object with a
    field the payload does not have. *)
Example encodeHeader_example :
  Codec.encodeHeader (Json.JObject [("a", Json.JString "b")]) = "eyJhIjoiYiJ9".
Proof. vm_compute. reflexivity. Qed.

Example decodePayload_missing_fields :
  Codec.decodePayload "eyJhIjoiYiJ9" = inl Facilitator.MalformedPayloadError.
Proof. vm_compute. reflexivity. Qed.

Example decodePayload_ignores_unknown_fields :
  Codec.decodePayload
    (Codec.encodeHeader
       (Json.JObject
          [("x402Version", Json.JNumber "1"); ("version", Json.JString "1");
           ("paymentId", Json.JString "pay-1"); ("scheme", Json.JString "exact");
           ("network", Json.JString "solana-mainnet"); ("transaction", Json.JString "tx");
           ("signature", Json.JString "sig"); ("extra", Json.JArray [Json.JNull])]))
  = inr (Examples.payload "pay-1" "exact").
Proof. vm_compute. reflexivity. Qed.

(** * Further properties of the code *)

(** ** Pagination: page moves *)

Section PaginationMore.
Import JsNumber Pagination.

Lemma hook_eq (s : hook) (x : number) :
  x = page s -> {| page := x; pageSize := pageSize s; total := total s |} = s.
Proof. intros ->. destruct s. reflexivity. Qed.

(** On whole pages below 2^53, [previousPage] undoes [nextPage] wherever
    there is a next page and the page is at least 1, and [nextPage] undoes
    [previousPage] wherever the page is in range and there is a previous
    page. *)
Theorem nextPage_previousPage_inverse (s : hook) (p : Z) :
  page s = of_Z p -> p < 2 ^ 53 ->
  (1 <= p -> hasNextPage s = true -> once previousPage (once nextPage s) = s)
  /\ (in_range s -> hasPreviousPage s = true -> once nextPage (once previousPage s) = s).
Proof.
  intros Hp Hsafe. split.
  - intros H1 Hn. unfold once at 2. unfold nextPage. rewrite Hn.
    unfold once, previousPage, hasPreviousPage, setPage, gtb; cbn [page pageSize total].
    rewrite Hp, add_of_Z by lia. rewrite ltb_of_Z.
    assert ((1 <? p + 1) = true) as -> by (apply Z.ltb_lt; lia).
    rewrite sub_of_Z by lia. apply hook_eq. rewrite Hp. f_equal. lia.
  - intros Hin Hprev.
    destruct (in_range_integer s p Hp Hin) as (H1 & H2 & H3).
    unfold once at 2. unfold previousPage. rewrite Hprev.
    unfold hasPreviousPage, gtb in Hprev. rewrite Hp, ltb_of_Z in Hprev.
    apply Z.ltb_lt in Hprev.
    unfold once, nextPage, hasNextPage, totalPages, setPage; cbn [page pageSize total].
    rewrite Hp, sub_of_Z by lia.
    assert (ltb (of_Z (p - 1)) (ceil (div (total s) (pageSize s))) = true) as ->.
    { fold (totalPages s). pose proof (ceil_integral (div (total s) (pageSize s))) as Hi.
      fold (totalPages s) in Hi.
      destruct (totalPages s) as [q | | | |]; try (simpl in H2; congruence); try reflexivity.
      - destruct Hi as [z ->]. change (Num (inject_Z z)) with (of_Z z) in *.
        rewrite leb_of_Z in H2. rewrite ltb_of_Z. apply Z.leb_le in H2. apply Z.ltb_lt. lia.
      - change NegZero with NegZero in *. unfold leb in H2. simpl in H2.
        change (Qle_bool (inject_Z p) (inject_Z 0) = true) in H2.
        rewrite Qle_bool_inject_Z in H2. apply Z.leb_le in H2. lia. }
    rewrite add_of_Z by lia. apply hook_eq. rewrite Hp. f_equal. lia.
Qed.

Lemma nextPage_previousPage_inverse_witness :
  once previousPage (once nextPage (Hook (of_Z 2) (of_Z 10) (of_Z 25)))
  = Hook (of_Z 2) (of_Z 10) (of_Z 25)
  /\ once nextPage (once previousPage (Hook (of_Z 2) (of_Z 10) (of_Z 25)))
     = Hook (of_Z 2) (of_Z 10) (of_Z 25).
Proof.
  destruct (nextPage_previousPage_inverse (Hook (of_Z 2) (of_Z 10) (of_Z 25)) 2
              eq_refl ltac:(reflexivity)) as [Hn Hp].
  split.
  - apply Hn; [lia | vm_compute; reflexivity].
  - apply Hp; [apply in_rangeb_spec; vm_compute; reflexivity | vm_compute; reflexivity].
Defined.

Lemma iter_setPage_fields (step : hook -> hook) (n : nat) (s : hook) :
  (forall x, pageSize (step x) = pageSize x /\ total (step x) = total x) ->
  pageSize (Nat.iter n step s) = pageSize s /\ total (Nat.iter n step s) = total s.
Proof.
  intros Hstep. induction n as [| n [IH1 IH2]]; [split; reflexivity |].
  change (Nat.iter (S n) step s) with (step (Nat.iter n step s)).
  destruct (Hstep (Nat.iter n step s)) as [H1 H2]. split; congruence.
Qed.

Lemma once_nextPage_fields (x : hook) :
  pageSize (once nextPage x) = pageSize x /\ total (once nextPage x) = total x.
Proof. unfold once, nextPage. destruct (hasNextPage x); split; reflexivity. Qed.

Lemma once_previousPage_fields (x : hook) :
  pageSize (once previousPage x) = pageSize x /\ total (once previousPage x) = total x.
Proof. unfold once, previousPage. destruct (hasPreviousPage x); split; reflexivity. Qed.

(** Calling [nextPage] n times, a render after each call, from a whole page
    not beyond a last page k of at most 2^53 stops at k: the page is
    min (page + n, k).  Calling [previousPage] n times from a whole page of
    at least 1 stops at 1: the page is max (page - n, 1), also when the page
    started beyond the last page. *)
Theorem repeated_moves_saturate (n : nat) (s : hook) (p : Z) :
  page s = of_Z p ->
  (forall k, totalPages s = of_Z k -> - 2 ^ 53 <= p <= k -> k <= 2 ^ 53 ->
     page (Nat.iter n (once nextPage) s) = of_Z (Z.min (p + Z.of_nat n) k))
  /\ (1 <= p <= 2 ^ 53 ->
      page (Nat.iter n (once previousPage) s) = of_Z (Z.max (p - Z.of_nat n) 1)).
Proof.
  intros Hp. change (2 ^ 53) with 9007199254740992. split.
  - intros k Hk Hle Hsafe. induction n as [| n IH].
    + simpl. rewrite Hp. f_equal. lia.
    + rewrite Nat2Z.inj_succ.
      destruct (iter_setPage_fields (once nextPage) n s once_nextPage_fields) as [Hps Ht].
      change (Nat.iter (S n) (once nextPage) s)
        with (once nextPage (Nat.iter n (once nextPage) s)).
      set (x := Nat.iter n (once nextPage) s) in *.
      unfold once, nextPage, hasNextPage, totalPages. rewrite Hps, Ht.
      unfold totalPages in Hk. rewrite Hk, IH, ltb_of_Z.
      destruct (Z.min (p + Z.of_nat n) k <? k) eqn:E; cbn [page setPage].
      * apply Z.ltb_lt in E.
        rewrite IH, add_of_Z by (change (2 ^ 53) with 9007199254740992; lia). f_equal. lia.
      * apply Z.ltb_ge in E. rewrite IH. f_equal. lia.
  - intros H1. induction n as [| n IH].
    + simpl. rewrite Hp. f_equal. lia.
    + rewrite Nat2Z.inj_succ.
      change (Nat.iter (S n) (once previousPage) s)
        with (once previousPage (Nat.iter n (once previousPage) s)).
      set (x := Nat.iter n (once previousPage) s) in *.
      unfold once, previousPage, hasPreviousPage, gtb. rewrite IH, ltb_of_Z.
      destruct (1 <? Z.max (p - Z.of_nat n) 1) eqn:E; cbn [page setPage].
      * apply Z.ltb_lt in E.
        rewrite IH, sub_of_Z by (change (2 ^ 53) with 9007199254740992; lia). f_equal. lia.
      * apply Z.ltb_ge in E. rewrite IH. f_equal. lia.
Qed.

Lemma repeated_moves_saturate_witness :
  page (Nat.iter 5 (once nextPage) (Hook (of_Z 2) (of_Z 10) (of_Z 25))) = of_Z 3
  /\ page (Nat.iter 5 (once previousPage) (Hook (of_Z 7) (of_Z 10) (of_Z 25))) = of_Z 2.
Proof.
  destruct (repeated_moves_saturate 5 (Hook (of_Z 2) (of_Z 10) (of_Z 25)) 2 eq_refl)
    as [Hn _].
  destruct (repeated_moves_saturate 5 (Hook (of_Z 7) (of_Z 10) (of_Z 25)) 7 eq_refl)
    as [_ Hp].
  split.
  - rewrite (Hn 3); [reflexivity | vm_compute; reflexivity | |];
      change (2 ^ 53) with 9007199254740992; lia.
  - rewrite Hp; [reflexivity |]. change (2 ^ 53) with 9007199254740992. lia.
Defined.

Lemma handle_app (calls calls' : list callback) (rendered : hook) :
  handle (calls ++ calls') rendered
  = fold_left (fun pending call => call rendered pending) calls' (handle calls rendered).
Proof. unfold handle. apply fold_left_app. Qed.

(** The guards read the rendered state: when there is a next page, a handler
    that calls [nextPage] n times before the next render adds n to a whole
    page, however few pages are left. *)
Theorem batched_nextPage_adds_every_call (n : nat) (s : hook) (p : Z) :
  page s = of_Z p ->
  - 2 ^ 53 <= p -> p + Z.of_nat n <= 2 ^ 53 ->
  hasNextPage s = true ->
  handle (repeat nextPage n) s
  = {| page := of_Z (p + Z.of_nat n); pageSize := pageSize s; total := total s |}.
Proof.
  intros Hp Hlow Hhigh Hnext. induction n as [| n IH].
  - simpl. rewrite Z.add_0_r. symmetry. apply hook_eq. auto.
  - replace (repeat nextPage (S n)) with (repeat nextPage n ++ [nextPage])
      by (rewrite <- repeat_cons; reflexivity).
    rewrite handle_app, IH by lia. simpl. unfold nextPage. rewrite Hnext.
    unfold setPage; cbn [page pageSize total].
    rewrite add_of_Z by lia. do 2 f_equal. lia.
Qed.

Lemma batched_nextPage_adds_every_call_witness :
  handle (repeat nextPage 3) (Hook (of_Z 2) (of_Z 10) (of_Z 25))
  = Hook (of_Z 5) (of_Z 10) (of_Z 25).
Proof.
  apply (batched_nextPage_adds_every_call 3 (Hook (of_Z 2) (of_Z 10) (of_Z 25)) 2).
  - reflexivity.
  - change (2 ^ 53) with 9007199254740992. lia.
  - change (2 ^ 53) with 9007199254740992. simpl. lia.
  - vm_compute. reflexivity.
Defined.

(** [goToPage n] with 1 <= n <= totalPages puts the page at [n], in range,
    from every rendered state, also one whose page was out of range; with
    any other [n], NaN included, it changes nothing. *)
Theorem goToPage_reaches_or_stays (n : number) (s : hook) :
  (geb n (of_Z 1) = true -> leb n (totalPages s) = true ->
     page (once (goToPage n) s) = n /\ in_range (once (goToPage n) s))
  /\ ((geb n (of_Z 1) = false \/ leb n (totalPages s) = false) -> once (goToPage n) s = s).
Proof.
  unfold once, goToPage. split.
  - intros H1 H2. rewrite H1, H2. cbn [andb]. split; [reflexivity |].
    unfold in_range, totalPages, setPage in *; cbn [page pageSize total].
    split; [exact H1 |]. split; [exact H2 |].
    unfold geb in *.
    destruct n as [q | | | |], (ceil (div (total s) (pageSize s))) as [t | | | |];
      simpl in *; try congruence;
      apply Qle_bool_iff in H1, H2; apply Qle_bool_iff; eapply Qle_trans; eassumption.
  - intros [H | H]; rewrite H; [reflexivity | rewrite andb_false_r; reflexivity].
Qed.

Lemma goToPage_reaches_or_stays_witness :
  page (once (goToPage (of_Z 2)) (Hook (of_Z 9) (of_Z 10) (of_Z 25))) = of_Z 2
  /\ in_range (once (goToPage (of_Z 2)) (Hook (of_Z 9) (of_Z 10) (of_Z 25))).
Proof.
  apply (goToPage_reaches_or_stays (of_Z 2) (Hook (of_Z 9) (of_Z 10) (of_Z 25)));
    vm_compute; reflexivity.
Defined.

End PaginationMore.

(** ** Payment verification middleware: when [verifyPayment] accepts *)

Section VerifyPaymentMore.
Context (getTransaction : string -> option SolanaPayment.TransactionResponse)
        (USDC_MINT_ADDRESS : string).

Lemma verifyPayment_spec (signature : string) (expectedAmount : Q) (receiver : string) :
  SolanaPayment.verifyPayment getTransaction USDC_MINT_ADDRESS signature expectedAmount receiver
    <> Ok false
  /\ (SolanaPayment.verifyPayment getTransaction USDC_MINT_ADDRESS signature expectedAmount receiver
        = Ok true
      <-> exists transaction balance,
            getTransaction signature = Some transaction
            /\ SolanaPayment.err (SolanaPayment.meta transaction) = None
            /\ find (fun b => String.eqb (SolanaPayment.mint b) USDC_MINT_ADDRESS)
                 (SolanaPayment.postTokenBalances (SolanaPayment.meta transaction))
               = Some balance
            /\ (expectedAmount
                <= SolanaPayment.uiAmount (SolanaPayment.uiTokenAmount balance))%Q).
Proof.
  unfold SolanaPayment.verifyPayment.
  destruct (getTransaction signature) as [transaction |].
  2: { split; [discriminate |]. split; [discriminate | intros (t & b & H & _); discriminate]. }
  destruct (SolanaPayment.err (SolanaPayment.meta transaction)) as [e |] eqn:Eerr.
  { split; [discriminate |]. split; [discriminate |].
    intros (t & b & [= <-] & H & _). congruence. }
  destruct (find _ (SolanaPayment.postTokenBalances (SolanaPayment.meta transaction)))
    as [balance |] eqn:Efind.
  2: { split; [discriminate |]. split; [discriminate |].
       intros (t & b & [= <-] & _ & H & _). congruence. }
  destruct (Qltb _ expectedAmount) eqn:Elt.
  - split; [discriminate |]. split; [discriminate |].
    intros (t & b & [= <-] & _ & H & Hle).
    rewrite Efind in H. injection H as <-.
    apply Qltb_lt in Elt. exfalso. exact (Qlt_not_le _ _ Elt Hle).
  - split; [discriminate |]. split; [| reflexivity].
    intros _. exists transaction, balance. repeat split; auto.
    apply Qnot_lt_le. intros Hlt. apply Qltb_lt in Hlt. congruence.
Qed.


(** A payment accepted for an expected amount is accepted for every smaller
    expected amount. *)
Theorem verifyPayment_monotone (signature : string) (expected expected' : Q)
    (receiver receiver' : string) :
  (expected' <= expected)%Q ->
  SolanaPayment.verifyPayment getTransaction USDC_MINT_ADDRESS signature expected receiver
    = Ok true ->
  SolanaPayment.verifyPayment getTransaction USDC_MINT_ADDRESS signature expected' receiver'
    = Ok true.
Proof.
  intros Hle H.
  apply (proj2 (verifyPayment_spec signature expected receiver)) in H
    as (t & b & H1 & H2 & H3 & H4).
  apply (proj2 (verifyPayment_spec signature expected' receiver')).
  exists t, b. repeat split; auto. eapply Qle_trans; eassumption.
Qed.

End VerifyPaymentMore.

Lemma verifyPayment_monotone_witness :
  SolanaPayment.verifyPayment Examples.chain "USDC_MINT" "5Xj8" 0.25%Q "SOMEONE_ELSE" = Ok true.
Proof.
  apply (verifyPayment_monotone Examples.chain "USDC_MINT" "5Xj8" 1%Q 0.25%Q
           "SOMEONE_ELSE" "SOMEONE_ELSE").
  - unfold Qle. simpl. lia.
  - reflexivity.
Defined.

(** ** Backend: which payments the middleware accepts *)

Section BackendMore.
Context {W : Type} (env : Backend.Env W).

(** [verifyAndSettlePayment] from any state: it returns a status, and the
    status is a success exactly when the ledger takes the transaction of
    the header. *)
Lemma verifyAndSettlePayment_cases (header : Backend.X402PaymentHeader.t)
    (w : W) (trace : list Backend.Event) :
  exists s' status,
    Backend.verifyAndSettlePayment env header (w, trace) = (s', Ok status)
    /\ (Backend.PaymentStatus.success status = true ->
        exists signature blockTime,
          BackendUtils.confirms env header w signature blockTime
          /\ Backend.PaymentStatus.transaction status
             = Some (BackendUtils.settled header signature blockTime))
    /\ (forall signature blockTime,
          BackendUtils.confirms env header w signature blockTime ->
          Backend.PaymentStatus.success status = true
          /\ Backend.PaymentStatus.transaction status
             = Some (BackendUtils.settled header signature blockTime)).
Proof.
  unfold BackendUtils.confirms.
  unfold Backend.verifyAndSettlePayment, try_catch, bind, Backend.decodeTransaction.
  destruct (Backend.Transaction_from env _) as [transaction |]; simpl.
  2: { do 2 eexists. split; [reflexivity |]. split; [discriminate |].
       intros sig bt (t & w1 & w2 & w3 & res & H & _). discriminate. }
  destruct (Backend.names_recipient env transaction header) eqn:Evalid; simpl.
  2: { do 2 eexists. split; [reflexivity |]. split; [discriminate |].
       intros sig bt (t & w1 & w2 & w3 & res & [= <-] & H & _). congruence. }
  unfold Backend.sendTransaction, try_catch, bind, emit, call; simpl.
  destruct (Backend.connection_sendRawTransaction env transaction w)
    as [w1 [e | signature]] eqn:Esend; simpl.
  { do 2 eexists. split; [reflexivity |]. split; [discriminate |].
    intros sig bt (t & w1' & w2 & w3 & res & [= <-] & _ & H & _). congruence. }
  destruct (Backend.connection_confirmTransaction env signature w1)
    as [w2 [e | result]] eqn:Econfirm; simpl.
  { do 2 eexists. split; [reflexivity |]. split; [discriminate |].
    intros sig bt (t & w1' & w2' & w3 & res & [= <-] & _ & H & H' & _).
    rewrite Esend in H. injection H as <- <-. congruence. }
  unfold Backend.now, call; simpl.
  destruct (Backend.Date_now env w2) as [w3 blockTime] eqn:Enow; simpl.
  do 2 eexists. split; [reflexivity |]. simpl. split.
  - intros _. exists signature, blockTime. split; [| reflexivity].
    exists transaction, w1, w2, w3, result. auto.
  - intros sig bt (t & w1' & w2' & w3' & res & [= <-] & _ & H & H' & H'').
    rewrite Esend in H. injection H as <- <-.
    rewrite Econfirm in H'. injection H' as <- <-.
    rewrite Enow in H''. injection H'' as <- <-. split; reflexivity.
Qed.


Lemma middleware_next_spec (req : Backend.Request) (w : W)
    (paymentTransaction : option Backend.PaymentTransaction.t) :
  snd (run (Backend.paymentRequiredMiddleware env req) w) = Ok (Backend.Next paymentTransaction)
  <-> exists headerString header signature blockTime,
        Backend.x_payment req = Some headerString
        /\ headerString <> EmptyString
        /\ Backend.JSON_parse env headerString = Some header
        /\ BackendUtils.confirms env header w signature blockTime
        /\ paymentTransaction = Some (BackendUtils.settled header signature blockTime).
Proof.
  destruct (Backend.x_payment req) as [headerString |] eqn:Hheader.
  2: { unfold run. rewrite middleware_unpaid by auto. simpl.
       split; [discriminate | intros (hs & h & sig & bt & H & _); discriminate]. }
  destruct (String.eqb_spec headerString EmptyString) as [-> | Hne].
  { unfold run. rewrite middleware_unpaid by auto. simpl.
    split; [discriminate | intros (hs & h & sig & bt & [= <-] & H & _); congruence]. }
  destruct (Backend.JSON_parse env headerString) as [header |] eqn:Hparse.
  2: { rewrite (middleware_unparsed env req headerString w Hheader Hne Hparse). simpl.
       split; [discriminate |].
       intros (hs & h & sig & bt & [= <-] & _ & H & _). congruence. }
  destruct (verifyAndSettlePayment_cases header w []) as (s' & status & Hrun & Hyes & Hconf).
  rewrite (middleware_paid env req headerString header w s' status Hheader Hne Hparse Hrun).
  unfold BackendUtils.answer. simpl.
  destruct (Backend.PaymentStatus.success status) eqn:Es.
  - destruct (Hyes eq_refl) as (sig & bt & Hc & Htx). rewrite Htx. split.
    + intros [= <-]. exists headerString, header, sig, bt. auto.
    + intros (hs & h & sig' & bt' & [= <-] & _ & Hp & Hc' & ->).
      rewrite Hparse in Hp. injection Hp as <-.
      destruct (Hconf sig' bt' Hc') as [_ Htx']. rewrite Htx in Htx'.
      injection Htx' as <- <-. reflexivity.
  - split; [discriminate |].
    intros (hs & h & sig' & bt' & [= <-] & _ & Hp & Hc' & _).
    rewrite Hparse in Hp. injection Hp as <-.
    destruct (Hconf sig' bt' Hc') as [Hs _]. congruence.
Qed.

(** The middleware calls [next()] exactly when the request carries a
    non-empty [x-payment] header that parses and whose transaction the
    ledger takes: it decodes, names the header's recipient in an
    instruction of the token program, is sent, and the confirmation
    resolves.  The transaction handed on then holds the ledger's signature
    and the amount, token and recipient the header states.  The merchant
    account and the amount of the challenge take no part, nor does what the
    confirmation resolves with. *)
Theorem middleware_accepts_iff (req : Backend.Request) (w : W)
    (paymentTransaction : option Backend.PaymentTransaction.t) :
  snd (run (Backend.paymentRequiredMiddleware env req) w) = Ok (Backend.Next paymentTransaction)
  <-> exists headerString header signature blockTime,
        Backend.x_payment req = Some headerString
        /\ headerString <> EmptyString
        /\ Backend.JSON_parse env headerString = Some header
        /\ BackendUtils.confirms env header w signature blockTime
        /\ paymentTransaction = Some (BackendUtils.settled header signature blockTime).
Proof. exact (middleware_next_spec req w paymentTransaction). Qed.

(** For every accepted request, the response built by
    [createPaymentResponse] reports success and carries as its paymentId the
    signature the ledger returned for the transaction, whatever paymentId
    the header stated. *)
Theorem accepted_response_reports_signature (req : Backend.Request) (w : W)
    (transaction : Backend.PaymentTransaction.t) :
  snd (run (Backend.paymentRequiredMiddleware env req) w) = Ok (Backend.Next (Some transaction)) ->
  exists headerString header signature blockTime,
    Backend.x_payment req = Some headerString
    /\ Backend.JSON_parse env headerString = Some header
    /\ BackendUtils.confirms env header w signature blockTime
    /\ Backend.PaymentStatus.success (BackendUtils.createPaymentResponse transaction) = true
    /\ Backend.PaymentStatus.paymentId (BackendUtils.createPaymentResponse transaction)
       = signature.
Proof.
  intros H. apply middleware_next_spec in H as (hs & h & sig & bt & H1 & _ & H2 & H3 & [= ->]).
  exists hs, h, sig, bt. repeat split; auto.
Qed.

(** A request without a payment header, or with an empty one, is answered
    with a challenge and nothing is sent to the ledger.  Under a clock that
    does not run backwards the challenge expires no sooner than
    [paymentExpiryMs] after the reading its paymentId renders; it names the
    merchant account as recipient; and its amount is not zero unless the
    default amount is: a route price of zero is replaced by the default. *)
Theorem challenge_of_unpaid_request (latest : W -> Z) (req : Backend.Request) (w : W) :
  Backend.monotone env latest ->
  Backend.x_payment req = None \/ Backend.x_payment req = Some EmptyString ->
  exists paymentRequest t,
    run (Backend.paymentRequiredMiddleware env req) w
      = ((fst (Backend.Date_now env (fst (Backend.Date_now env w))), []),
         Ok (Backend.PaymentRequired paymentRequest))
    /\ Backend.PaymentRequest.paymentId paymentRequest = pretty t
    /\ t + Backend.paymentExpiryMs (Backend.config env)
       <= Backend.PaymentRequest.expiresAt paymentRequest
    /\ Backend.PaymentRequest.recipient paymentRequest
       = Backend.merchantAccount (Backend.config env)
    /\ (~ (Backend.defaultPaymentAmount (Backend.config env) == 0)%Q ->
        ~ (Backend.PaymentRequest.amount paymentRequest == 0)%Q).
Proof.
  intros Hmono Hnone.
  exists (BackendUtils.challenge_at env req w), (snd (Backend.Date_now env w)).
  unfold run. rewrite middleware_unpaid by exact Hnone.
  split; [reflexivity |]. split; [reflexivity |].
  pose proof (Backend.mono_now env latest Hmono w) as [_ H1].
  pose proof (Backend.mono_now env latest Hmono (fst (Backend.Date_now env w))) as [H2 _].
  split; [simpl; lia |]. split; [reflexivity |].
  intros Hd. cbn [BackendUtils.challenge_at Backend.PaymentRequest.amount]. unfold or_number.
  destruct (Backend.paymentAmount req) as [q |]; [| exact Hd].
  destruct (Qeq_bool q 0) eqn:E; [exact Hd |].
  intros Hq. apply Qeq_bool_iff in Hq. congruence.
Qed.

End BackendMore.

Lemma challenge_of_unpaid_request_witness :
  exists paymentRequest t,
    snd (run (Backend.paymentRequiredMiddleware Examples.stalling (Examples.request None)) 0)
      = Ok (Backend.PaymentRequired paymentRequest)
    /\ Backend.PaymentRequest.paymentId paymentRequest = pretty t
    /\ t + 300000 <= Backend.PaymentRequest.expiresAt paymentRequest.
Proof.
  destruct (challenge_of_unpaid_request Examples.stalling (fun w => (w - 1) / 2)
              (Examples.request None) 0 stalling_monotone (or_introl eq_refl))
    as (pr & t & H1 & H3 & H4 & _).
  exists pr, t. rewrite H1. repeat split; assumption.
Defined.

Lemma accepted_response_reports_signature_witness :
  exists headerString header signature blockTime,
    Backend.x_payment (Examples.request (Some "good")) = Some headerString
    /\ Backend.JSON_parse Examples.ticking headerString = Some header
    /\ BackendUtils.confirms Examples.ticking header 0 signature blockTime
    /\ Backend.PaymentStatus.success
         (BackendUtils.createPaymentResponse
            (BackendUtils.settled (Examples.header_with "good") "5Xj8" 1)) = true
    /\ Backend.PaymentStatus.paymentId
         (BackendUtils.createPaymentResponse
            (BackendUtils.settled (Examples.header_with "good") "5Xj8" 1)) = signature.
Proof.
  apply (accepted_response_reports_signature Examples.ticking (Examples.request (Some "good")) 0
           (BackendUtils.settled (Examples.header_with "good") "5Xj8" 1)).
  reflexivity.
Defined.

(** ** Client SDK: the other paths of the wrapped fetch *)

Section SdkMore.
Context {W : Type} (env : Sdk.Env W) (self : Sdk.SolPay402ClientOptions.t).

(** The tail of the wrapper returns the response it was given and only
    writes to the console. *)
Lemma finish_returns (response : Sdk.Response) (w : W) (trace : list Sdk.Event) :
  exists lines,
    Sdk.finish env response (w, trace) = ((w, trace ++ lines), Ok response)
    /\ forallb SdkTrace.is_console lines = true.
Proof.
  unfold Sdk.finish.
  destruct (Sdk.headers_get _ _) as [[| c s] |].
  - exists []. rewrite app_nil_r. split; reflexivity.
  - unfold bind, try_catch, Sdk.lift.
    destruct (Sdk.JSON_parse_PaymentResponse env (String c s)) as [e | paymentResponse]; simpl.
    + eexists. split; [reflexivity | reflexivity].
    + unfold Sdk.processPaymentResponse.
      destruct (Sdk.PaymentResponse.success paymentResponse); simpl;
        eexists; (split; [reflexivity | reflexivity]).
  - exists []. rewrite app_nil_r. split; reflexivity.
Qed.

(** A response that asks for no payment is handed back as it is: when the
    status is not 402, or the [X-PAYMENT-REQUEST] header is absent or empty,
    the wrapped fetch returns that very response, and apart from the one
    fetch the run only writes to the console.  An error of the fetch itself
    is rethrown unchanged. *)
Theorem fetch_passes_other_responses_through (input : string) (init : option Sdk.RequestInit)
    (w w1 : W) :
  (forall response,
     Sdk.originalFetch env input init w = (w1, Ok response) ->
     Sdk.status response <> 402
     \/ Sdk.headers_get (Sdk.headers response) "X-PAYMENT-REQUEST" = None
     \/ Sdk.headers_get (Sdk.headers response) "X-PAYMENT-REQUEST" = Some EmptyString ->
     exists lines,
       run (Sdk.fetchWithPayment env self input init) w
       = ((w1, Sdk.Fetch input init :: lines), Ok response)
       /\ forallb SdkTrace.is_console lines = true)
  /\ (forall message,
        Sdk.originalFetch env input init w = (w1, Throw message) ->
        run (Sdk.fetchWithPayment env self input init) w
        = ((w1, [Sdk.Fetch input init]), Throw message)).
Proof.
  split.
  - intros response Hfetch Hcase.
    unfold run, Sdk.fetchWithPayment, bind, emit, call; simpl. rewrite Hfetch.
    assert (Hfinish : exists lines,
              Sdk.finish env response (w1, [Sdk.Fetch input init])
              = ((w1, Sdk.Fetch input init :: lines), Ok response)
              /\ forallb SdkTrace.is_console lines = true).
    { destruct (finish_returns response w1 [Sdk.Fetch input init]) as (lines & H & Hc).
      exists lines. split; [exact H | exact Hc]. }
    destruct (Sdk.status response =? 402) eqn:E.
    + apply Z.eqb_eq in E. destruct Hcase as [H | [H | H]]; [congruence | |];
        rewrite H; exact Hfinish.
    + exact Hfinish.
  - intros message Hfetch.
    unfold run, Sdk.fetchWithPayment, bind, emit, call; simpl. rewrite Hfetch. reflexivity.
Qed.

(** The cap at work.  When the first response has status 402 and its
    X-PAYMENT-REQUEST header parses to a request whose amount is greater, as
    JavaScript compares numbers, than the cap the client was constructed
    with (the [maxPaymentAmount] given, 1 when the property is absent), the
    wrapped fetch throws.  Its whole trace is the original fetch followed by
    the console message of the catch block, and the world is as the original
    fetch left it: no approval is asked, no blockhash fetched, nothing is
    signed, and no second request is sent. *)
Theorem amount_over_cap_is_refused (options : Sdk.SolPay402ClientOptions.t)
    (cap : JsNumber.number)
    (input : string) (init : option Sdk.RequestInit) (w w1 : W)
    (response : Sdk.Response) (paymentRequestHeader : string)
    (paymentRequest : Sdk.PaymentRequest.t) :
  Sdk.SolPay402ClientOptions.maxPaymentAmount options = Sdk.Value cap
  \/ (Sdk.SolPay402ClientOptions.maxPaymentAmount options = Sdk.Absent
      /\ cap = JsNumber.of_Z 1) ->
  Sdk.originalFetch env input init w = (w1, Ok response) ->
  Sdk.status response = 402 ->
  Sdk.headers_get (Sdk.headers response) "X-PAYMENT-REQUEST" = Some paymentRequestHeader ->
  paymentRequestHeader <> EmptyString ->
  Sdk.JSON_parse_PaymentRequest env paymentRequestHeader = Ok paymentRequest ->
  JsNumber.gtb (Sdk.PaymentRequest.amount paymentRequest) cap = true ->
  exists message,
    run (Sdk.fetchWithPayment env (Sdk.constructor options) input init) w
    = ((w1, [Sdk.Fetch input init; Sdk.ConsoleError "Payment processing error:" message]),
       Throw ("Payment failed: " +:+ message))
    /\ existsb Sdk.pays [Sdk.ConsoleError "Payment processing error:" message] = false.
Proof.
  intros Hcap Hfetch Hstatus Hheader Hne Hparse Hover.
  destruct (fetch_throws_when_exceeds env (Sdk.constructor options) input init w w1
              response paymentRequestHeader paymentRequest) as [message Hrun]; auto.
  { rewrite constructor_maxPaymentAmount.
    destruct Hcap as [-> | [-> ->]]; exact Hover. }
  exists message. split; [exact Hrun | reflexivity].
Qed.

(** A payment within the cap.  When the amount does not exceed the stored
    cap, the token is SOL or USDC, and the connection and the wallet answer,
    the client asks for approval unless [autoApprove] is set, fetches a
    blockhash, has the wallet sign the transaction and then the message
    [paymentId:amount:token:recipient:transaction], and repeats the request
    with the header built from them added as [X-PAYMENT].  The outcome of
    the wrapped fetch is the outcome of that second request, an error of it
    included, without the [Payment failed:] prefix. *)
Theorem fetch_pays_and_retries
    (input : string) (init : option Sdk.RequestInit) (w w1 w2 w3 w4 : W)
    (response : Sdk.Response) (paymentRequestHeader : string)
    (paymentRequest : Sdk.PaymentRequest.t) (blockhash transaction signature : string) :
  Sdk.originalFetch env input init w = (w1, Ok response) ->
  Sdk.status response = 402 ->
  Sdk.headers_get (Sdk.headers response) "X-PAYMENT-REQUEST" = Some paymentRequestHeader ->
  paymentRequestHeader <> EmptyString ->
  Sdk.JSON_parse_PaymentRequest env paymentRequestHeader = Ok paymentRequest ->
  Sdk.exceeds (Sdk.PaymentRequest.amount paymentRequest)
              (Sdk.read (Sdk.SolPay402ClientOptions.maxPaymentAmount self)) = false ->
  Sdk.PaymentRequest.token paymentRequest = "SOL"
  \/ Sdk.PaymentRequest.token paymentRequest = "USDC" ->
  Sdk.connection_getRecentBlockhash env w1 = (w2, Ok blockhash) ->
  Sdk.wallet_signTransaction env
    {| Sdk.recentBlockhash := blockhash; Sdk.feePayer := Sdk.wallet_publicKey env |} w2
  = (w3, Ok transaction) ->
  Sdk.wallet_signMessage env (SdkTrace.message_for env paymentRequest transaction) w3
  = (w4, Ok signature) ->
  run (Sdk.fetchWithPayment env self input init) w
  = ((fst (Sdk.originalFetch env input
             (Some (Sdk.with_payment init
                      (Sdk.JSON_stringify_header env
                         (SdkTrace.header_for paymentRequest transaction signature)))) w4),
      Sdk.Fetch input init :: SdkTrace.approval self
        ++ [Sdk.GetRecentBlockhash;
            Sdk.SignTransaction
              {| Sdk.recentBlockhash := blockhash; Sdk.feePayer := Sdk.wallet_publicKey env |};
            Sdk.SignMessage (SdkTrace.message_for env paymentRequest transaction);
            Sdk.Fetch input
              (Some (Sdk.with_payment init
                       (Sdk.JSON_stringify_header env
                          (SdkTrace.header_for paymentRequest transaction signature))))]),
     snd (Sdk.originalFetch env input
            (Some (Sdk.with_payment init
                     (Sdk.JSON_stringify_header env
                        (SdkTrace.header_for paymentRequest transaction signature)))) w4)).
Proof.
  intros. eapply fetch_pays_when_within; eassumption.
Qed.

(** A token the client does not know.  For a request within the cap whose
    token is neither SOL nor USDC the wrapped fetch throws, naming the
    token; no blockhash is fetched, nothing is signed and no second request
    is sent. *)
Theorem unsupported_token_is_refused
    (input : string) (init : option Sdk.RequestInit) (w w1 : W)
    (response : Sdk.Response) (paymentRequestHeader : string)
    (paymentRequest : Sdk.PaymentRequest.t) :
  Sdk.originalFetch env input init w = (w1, Ok response) ->
  Sdk.status response = 402 ->
  Sdk.headers_get (Sdk.headers response) "X-PAYMENT-REQUEST" = Some paymentRequestHeader ->
  paymentRequestHeader <> EmptyString ->
  Sdk.JSON_parse_PaymentRequest env paymentRequestHeader = Ok paymentRequest ->
  Sdk.exceeds (Sdk.PaymentRequest.amount paymentRequest)
              (Sdk.read (Sdk.SolPay402ClientOptions.maxPaymentAmount self)) = false ->
  Sdk.PaymentRequest.token paymentRequest <> "SOL" ->
  Sdk.PaymentRequest.token paymentRequest <> "USDC" ->
  run (Sdk.fetchWithPayment env self input init) w
  = ((w1,
      Sdk.Fetch input init :: SdkTrace.approval self
        ++ [Sdk.ConsoleError "Error creating payment:"
              ("Unsupported token: " +:+ Sdk.PaymentRequest.token paymentRequest);
            Sdk.ConsoleError "Payment processing error:"
              ("Failed to create payment: Unsupported token: "
                 +:+ Sdk.PaymentRequest.token paymentRequest)]),
     Throw ("Payment failed: Failed to create payment: Unsupported token: "
              +:+ Sdk.PaymentRequest.token paymentRequest)).
Proof.
  intros Hfetch Hstatus Hheader Hne Hparse Hwithin Hsol Husdc.
  unfold run, Sdk.fetchWithPayment, bind, emit, call; simpl.
  rewrite Hfetch, Hstatus; simpl.
  rewrite Hheader.
  destruct paymentRequestHeader as [| c s]; [congruence |].
  unfold try_catch, bind, Sdk.lift, emit, call, throw; simpl.
  rewrite Hparse; simpl.
  rewrite Hwithin; simpl.
  unfold SdkTrace.approval, Sdk.requestUserApproval, Sdk.createPayment,
    Sdk.createPaymentTransaction, try_catch, bind, emit, call, ret, throw.
  apply String.eqb_neq in Hsol, Husdc.
  destruct (or_bool (Sdk.read (Sdk.SolPay402ClientOptions.autoApprove self)) false);
    simpl; rewrite Hsol, Husdc; reflexivity.
Qed.

(** Every run of the wrapped fetch, whatever the server, the connection and
    the wallet do: the trace starts with the request as it was given, holds
    at most one more request, and that one carries the [X-PAYMENT] header
    and comes after the wallet was asked to sign a transaction and a
    message. *)
Theorem retry_only_after_signing (input : string) (init : option Sdk.RequestInit) (w : W) :
  exists rest,
    snd (fst (run (Sdk.fetchWithPayment env self input init) w)) = Sdk.Fetch input init :: rest
    /\ SdkTrace.signed_before_fetch false false rest = true
    /\ (length (List.filter Sdk.is_fetch rest) <= 1)%nat.
Proof.
  unfold run, Sdk.fetchWithPayment, bind, emit, call; simpl.
  destruct (Sdk.originalFetch env input init w) as [w1 [e | response]]; simpl.
  { eexists. split; [reflexivity |]. split; [reflexivity | simpl; lia]. }
  assert (Hfinish : exists rest,
            snd (fst (Sdk.finish env response (w1, [Sdk.Fetch input init])))
            = Sdk.Fetch input init :: rest
            /\ SdkTrace.signed_before_fetch false false rest = true
            /\ (length (List.filter Sdk.is_fetch rest) <= 1)%nat).
  { destruct (finish_returns response w1 [Sdk.Fetch input init]) as (lines & -> & Hc).
    exists lines. split; [reflexivity |]. clear - Hc.
    assert (Hall : forall a b, SdkTrace.signed_before_fetch a b lines = true
                               /\ List.filter Sdk.is_fetch lines = []).
    { induction lines as [| e lines IH]; intros a b; [split; reflexivity |].
      cbn [forallb] in Hc. apply andb_true_iff in Hc as [He Hc].
      destruct e; try discriminate He;
        cbn [SdkTrace.signed_before_fetch Sdk.is_fetch List.filter andb];
        apply IH; exact Hc. }
    destruct (Hall false false) as [-> ->]. split; [reflexivity | simpl; lia]. }
  destruct (Sdk.status response =? 402); [| exact Hfinish].
  destruct (Sdk.headers_get (Sdk.headers response) "X-PAYMENT-REQUEST") as [[| c s] |];
    try exact Hfinish.
  unfold try_catch, bind, Sdk.lift, emit, call, throw; simpl.
  destruct (Sdk.JSON_parse_PaymentRequest env (String c s)) as [e | paymentRequest]; simpl.
  { eexists. split; [reflexivity |]. split; [reflexivity | simpl; lia]. }
  destruct (Sdk.exceeds _ _); simpl.
  { eexists. split; [reflexivity |]. split; [reflexivity | simpl; lia]. }
  unfold Sdk.requestUserApproval, Sdk.createPayment, Sdk.createPaymentTransaction,
    Sdk.createPaymentHeader, try_catch, bind, emit, call, ret, throw.
  destruct (or_bool (Sdk.read (Sdk.SolPay402ClientOptions.autoApprove self)) false); simpl;
    (destruct (String.eqb (Sdk.PaymentRequest.token paymentRequest) "SOL");
     [| destruct (String.eqb (Sdk.PaymentRequest.token paymentRequest) "USDC")]); simpl;
    try (eexists; split; [reflexivity |]; split; [reflexivity | simpl; lia]);
    (destruct (Sdk.connection_getRecentBlockhash env w1) as [w2 [e | blockhash]]; simpl;
     [eexists; split; [reflexivity |]; split; [reflexivity | simpl; lia] |]);
    (destruct (Sdk.wallet_signTransaction env _ w2) as [w3 [e | transaction]]; simpl;
     [eexists; split; [reflexivity |]; split; [reflexivity | simpl; lia] |]);
    (destruct (Sdk.wallet_signMessage env _ w3) as [w4 [e | signature]]; simpl;
     [eexists; split; [reflexivity |]; split; [reflexivity | simpl; lia] |]);
    (destruct (Sdk.originalFetch env input _ w4) as [w5 r]; simpl;
     eexists; split; [reflexivity |];
     cbn [SdkTrace.signed_before_fetch Sdk.is_fetch SdkTrace.is_signTransaction
          SdkTrace.is_signMessage orb andb List.filter length];
     rewrite with_payment_pays; split; [reflexivity | simpl; lia]).
Qed.

End SdkMore.

Lemma fetch_passes_other_responses_through_witness :
  run (Sdk.fetchWithPayment
         {| Sdk.originalFetch := fun _ _ w => (w, Throw "Failed to fetch");
            Sdk.connection_getRecentBlockhash := Sdk.connection_getRecentBlockhash Examples.sdk_env;
            Sdk.wallet_signTransaction := Sdk.wallet_signTransaction Examples.sdk_env;
            Sdk.wallet_signMessage := Sdk.wallet_signMessage Examples.sdk_env;
            Sdk.wallet_publicKey := "PAYER";
            Sdk.JSON_parse_PaymentRequest := Sdk.JSON_parse_PaymentRequest Examples.sdk_env;
            Sdk.JSON_parse_PaymentResponse := Sdk.JSON_parse_PaymentResponse Examples.sdk_env;
            Sdk.JSON_stringify_header := Sdk.JSON_stringify_header Examples.sdk_env;
            Sdk.number_toString := Sdk.number_toString Examples.sdk_env |}
         Examples.no_options "https://api.example.com/protected-data" None) tt
  = ((tt, [Sdk.Fetch "https://api.example.com/protected-data" None]), Throw "Failed to fetch").
Proof.
  apply fetch_passes_other_responses_through. reflexivity.
Defined.

Lemma amount_over_cap_is_refused_witness :
  exists message,
    run (Sdk.fetchWithPayment Examples.sdk_env (Sdk.constructor Examples.no_options)
           "https://api.example.com/protected-data" None) tt
    = ((tt, [Sdk.Fetch "https://api.example.com/protected-data" None;
             Sdk.ConsoleError "Payment processing error:" message]),
       Throw ("Payment failed: " +:+ message)).
Proof.
  destruct (amount_over_cap_is_refused Examples.sdk_env Examples.no_options (JsNumber.of_Z 1)
              "https://api.example.com/protected-data" None tt tt
              {| Sdk.status := 402; Sdk.headers := [("X-PAYMENT-REQUEST", "{...}")] |}
              "{...}" Examples.asked) as [message [H _]].
  - right. split; reflexivity.
  - reflexivity.
  - reflexivity.
  - reflexivity.
  - discriminate.
  - reflexivity.
  - vm_compute. reflexivity.
  - exists message. exact H.
Defined.

Lemma fetch_pays_and_retries_witness :
  snd (fst (run (Sdk.fetchWithPayment Examples.sdk_env (Sdk.constructor Examples.generous)
                   "https://api.example.com/protected-data" None) tt))
  = [Sdk.Fetch "https://api.example.com/protected-data" None;
     Sdk.GetRecentBlockhash;
     Sdk.SignTransaction {| Sdk.recentBlockhash := "blockhash"; Sdk.feePayer := "PAYER" |};
     Sdk.SignMessage "1700000000000:5:USDC:MERCHANT:signed";
     Sdk.Fetch "https://api.example.com/protected-data"
       (Some {| Sdk.init_headers := [("X-PAYMENT", "{...}")] |})].
Proof.
  rewrite (fetch_pays_and_retries Examples.sdk_env (Sdk.constructor Examples.generous)
             "https://api.example.com/protected-data" None tt tt tt tt tt
             {| Sdk.status := 402; Sdk.headers := [("X-PAYMENT-REQUEST", "{...}")] |}
             "{...}" Examples.asked "blockhash" "signed" "signature").
  - reflexivity.
  - reflexivity.
  - reflexivity.
  - reflexivity.
  - discriminate.
  - reflexivity.
  - vm_compute. reflexivity.
  - right. reflexivity.
  - reflexivity.
  - reflexivity.
  - reflexivity.
Defined.

Lemma unsupported_token_is_refused_witness :
  snd (run (Sdk.fetchWithPayment Examples.asks_bonk (Sdk.constructor Examples.generous)
              "https://api.example.com/protected-data" None) tt)
  = Throw "Payment failed: Failed to create payment: Unsupported token: BONK".
Proof.
  rewrite (unsupported_token_is_refused Examples.asks_bonk (Sdk.constructor Examples.generous)
             "https://api.example.com/protected-data" None tt tt
             {| Sdk.status := 402; Sdk.headers := [("X-PAYMENT-REQUEST", "{...}")] |}
             "{...}" Examples.asked_bonk).
  - reflexivity.
  - reflexivity.
  - reflexivity.
  - reflexivity.
  - discriminate.
  - reflexivity.
  - vm_compute. reflexivity.
  - discriminate.
  - discriminate.
Defined.

(** ** Policy agent: what the limits hold *)

Section PolicyAgentFacts.
Import PolicyAgent.
Context (config : PolicyAgentConfig).

Lemma handlePolicyCheck_within (intent : Intent) (self : agent) :
  within_limit config self -> within_limit config (fst (handlePolicyCheck config intent self)).
Proof.
  intros Hwithin. unfold handlePolicyCheck.
  destruct (_ && _); [exact Hwithin |].
  destruct (JsNumber.gtb (JsNumber.add _ _) (dailyLimit config)) eqn:E; [exact Hwithin |].
  intros t v. cbn [fst dailySpending].
  destruct (decide (token intent = t)) as [<- | Hne].
  - rewrite lookup_insert_eq. intros [= <-]. exact E.
  - rewrite lookup_insert_ne by exact Hne. apply Hwithin.
Qed.

Lemma checkDailyReset_within (currentDay : Z) (self : agent) :
  within_limit config self -> within_limit config (checkDailyReset currentDay self).
Proof.
  intros Hwithin. unfold checkDailyReset.
  destruct (currentDay =? lastResetDay self); [exact Hwithin |].
  intros t v. cbn [dailySpending]. rewrite lookup_empty. discriminate.
Qed.

(** Whatever messages and timer ticks arrive, in any order, no spending the
    agent records for a token is greater than the daily limit; this holds of
    the agent as constructed, whose record is empty.  A check that is
    refused leaves the agent as it was. *)
Theorem recorded_spending_stays_within_daily_limit (events : list Event) (self : agent) :
  (within_limit config self -> within_limit config (run config events self))
  /\ within_limit config (run config events {| dailySpending := ∅; lastResetDay := lastResetDay self |})
  /\ (forall intent,
        snd (handlePolicyCheck config intent self) <> Approved ->
        fst (handlePolicyCheck config intent self) = self).
Proof.
  assert (Hrun : forall events self,
            within_limit config self -> within_limit config (run config events self)).
  { clear. induction events as [| e events IH]; intros self Hwithin; [exact Hwithin |].
    unfold run in *. cbn [fold_left]. apply IH.
    destruct e as [intent | currentDay]; cbn [step].
    - now apply handlePolicyCheck_within.
    - now apply checkDailyReset_within. }
  split; [apply Hrun |]. split.
  - apply Hrun. intros t v. cbn [dailySpending]. rewrite lookup_empty. discriminate.
  - intros intent. unfold handlePolicyCheck.
    destruct (_ && _); [reflexivity |].
    destruct (JsNumber.gtb (JsNumber.add _ _) (dailyLimit config)); [reflexivity |].
    cbn [snd]. congruence.
Qed.

(** The spending read for a token that holds a whole amount. *)
Lemma currentSpending_whole (self : agent) (t : string) (z : Z) :
  dailySpending self !! t = Some (JsNumber.of_Z z) ->
  currentSpending self t = JsNumber.of_Z z.
Proof.
  intros H. unfold currentSpending, JsNumber.or. rewrite H.
  unfold JsNumber.falsy, JsNumber.is_zero, JsNumber.of_Z. cbn [Qnum inject_Z].
  destruct (z =? 0) eqn:E; [| reflexivity].
  apply Z.eqb_eq in E. subst z. reflexivity.
Qed.

(** An intent whose amount is NaN is always approved, and after it the
    spending the agent reads for the token is 0 again, whatever had been
    spent. *)
Theorem nan_amount_is_approved_and_clears_spending (t : string) (self : agent) :
  snd (handlePolicyCheck config {| token := t; amount := JsNumber.NaN |} self) = Approved
  /\ currentSpending
       (fst (handlePolicyCheck config {| token := t; amount := JsNumber.NaN |} self)) t
     = JsNumber.of_Z 0.
Proof.
  unfold handlePolicyCheck; cbn [token amount].
  assert (Hgt : forall x, JsNumber.gtb JsNumber.NaN x = false) by (intros x; destruct x; reflexivity).
  assert (Hadd : forall x, JsNumber.add x JsNumber.NaN = JsNumber.NaN)
    by (intros x; destruct x; reflexivity).
  rewrite Hgt, andb_false_r, Hadd, Hgt. cbn [fst snd]. split; [reflexivity |].
  unfold currentSpending; cbn [dailySpending]. rewrite lookup_insert_eq. reflexivity.
Qed.

End PolicyAgentFacts.

Section PolicyAgentWhole.
Import PolicyAgent.
Context (config : PolicyAgentConfig) (limit : Z).
Hypothesis Hlimit : dailyLimit config = JsNumber.of_Z limit.
Hypothesis Hsafe : limit <= 2 ^ 52.

Lemma decide_all_whole (intents : list (string * Z)) :
  Forall (fun ta => 0 <= snd ta <= 2 ^ 52) intents ->
  forall (self : agent) (spent : string -> Z),
    whole_record limit self spent ->
    forall t,
      0 <= spent t + approved_total t intents (snd (decide_all config (map whole intents) self))
        <= limit
      /\ currentSpending (fst (decide_all config (map whole intents) self)) t
         = JsNumber.of_Z
             (spent t
              + approved_total t intents (snd (decide_all config (map whole intents) self))).
Proof.
  change (2 ^ 52) with 4503599627370496 in *.
  induction 1 as [| [t0 a] intents Ha Hall IH]; intros self spent Hrec t.
  - simpl. rewrite Z.add_0_r. apply Hrec.
  - cbn [map decide_all].
    destruct (handlePolicyCheck config (whole (t0, a)) self) as [self' d] eqn:Hcheck.
    assert (Hstep : exists spent',
              whole_record limit self' spent'
              /\ forall t, spent' t
                           = spent t + (if String.eqb t0 t
                                        then match d with Approved => a | _ => 0 end else 0)).
    { unfold handlePolicyCheck in Hcheck. cbn [whole token amount fst snd] in Hcheck.
      destruct (_ && _).
      { injection Hcheck as <- <-. exists spent. split; [exact Hrec |].
        intros t'. destruct (String.eqb t0 t'); lia. }
      destruct (Hrec t0) as [Hbound Hcur]. rewrite Hcur in Hcheck.
      rewrite add_of_Z in Hcheck
        by (change (2 ^ 53) with 9007199254740992; simpl in Ha; lia).
      rewrite Hlimit in Hcheck. unfold JsNumber.gtb in Hcheck. rewrite ltb_of_Z in Hcheck.
      destruct (limit <? spent t0 + a) eqn:E.
      { injection Hcheck as <- <-. exists spent. split; [exact Hrec |].
        intros t'. destruct (String.eqb t0 t'); lia. }
      apply Z.ltb_ge in E. injection Hcheck as <- <-.
      exists (fun t' => if String.eqb t0 t' then spent t0 + a else spent t').
      split.
      - intros t'. destruct (String.eqb_spec t0 t') as [<- | Hne].
        + split; [simpl in Ha; lia |].
          apply currentSpending_whole. cbn [dailySpending]. apply lookup_insert_eq.
        + split; [apply Hrec |].
          unfold currentSpending. cbn [dailySpending]. rewrite lookup_insert_ne by exact Hne.
          apply Hrec.
      - intros t'. destruct (String.eqb_spec t0 t') as [<- | Hne]; lia. }
    destruct Hstep as (spent' & Hrec' & Hspent').
    specialize (IH self' spent' Hrec' t).
    destruct (decide_all config (map whole intents) self') as [self'' ds].
    cbn [fst snd approved_total] in *.
    rewrite Hspent' in IH.
    replace (spent t
             + ((if String.eqb t0 t then match d with Approved => a | _ => 0 end else 0)
                + approved_total t intents ds))
      with (spent t + (if String.eqb t0 t then match d with Approved => a | _ => 0 end else 0)
            + approved_total t intents ds) by lia.
    exact IH.
Qed.

(** With a daily limit that is a whole number up to 2^52 and whole amounts
    from 0 to 2^52, the agent as constructed keeps exact accounts:
    after any checks, the spending it reads for a token is the sum of the
    amounts it approved for that token, and that sum is within the limit. *)
Theorem approved_amounts_sum_within_daily_limit (intents : list (string * Z)) (day : Z)
    (t : string) :
  Forall (fun ta => 0 <= snd ta <= 2 ^ 52) intents ->
  0 <= limit ->
  let result :=
    decide_all config (map whole intents) {| dailySpending := ∅; lastResetDay := day |} in
  approved_total t intents (snd result) <= limit
  /\ currentSpending (fst result) t = JsNumber.of_Z (approved_total t intents (snd result)).
Proof.
  intros Hall Hpos. cbv zeta.
  destruct (decide_all_whole intents Hall {| dailySpending := ∅; lastResetDay := day |}
              (fun _ => 0)) with (t := t) as [Hbound Hcur].
  - intros t'. split; [lia |].
    unfold currentSpending. cbn [dailySpending]. rewrite lookup_empty. reflexivity.
  - rewrite Z.add_0_l in Hbound, Hcur. split; [lia | exact Hcur].
Qed.

End PolicyAgentWhole.

(** The theorem for the policy of the examples: of the intents for SOL,
    700 and 300 are approved and 400 is refused. *)
Lemma approved_amounts_sum_within_daily_limit_witness :
  PolicyAgent.approved_total "SOL" Examples.intents
    (snd (PolicyAgent.decide_all Examples.policy (map PolicyAgent.whole Examples.intents)
            {| PolicyAgent.dailySpending := ∅; PolicyAgent.lastResetDay := 1 |})) = 1000
  /\ PolicyAgent.currentSpending
       (fst (PolicyAgent.decide_all Examples.policy (map PolicyAgent.whole Examples.intents)
               {| PolicyAgent.dailySpending := ∅; PolicyAgent.lastResetDay := 1 |})) "SOL"
     = JsNumber.of_Z 1000.
Proof.
  assert (Hall : Forall (fun ta : string * Z => 0 <= snd ta <= 2 ^ 52) Examples.intents).
  { change (2 ^ 52) with 4503599627370496. repeat constructor; simpl; lia. }
  destruct (approved_amounts_sum_within_daily_limit Examples.policy 1000 eq_refl
              ltac:(change (2 ^ 52) with 4503599627370496; lia)
              Examples.intents 1 "SOL" Hall ltac:(lia)) as [_ Hcur].
  split; [vm_compute; reflexivity |].
  rewrite Hcur. vm_compute. reflexivity.
Defined.
